(** * Order analytics DAG: a shallow embedding and its verification

    Source: [airflow-docker/dags/order_analytics_dag.py].

    The DAG's single task, [extract_transform_load], talks to a PostgreSQL
    database through psycopg2.  The Python control flow is embedded as a
    state-and-exception monad over a [world] (database, open transaction,
    fault oracle, event trace); each SQL text of the source is embedded as
    one constructor of [statement] whose meaning is given by [exec].

    Conventions of the embedding:
    - a DATE is the number of days since 1970-01-01, a TIMESTAMP the number
      of seconds since 1970-01-01 00:00:00;
    - a NUMERIC is a rational kept in lowest terms ([Qred]), so that equal
      numbers are equal terms; the rounding PostgreSQL applies to the
      quotient computed by AVG is not modelled;
    - the columns of the source relation "order" are taken NOT NULL;
    - a table is a list of rows (a heap); a primary key is an invariant of
      that list, not a property of its type. *)

From Stdlib Require Import List String ZArith QArith Lia Permutation Sorted Bool.
Import ListNotations.
Local Open Scope Z_scope.
Local Open Scope list_scope.

(** ** Values and relations *)

Definition date := Z.
Definition timestamp := Z.

(** [DATE(created_at)]: the calendar day a timestamp falls on. *)
Definition DATE (ts : timestamp) : date := ts / 86400.

(** A Python value travelling in a result tuple or an argument tuple. *)
Inductive value : Type :=
| VText (s : string)
| VInt (n : Z)
| VNum (q : Q)
| VDate (d : date).

Definition tuple := list value.

(** A row of the source relation ["order"]. *)
Module Order.
Record t := mk { product : string; amount : Q; created_at : timestamp }.
End Order.

(** A row of [product_performance]. *)
Module ProductPerformance.
Record row := mk {
  product : string;
  order_count : Z;
  total_sales : Q;
  avg_sales : Q;
  report_date : date }.
End ProductPerformance.

(** A row of [daily_trends]. *)
Module DailyTrends.
Record row := mk {
  order_date : date;
  daily_orders : Z;
  daily_sales : Q }.
End DailyTrends.

(** The database: the source relation, and the two destination relations,
    each of which may not exist yet ([None]).  The source relation belongs
    to the order service and is taken to exist. *)
Record database := mkdb {
  order : list Order.t;
  product_performance : option (list ProductPerformance.row);
  daily_trends : option (list DailyTrends.row) }.

Definition set_product_performance (t : option (list ProductPerformance.row))
  (d : database) : database :=
  mkdb (order d) t (daily_trends d).

Definition set_daily_trends (t : option (list DailyTrends.row))
  (d : database) : database :=
  mkdb (order d) (product_performance d) t.

Definition set_order (os : list Order.t) (d : database) : database :=
  mkdb os (product_performance d) (daily_trends d).

(** The rows of a destination relation; a relation that does not exist
    holds none. *)
Definition rows_of {A} (t : option (list A)) : list A :=
  match t with Some l => l | None => [] end.

(** ** Exceptions and results *)

Inductive exn : Type :=
| OperationalError        (* connection or server failure *)
| UndefinedTable          (* relation does not exist *)
| SyntaxError             (* INSERT target columns and expressions differ in number *)
| DatatypeMismatch        (* a value that the target column type refuses *)
| NumericValueOutOfRange  (* integer out of range *)
| CardinalityViolation    (* ON CONFLICT DO UPDATE cannot affect row a second time *)
| ValueError.             (* Python tuple unpacking of the wrong length *)

Inductive result (A : Type) : Type :=
| Ok (a : A)
| Raise (e : exn).
Arguments Ok {A} a.
Arguments Raise {A} e.

Definition rbind {A B} (r : result A) (f : A -> result B) : result B :=
  match r with Ok a => f a | Raise e => Raise e end.

(** ** Aggregates *)

(** COUNT( * ), SUM(amount) and AVG(amount) over the rows of one group; a
    group is never empty.  [AVG] is the exact quotient: PostgreSQL rounds it
    to a finite scale, which is not modelled. *)
Definition COUNT {A} (rows : list A) : Z := Z.of_nat (List.length rows).

Definition Qsum (xs : list Q) : Q := fold_right Qplus 0%Q xs.

Definition SUM (xs : list Q) : Q := Qred (Qsum xs).

Definition AVG (xs : list Q) : Q := Qred (Qsum xs / inject_Z (COUNT xs)).

(** ** The two aggregation queries *)

(** GROUP BY without ORDER BY leaves the order of the groups to the
    executor.  A [scan_order] is any rearrangement of the group keys. *)
Record scan_order := mk_scan_order {
  emit :> list string -> list string;
  emit_perm : forall l, Permutation (emit l) l }.

(** The executor that emits the groups in the order of first appearance. *)
Definition heap_order : scan_order :=
  mk_scan_order (fun l => l) (fun l => Permutation_refl l).

Definition orders_of_product (p : string) (os : list Order.t) : list Order.t :=
  filter (fun o => String.eqb (Order.product o) p) os.

Definition orders_of_date (d : date) (os : list Order.t) : list Order.t :=
  filter (fun o => Z.eqb (DATE (Order.created_at o)) d) os.

Definition product_group (os : list Order.t) (p : string) : tuple :=
  let g := map Order.amount (orders_of_product p os) in
  [VText p; VInt (COUNT g); VNum (SUM g); VNum (AVG g)].

(** [SELECT product, COUNT( * ), SUM(amount), AVG(amount)
     FROM "order" GROUP BY product] *)
Definition select_product_groups (plan : scan_order) (os : list Order.t)
  : list tuple :=
  map (product_group os) (plan (nodup string_dec (map Order.product os))).

Fixpoint insert_date (d : date) (l : list date) : list date :=
  match l with
  | [] => [d]
  | x :: l' => if d <=? x then d :: l else x :: insert_date d l'
  end.

(** ORDER BY order_date, on the distinct keys of the groups. *)
Definition sort_dates (l : list date) : list date :=
  fold_right insert_date [] l.

Definition date_group (os : list Order.t) (d : date) : tuple :=
  let g := map Order.amount (orders_of_date d os) in
  [VDate d; VInt (COUNT g); VNum (SUM g)].

Definition order_dates (os : list Order.t) : list date :=
  sort_dates (nodup Z.eq_dec (map (fun o => DATE (Order.created_at o)) os)).

(** [SELECT DATE(created_at) AS order_date, COUNT( * ), SUM(amount)
     FROM "order" GROUP BY order_date ORDER BY order_date] *)
Definition select_daily_groups (os : list Order.t) : list tuple :=
  map (date_group os) (order_dates os).

(** ** The two upsert statements *)

(** Assignment of a value to a column of the given SQL type.  Only the
    coercions that values of the constructors above need are modelled. *)
Definition as_varchar (v : value) : result string :=
  match v with VText s => Ok s | _ => Raise DatatypeMismatch end.

Definition as_integer (v : value) : result Z :=
  match v with
  | VInt n =>
      if (-2147483648 <=? n) && (n <=? 2147483647) then Ok n
      else Raise NumericValueOutOfRange
  | _ => Raise DatatypeMismatch
  end.

Definition as_numeric (v : value) : result Q :=
  match v with
  | VNum q => Ok q
  | VInt n => Ok (inject_Z n)
  | _ => Raise DatatypeMismatch
  end.

Definition as_date (v : value) : result date :=
  match v with VDate d => Ok d | _ => Raise DatatypeMismatch end.

(** [INSERT INTO product_performance
       (product, order_count, total_sales, avg_sales, report_date)]
    names five target columns. *)
Definition product_performance_columns : nat := 5.

(** [INSERT INTO daily_trends (order_date, daily_orders, daily_sales)]
    names three. *)
Definition daily_trends_columns : nat := 3.

(** Parse analysis of [INSERT ... (columns) VALUES rows]: PostgreSQL rejects
    the statement when a row of VALUES has more expressions than there are
    target columns ("INSERT has more expressions than target columns") or,
    a column list being given, fewer ("INSERT has more target columns than
    expressions").  Both are reported with SQLSTATE 42601, which psycopg2
    raises as [SyntaxError]. *)
Definition arity_ok (columns : nat) (page : list tuple) : bool :=
  forallb (fun t => Nat.eqb (List.length t) columns) page.

Definition pp_row_of_tuple (t : tuple) : result ProductPerformance.row :=
  match t with
  | [v1; v2; v3; v4; v5] =>
      rbind (as_varchar v1) (fun product =>
      rbind (as_integer v2) (fun order_count =>
      rbind (as_numeric v3) (fun total_sales =>
      rbind (as_numeric v4) (fun avg_sales =>
      rbind (as_date v5) (fun report_date =>
      Ok (ProductPerformance.mk product order_count total_sales avg_sales
            report_date))))))
  | _ => Raise SyntaxError
  end.

Definition dt_row_of_tuple (t : tuple) : result DailyTrends.row :=
  match t with
  | [v1; v2; v3] =>
      rbind (as_date v1) (fun order_date =>
      rbind (as_integer v2) (fun daily_orders =>
      rbind (as_numeric v3) (fun daily_sales =>
      Ok (DailyTrends.mk order_date daily_orders daily_sales))))
  | _ => Raise SyntaxError
  end.

(** [ON CONFLICT (product) DO UPDATE SET order_count = EXCLUDED.order_count,
     total_sales = EXCLUDED.total_sales, avg_sales = EXCLUDED.avg_sales,
     report_date = CURRENT_DATE] *)
Definition pp_do_update (today : date) (excluded old : ProductPerformance.row)
  : ProductPerformance.row :=
  ProductPerformance.mk
    (ProductPerformance.product old)
    (ProductPerformance.order_count excluded)
    (ProductPerformance.total_sales excluded)
    (ProductPerformance.avg_sales excluded)
    today.

(** [ON CONFLICT (order_date) DO UPDATE SET
     daily_orders = EXCLUDED.daily_orders, daily_sales = EXCLUDED.daily_sales] *)
Definition dt_do_update (excluded old : DailyTrends.row) : DailyTrends.row :=
  DailyTrends.mk
    (DailyTrends.order_date old)
    (DailyTrends.daily_orders excluded)
    (DailyTrends.daily_sales excluded).

(** Insert one proposed row into a relation with key column [key]: the row
    whose key conflicts is updated where it is, otherwise the proposed row is
    added to the heap. *)
Section Upsert.
Context {R K : Type}.
Variable key : R -> K.
Variable eqb : K -> K -> bool.
Variable do_update : R -> R -> R.
Variable row_of_tuple : tuple -> result R.

Fixpoint upsert_row (r : R) (tbl : list R) : list R :=
  match tbl with
  | [] => [r]
  | old :: tbl' =>
      if eqb (key old) (key r) then do_update r old :: tbl'
      else old :: upsert_row r tbl'
  end.

(** Execution of one INSERT ... ON CONFLICT DO UPDATE command, row by row.
    [touched] holds the keys the command has already inserted or updated:
    a second proposed row with such a key makes PostgreSQL abort the
    command ("ON CONFLICT DO UPDATE command cannot affect row a second
    time"). *)
Fixpoint insert_rows (touched : list K) (tbl : list R) (page : list tuple)
  : result (list R) :=
  match page with
  | [] => Ok tbl
  | t :: page' =>
      rbind (row_of_tuple t) (fun r =>
      if existsb (eqb (key r)) touched then Raise CardinalityViolation
      else insert_rows (key r :: touched) (upsert_row r tbl) page')
  end.
(** The row of a relation that holds a given key. *)
Definition find_row (k : K) (tbl : list R) : option R :=
  find (fun r => eqb (key r) k) tbl.
End Upsert.

Definition pp_insert_rows (today : date)
  : list string -> list ProductPerformance.row -> list tuple ->
    result (list ProductPerformance.row) :=
  insert_rows ProductPerformance.product String.eqb (pp_do_update today)
    pp_row_of_tuple.

Definition dt_insert_rows
  : list date -> list DailyTrends.row -> list tuple ->
    result (list DailyTrends.row) :=
  insert_rows DailyTrends.order_date Z.eqb dt_do_update dt_row_of_tuple.

(** ** Statements *)

(** The SQL texts of the source, one constructor each.  The two upsert
    texts carry the rows that [execute_values] substitutes for [%s]. *)
Inductive statement : Type :=
| CreateProductPerformance
| CreateDailyTrends
| SelectProductGroups
| SelectDailyGroups
| InsertProductPerformance (page : list tuple)
| InsertDailyTrends (page : list tuple).

Definition create_if_not_exists {A} (t : option (list A)) : option (list A) :=
  match t with Some rows => Some rows | None => Some [] end.

(** The effect of one statement on the database seen by the transaction,
    and the rows it returns. *)
Definition exec (today : date) (plan : scan_order) (s : statement)
  (d : database) : result (database * list tuple) :=
  match s with
  | CreateProductPerformance =>
      Ok (set_product_performance
            (create_if_not_exists (product_performance d)) d, [])
  | CreateDailyTrends =>
      Ok (set_daily_trends (create_if_not_exists (daily_trends d)) d, [])
  | SelectProductGroups => Ok (d, select_product_groups plan (order d))
  | SelectDailyGroups => Ok (d, select_daily_groups (order d))
  | InsertProductPerformance page =>
      match product_performance d with
      | None => Raise UndefinedTable
      | Some tbl =>
          if arity_ok product_performance_columns page then
            rbind (pp_insert_rows today [] tbl page) (fun tbl' =>
            Ok (set_product_performance (Some tbl') d, []))
          else Raise SyntaxError
      end
  | InsertDailyTrends page =>
      match daily_trends d with
      | None => Raise UndefinedTable
      | Some tbl =>
          if arity_ok daily_trends_columns page then
            rbind (dt_insert_rows [] tbl page) (fun tbl' =>
            Ok (set_daily_trends (Some tbl') d, []))
          else Raise SyntaxError
      end
  end.

(** Several statements in a row, as one transaction issues them. *)
Fixpoint exec_all (today : date) (plan : scan_order) (ss : list statement)
  (d : database) : result (database * list (list tuple)) :=
  match ss with
  | [] => Ok (d, [])
  | s :: ss' =>
      rbind (exec today plan s d) (fun '(d1, rows) =>
      rbind (exec_all today plan ss' d1) (fun '(d2, rowss) =>
      Ok (d2, rows :: rowss)))
  end.

(** ** The world and the monad of the Python code *)

(** What [logging.info] is called with. *)
Inductive log_line : Type :=
| LogEtlStart                                   (* "Starting ETL Process" *)
| LogProductHeader                              (* "Product Performance Report:" *)
| LogProduct (product order_count total_sales avg_sales : value)
| LogDailyHeader                                (* "Daily Trends Report:" *)
| LogDate (order_date daily_orders daily_sales : value)
| LogEtlDone.                                   (* "ETL Process Completed Successfully" *)

(** What the process does to the outside, in the order it does it. *)
Inductive event : Type :=
| EvLog (l : log_line)
| EvConnect
| EvExecute (s : statement)
| EvCommit
| EvRollback.

(** [committed] is the database as other sessions see it; [pending] is the
    database as seen by the transaction in progress, if there is one;
    [faults] tells, for each coming round trip to the server, whether it
    fails; [clock] is CURRENT_DATE; [planner] is the order in which the
    executor emits unordered groups; [trace] is the history of events. *)
Record world := mkworld {
  committed : database;
  pending : option database;
  faults : list bool;
  clock : date;
  planner : scan_order;
  trace : list event }.

Definition M (A : Type) : Type := world -> result A * world.

Definition ret {A} (a : A) : M A := fun w => (Ok a, w).

Definition raise {A} (e : exn) : M A := fun w => (Raise e, w).

Definition bind {A B} (c : M A) (k : A -> M B) : M B :=
  fun w =>
    match c w with
    | (Ok a, w') => k a w'
    | (Raise e, w') => (Raise e, w')
    end.

Declare Scope etl_scope.
Delimit Scope etl_scope with etl.
Notation "x <- c ;; k" := (bind c (fun x => k))
  (at level 61, c at next level, right associativity) : etl_scope.
Notation "c ;; k" := (bind c (fun _ => k))
  (at level 61, right associativity) : etl_scope.
Local Open Scope etl_scope.

Definition record (e : event) : M unit :=
  fun w =>
    (Ok tt, mkworld (committed w) (pending w) (faults w) (clock w) (planner w)
              (trace w ++ [e])).

(** One round trip to the server; the oracle says whether it fails. *)
Definition round_trip : M unit :=
  fun w =>
    match faults w with
    | [] => (Ok tt, w)
    | failed :: rest =>
        let w' := mkworld (committed w) (pending w) rest (clock w) (planner w)
                    (trace w) in
        if failed then (Raise OperationalError, w') else (Ok tt, w')
    end.

(** The database the current transaction reads and writes. *)
Definition snapshot (w : world) : database :=
  match pending w with Some d => d | None => committed w end.

Definition set_pending (p : option database) (w : world) : world :=
  mkworld (committed w) p (faults w) (clock w) (planner w) (trace w).

Definition logging_info (l : log_line) : M unit := record (EvLog l).

(** [get_db_connection]: [psycopg2.connect]. *)
Definition get_db_connection : M unit :=
  record EvConnect ;; round_trip.

(** [cur.execute(query)] followed, for a SELECT, by [cur.fetchall()].  The
    first statement of a connection opens its transaction. *)
Definition cur_execute (s : statement) : M (list tuple) :=
  record (EvExecute s) ;;
  (fun w => (Ok tt, set_pending (Some (snapshot w)) w)) ;;
  round_trip ;;
  fun w =>
    match exec (clock w) (planner w) s (snapshot w) with
    | Ok (d, rows) => (Ok rows, set_pending (Some d) w)
    | Raise e => (Raise e, w)
    end.

(** [conn.commit()]: nothing to do outside a transaction; otherwise the
    transaction is made durable, or lost when the round trip fails. *)
Definition conn_commit : M unit :=
  fun w =>
    match pending w with
    | None => (Ok tt, w)
    | Some d =>
        (record EvCommit ;;
         fun w1 =>
           match round_trip w1 with
           | (Ok _, w2) =>
               (Ok tt, mkworld d None (faults w2) (clock w2) (planner w2)
                         (trace w2))
           | (Raise e, w2) => (Raise e, set_pending None w2)
           end) w
    end.

(** [conn.rollback()]. *)
Definition conn_rollback : M unit :=
  fun w =>
    match pending w with
    | None => (Ok tt, w)
    | Some _ => (record EvRollback ;; fun w1 => (Ok tt, set_pending None w1)) w
    end.

(** [with get_db_connection() as conn, conn.cursor() as cur: body]: the
    connection's context manager commits when the body ends normally and
    rolls back when it raises, re-raising the exception. *)
Definition with_connection {A} (body : M A) : M A :=
  get_db_connection ;;
  fun w =>
    match body w with
    | (Ok a, w') => (conn_commit ;; ret a) w'
    | (Raise e, w') => (conn_rollback ;; raise e) w'
    end.

(** A Python [for] loop collecting one result per element. *)
Fixpoint for_each {A B} (l : list A) (body : A -> M B) : M (list B) :=
  match l with
  | [] => ret []
  | x :: l' => y <- body x ;; ys <- for_each l' body ;; ret (y :: ys)
  end.

(** psycopg2's [_paginate]: cut a sequence into pages of [page_size]
    elements, the last one possibly shorter.  [room] is the number of
    elements the page under construction still takes; [page] holds it in
    reverse. *)
Fixpoint paginate_from {A} (page_size room : nat) (page seq : list A)
  : list (list A) :=
  match seq with
  | [] => match page with [] => [] | _ => [rev page] end
  | x :: seq' =>
      match room with
      | S (S room') => paginate_from page_size (S room') (x :: page) seq'
      | _ => rev (x :: page) :: paginate_from page_size page_size [] seq'
      end
  end.

Definition paginate {A} (page_size : nat) (seq : list A) : list (list A) :=
  paginate_from page_size page_size [] seq.

(** [execute_values(cur, sql, argslist)], with its default [page_size=100]
    and its default template, a parenthesised list of as many placeholders
    as the argument tuples have values: one command per page. *)
Definition execute_values (sql : list tuple -> statement)
  (argslist : list tuple) : M unit :=
  for_each (paginate 100 argslist) (fun page => cur_execute (sql page)) ;;
  ret tt.

(** ** The functions of the DAG *)

Definition create_tables : M unit :=
  let queries := [CreateProductPerformance; CreateDailyTrends] in
  with_connection
    (for_each queries (fun query => cur_execute query) ;;
     conn_commit).

Definition fetch_query_results (query : statement) : M (list tuple) :=
  with_connection (cur_execute query).

Definition upsert_product_performance : M unit :=
  results <- fetch_query_results SelectProductGroups ;;
  logging_info LogProductHeader ;;
  data <- for_each results (fun row =>
            match row with
            | [product; order_count; total_sales; avg_sales] =>
                logging_info (LogProduct product order_count total_sales avg_sales) ;;
                ret [product; order_count; total_sales; avg_sales]
            | _ => raise ValueError
            end) ;;
  match data with
  | [] => ret tt
  | _ :: _ =>
      with_connection
        (execute_values InsertProductPerformance data ;;
         conn_commit)
  end.

Definition upsert_daily_trends : M unit :=
  results <- fetch_query_results SelectDailyGroups ;;
  logging_info LogDailyHeader ;;
  data <- for_each results (fun row =>
            match row with
            | [order_date; daily_orders; daily_sales] =>
                logging_info (LogDate order_date daily_orders daily_sales) ;;
                ret [order_date; daily_orders; daily_sales]
            | _ => raise ValueError
            end) ;;
  match data with
  | [] => ret tt
  | _ :: _ =>
      with_connection
        (execute_values InsertDailyTrends data ;;
         conn_commit)
  end.

Definition extract_transform_load : M unit :=
  logging_info LogEtlStart ;;
  create_tables ;;
  upsert_product_performance ;;
  upsert_daily_trends ;;
  logging_info LogEtlDone.

(** ** Runs *)

(** What the outside fixes for one run: the content of the source relation
    when the run starts, the date, the executor's order and the faults. *)
Record run_env := mkenv {
  env_order : list Order.t;
  env_clock : date;
  env_planner : scan_order;
  env_faults : list bool }.

Definition start_run (e : run_env) (d : database) : world :=
  mkworld (set_order (env_order e) d) None (env_faults e) (env_clock e)
    (env_planner e) [].

(** One run of the task: the outcome, the database it leaves and what it
    did. *)
Definition run (e : run_env) (d : database) : result unit * world :=
  extract_transform_load (start_run e d).

Definition run_database (e : run_env) (d : database) : database :=
  committed (snd (run e d)).

(** Runs one after the other, the source relation changing in between. *)
Definition run_sequence (es : list run_env) (d : database) : database :=
  fold_left (fun d e => run_database e d) es d.

(** ** Sample data *)

Definition d_2025_01_01 : date := 20089.
Definition d_2025_01_02 : date := 20090.

Definition noon (d : date) : timestamp := d * 86400 + 43200.

Definition empty_database : database := mkdb [] None None.

Definition fault_free (os : list Order.t) (today : date) : run_env :=
  mkenv os today heap_order [].

(** Two orders of total 15 on 2025-01-01 and one of 7 on 2025-01-02. *)
Definition january_orders : list Order.t :=
  [Order.mk "A" 5 (noon d_2025_01_01);
   Order.mk "B" 10 (noon d_2025_01_01 + 3600);
   Order.mk "A" 7 (noon d_2025_01_02)].

(** The orders (A,10), (A,20), (B,5). *)
Definition three_orders : list Order.t :=
  [Order.mk "A" 10 (noon d_2025_01_01);
   Order.mk "A" 20 (noon d_2025_01_01);
   Order.mk "B" 5 (noon d_2025_01_02)].

(** A database whose destination relations exist and are empty. *)
Definition ready_database (os : list Order.t) : database :=
  mkdb os (Some []) (Some []).

(** * Notions used to state the properties *)

(** The keys of the product groups: every product that has an order,
    once, in the executor's order. *)
Definition order_products (plan : scan_order) (os : list Order.t) : list string :=
  plan (nodup string_dec (map Order.product os)).

(** The key a tuple of values proposes: the value of its first column. *)
Definition pp_tuple_key (t : tuple) : string :=
  match t with VText s :: _ => s | _ => EmptyString end.

Definition dt_tuple_key (t : tuple) : date :=
  match t with VDate d :: _ => d | _ => 0 end.

(** The primary keys hold: no two rows of a destination relation have the
    same key. *)
Definition pk_ok (d : database) : Prop :=
  NoDup (map ProductPerformance.product (rows_of (product_performance d))) /\
  NoDup (map DailyTrends.order_date (rows_of (daily_trends d))).

(** The keys an upsert command proposes. *)
Definition proposed_products (s : statement) : list string :=
  match s with
  | InsertProductPerformance page => map pp_tuple_key page
  | _ => []
  end.

Definition proposed_dates (s : statement) : list date :=
  match s with
  | InsertDailyTrends page => map dt_tuple_key page
  | _ => []
  end.

(** [frame keepP keepD d d']: the rows whose keys [keepP] and [keepD]
    select are the same, in the same order, in [d] and [d']. *)
Definition frame (keepP : string -> bool) (keepD : date -> bool)
  (d d' : database) : Prop :=
  filter (fun r => keepP (ProductPerformance.product r))
    (rows_of (product_performance d')) =
  filter (fun r => keepP (ProductPerformance.product r))
    (rows_of (product_performance d)) /\
  filter (fun r => keepD (DailyTrends.order_date r))
    (rows_of (daily_trends d')) =
  filter (fun r => keepD (DailyTrends.order_date r))
    (rows_of (daily_trends d)).

(** The rows of a result, without the database. *)
Definition strip {A B} (r : result (A * B)) : result B :=
  match r with Ok (_, b) => Ok b | Raise e => Raise e end.

(** The shape the three write paths of the DAG share: a connection, the
    statements, an explicit commit. *)
Definition transaction (ss : list statement) : M unit :=
  with_connection (for_each ss cur_execute ;; conn_commit).

(** The events of a transaction that executes statements of [ss], after
    its connection. *)
Definition txn_event (ss : list statement) (ev : event) : Prop :=
  ev = EvCommit \/ ev = EvRollback \/ exists s, In s ss /\ ev = EvExecute s.

(** What a transaction started outside any other does: it leaves no
    transaction open; it either commits the effect of all its statements or
    raises and leaves the committed database as it was. *)
Record txn_summary (ss : list statement) (w : world) (r : result unit)
  (w' : world) : Prop := {
  txn_clock : clock w' = clock w;
  txn_planner : planner w' = planner w;
  txn_pending : pending w' = None;
  txn_trace :
    exists evs, trace w' = trace w ++ EvConnect :: evs /\
                Forall (txn_event ss) evs;
  txn_ok :
    r = Ok tt ->
    (exists rowss,
       exec_all (clock w) (planner w) ss (committed w) =
       Ok (committed w', rowss)) /\
    trace w' = trace w ++ EvConnect :: map EvExecute ss ++
                 match ss with [] => [] | _ => [EvCommit] end;
  txn_raise :
    forall e, r = Raise e ->
      committed w' = committed w /\
      (e = OperationalError \/
       exec_all (clock w) (planner w) ss (committed w) = Raise e);
  txn_fault_free :
    faults w = [] ->
    faults w' = [] /\
    forall e, r = Raise e ->
      exec_all (clock w) (planner w) ss (committed w) = Raise e }.

(** What a read does: the same, the rows of the query being returned
    once the context manager has committed. *)
Record fetch_summary (q : statement) (w : world) (r : result (list tuple))
  (w' : world) : Prop := {
  fetch_clock : clock w' = clock w;
  fetch_planner : planner w' = planner w;
  fetch_pending : pending w' = None;
  fetch_trace :
    exists evs, trace w' = trace w ++ EvConnect :: evs /\
                Forall (txn_event [q]) evs;
  fetch_ok :
    forall rows, r = Ok rows ->
      exec (clock w) (planner w) q (committed w) = Ok (committed w', rows) /\
      trace w' = trace w ++ [EvConnect; EvExecute q; EvCommit];
  fetch_raise :
    forall e, r = Raise e ->
      committed w' = committed w /\
      (e = OperationalError \/
       exec (clock w) (planner w) q (committed w) = Raise e);
  fetch_fault_free :
    faults w = [] ->
    faults w' = [] /\
    r = strip (exec (clock w) (planner w) q (committed w)) }.

(** The world with more events in its history. *)
Definition add_trace (evs : list event) (w : world) : world :=
  mkworld (committed w) (pending w) (faults w) (clock w) (planner w)
    (trace w ++ evs).

(** The log lines of the two reports. *)
Definition product_lines (rows : list tuple) : list event :=
  flat_map (fun row =>
              match row with
              | [a; b; c; d] => [EvLog (LogProduct a b c d)]
              | _ => []
              end) rows.

Definition date_lines (rows : list tuple) : list event :=
  flat_map (fun row =>
              match row with
              | [a; b; c] => [EvLog (LogDate a b c)]
              | _ => []
              end) rows.

(** The events each step may produce. *)
Definition schema_event (ev : event) : bool :=
  match ev with
  | EvConnect | EvCommit | EvRollback => true
  | EvExecute CreateProductPerformance | EvExecute CreateDailyTrends => true
  | _ => false
  end.

Definition product_event (ev : event) : bool :=
  match ev with
  | EvConnect | EvCommit | EvRollback => true
  | EvExecute SelectProductGroups | EvExecute (InsertProductPerformance _) => true
  | EvLog LogProductHeader | EvLog (LogProduct _ _ _ _) => true
  | _ => false
  end.

Definition daily_event (ev : event) : bool :=
  match ev with
  | EvConnect | EvCommit | EvRollback => true
  | EvExecute SelectDailyGroups | EvExecute (InsertDailyTrends _) => true
  | EvLog LogDailyHeader | EvLog (LogDate _ _ _) => true
  | _ => false
  end.

(** What an upsert step started outside any transaction does, [batch] being
    the rows its query returns, [q] the query, [sql] the upsert text. *)
Record upsert_summary (q : statement) (header : log_line)
  (lines : list tuple -> list event) (sql : list tuple -> statement)
  (batch : list tuple) (w : world) (r : result unit) (w' : world) : Prop := {
  us_clock : clock w' = clock w;
  us_planner : planner w' = planner w;
  us_pending : pending w' = None;
  us_trace :
    exists evs,
      trace w' = trace w ++ evs /\
      Forall (fun ev =>
                ev = EvConnect \/
                txn_event (q :: map sql (paginate 100 batch)) ev \/
                ev = EvLog header \/ In ev (lines batch)) evs;
  us_ok :
    r = Ok tt ->
    (exists rowss,
       exec_all (clock w) (planner w) (map sql (paginate 100 batch))
         (committed w) = Ok (committed w', rowss)) /\
    trace w' =
    trace w ++ [EvConnect; EvExecute q; EvCommit; EvLog header] ++
      lines batch ++
      match batch with
      | [] => []
      | _ => EvConnect :: map EvExecute (map sql (paginate 100 batch)) ++
             [EvCommit]
      end;
  us_raise :
    forall e, r = Raise e ->
      committed w' = committed w /\
      (e = OperationalError \/
       exec_all (clock w) (planner w) (map sql (paginate 100 batch))
         (committed w) = Raise e);
  us_fault_free :
    faults w = [] ->
    faults w' = [] /\
    forall e, r = Raise e ->
      exec_all (clock w) (planner w) (map sql (paginate 100 batch))
        (committed w) = Raise e }.

(** The database once both destination relations exist. *)
Definition ensure_schema (d : database) : database :=
  mkdb (order d) (create_if_not_exists (product_performance d))
    (create_if_not_exists (daily_trends d)).

(** The row of a date, the row of a product. *)
Definition dt_find (k : date) (tbl : list DailyTrends.row)
  : option DailyTrends.row :=
  find_row DailyTrends.order_date Z.eqb k tbl.

Definition pp_find (k : string) (tbl : list ProductPerformance.row)
  : option ProductPerformance.row :=
  find_row ProductPerformance.product String.eqb k tbl.

(** The statements of EnsureSchema. *)
Definition schema_statements : list statement :=
  [CreateProductPerformance; CreateDailyTrends].

(** The world once the start marker is logged. *)
Definition started (w : world) : world := add_trace [EvLog LogEtlStart] w.

(** Start, SchemaEnsured, ProductPerformanceWritten, DailyTrendsWritten,
    Complete; the failure of a step ends the run where it occurred. *)
Inductive etl_outcome (w : world) : result unit -> world -> Prop :=
| FailedInSchema e w1 :
    create_tables (started w) = (Raise e, w1) ->
    etl_outcome w (Raise e) w1
| FailedInProducts w1 e w2 :
    create_tables (started w) = (Ok tt, w1) ->
    upsert_product_performance w1 = (Raise e, w2) ->
    etl_outcome w (Raise e) w2
| FailedInDaily w1 w2 e w3 :
    create_tables (started w) = (Ok tt, w1) ->
    upsert_product_performance w1 = (Ok tt, w2) ->
    upsert_daily_trends w2 = (Raise e, w3) ->
    etl_outcome w (Raise e) w3
| Completed w1 w2 w3 :
    create_tables (started w) = (Ok tt, w1) ->
    upsert_product_performance w1 = (Ok tt, w2) ->
    upsert_daily_trends w2 = (Ok tt, w3) ->
    etl_outcome w (Ok tt) (add_trace [EvLog LogEtlDone] w3).

(** The complete transaction of EnsureSchema. *)
Definition schema_committed : list event :=
  [EvConnect; EvExecute CreateProductPerformance; EvExecute CreateDailyTrends;
   EvCommit].

(** A world at rest: no transaction is open. *)
Definition idle (d : database) (fs : list bool) (today : date)
  (plan : scan_order) (tr : list event) : world :=
  mkworld d None fs today plan tr.

(** The events of an upsert step whose query returned [batch]. *)
Definition product_step_event (batch : list tuple) (ev : event) : Prop :=
  ev = EvConnect \/
  txn_event (SelectProductGroups ::
             map InsertProductPerformance (paginate 100 batch)) ev \/
  ev = EvLog LogProductHeader \/ In ev (product_lines batch).

Definition daily_step_event (batch : list tuple) (ev : event) : Prop :=
  ev = EvConnect \/
  txn_event (SelectDailyGroups ::
             map InsertDailyTrends (paginate 100 batch)) ev \/
  ev = EvLog LogDailyHeader \/ In ev (date_lines batch).

(** The keys of the source: the products and the calendar dates of its
    orders. *)
Definition source_products (os : list Order.t) : list string :=
  map Order.product os.

Definition source_dates (os : list Order.t) : list date :=
  map (fun o => DATE (Order.created_at o)) os.

(** [not_among eqb keys k]: the key [k] is none of [keys]. *)
Definition not_among {K} (eqb : K -> K -> bool) (keys : list K) (k : K) : bool :=
  negb (existsb (eqb k) keys).

(** The sum of a list of integers. *)
Definition Zsum (l : list Z) : Z := fold_right Z.add 0 l.

(** The row of [daily_trends] for a date: the number of orders placed on
    that date and the sum of their amounts. *)
Definition daily_row (os : list Order.t) (x : date) : DailyTrends.row :=
  DailyTrends.mk x (COUNT (orders_of_date x os))
    (SUM (map Order.amount (orders_of_date x os))).

(** The log line of a date. *)
Definition date_log (os : list Order.t) (x : date) : event :=
  EvLog (LogDate (VDate x) (VInt (COUNT (orders_of_date x os)))
           (VNum (SUM (map Order.amount (orders_of_date x os))))).

(** A database in which product A already has a row. *)
Definition seeded_database (os : list Order.t) : database :=
  mkdb os (Some [ProductPerformance.mk "A" 1 5 5 20000]) (Some []).

(** One order of product A. *)
Definition one_order : list Order.t :=
  [Order.mk "A" 10 (noon d_2025_01_01)].

(** ** The columns of a report *)

(** The integer and the numeric value a tuple carries at a position. *)
Definition tuple_int (i : nat) (t : tuple) : Z :=
  match nth_error t i with Some (VInt n) => n | _ => 0 end.

Definition tuple_num (i : nat) (t : tuple) : Q :=
  match nth_error t i with Some (VNum q) => q | _ => 0%Q end.

(** The pages of the upsert commands of [daily_trends] in a history, in
    the order in which they were executed. *)
Definition daily_pages_issued (tr : list event) : list (list tuple) :=
  flat_map (fun ev =>
              match ev with
              | EvExecute (InsertDailyTrends page) => [page]
              | _ => []
              end) tr.

(** ** Retries *)

(** [default_args['retries']]. *)
Definition retries : nat := 1.

(** A task instance of the PythonOperator: the callable is tried and, as
    long as it raises and retries are left, tried again on the database the
    failed try left.  [env] gives the environment of each try. *)
Fixpoint task_tries (retries_left try_number : nat) (env : nat -> run_env)
  (d : database) : result unit * database :=
  match fst (run (env try_number) d) with
  | Ok _ => (Ok tt, run_database (env try_number) d)
  | Raise e =>
      match retries_left with
      | O => (Raise e, run_database (env try_number) d)
      | S n => task_tries n (S try_number) env (run_database (env try_number) d)
      end
  end.

Definition etl_task (env : nat -> run_env) (d : database)
  : result unit * database :=
  task_tries retries 1 env d.

(** The dates of a batch that a relation does not hold yet. *)
Definition new_dates (tbl : list DailyTrends.row) (os : list Order.t)
  : list date :=
  filter (not_among Z.eqb (map DailyTrends.order_date tbl)) (order_dates os).

(** * Facts about the embedding *)

(** ** Sorting *)

Lemma insert_date_perm (d : date) (l : list date) :
  Permutation (insert_date d l) (d :: l).
Proof.
  induction l as [|x l IH]; simpl.
  - apply Permutation_refl.
  - destruct (d <=? x).
    + apply Permutation_refl.
    + eapply Permutation_trans; [apply perm_skip, IH | apply perm_swap].
Qed.

Lemma sort_dates_perm (l : list date) : Permutation (sort_dates l) l.
Proof.
  induction l as [|x l IH]; simpl.
  - constructor.
  - eapply Permutation_trans; [apply insert_date_perm | apply perm_skip, IH].
Qed.

Lemma insert_date_sorted (d : date) (l : list date) :
  StronglySorted Z.lt l -> ~ In d l -> StronglySorted Z.lt (insert_date d l).
Proof.
  induction l as [|x l IH]; simpl; intros Hs Hn.
  - repeat constructor.
  - inversion Hs as [|? ? Hs' Hall]; subst.
    destruct (Z.leb_spec d x) as [Hle|Hgt].
    + assert (d < x) by lia.
      constructor; [assumption|].
      constructor; [assumption|].
      eapply Forall_impl; [|exact Hall]. simpl; intros; lia.
    + constructor.
      * apply IH; [assumption | tauto].
      * apply Forall_forall. intros y Hy.
        apply (Permutation_in _ (insert_date_perm d l)) in Hy.
        destruct Hy as [<-|Hy]; [lia|].
        rewrite Forall_forall in Hall. auto.
Qed.

Lemma sort_dates_sorted (l : list date) :
  NoDup l -> StronglySorted Z.lt (sort_dates l).
Proof.
  induction 1 as [|x l Hx Hnd IH]; simpl.
  - constructor.
  - apply insert_date_sorted; [assumption|].
    intros Hin. apply Hx.
    exact (Permutation_in _ (sort_dates_perm l) Hin).
Qed.

(** The keys of the daily groups: every date on which an order was placed,
    once, in ascending order. *)
Lemma order_dates_sorted (os : list Order.t) :
  StronglySorted Z.lt (order_dates os).
Proof. apply sort_dates_sorted, NoDup_nodup. Qed.

Lemma order_dates_In (os : list Order.t) (d : date) :
  In d (order_dates os) <-> exists o, In o os /\ DATE (Order.created_at o) = d.
Proof.
  unfold order_dates. split.
  - intros H. apply (Permutation_in _ (sort_dates_perm _)) in H.
    apply nodup_In, in_map_iff in H. destruct H as [o [Ho Hin]]. eauto.
  - intros [o [Hin Ho]].
    apply (Permutation_in _ (Permutation_sym (sort_dates_perm _))).
    apply nodup_In, in_map_iff. eauto.
Qed.

Lemma order_dates_NoDup (os : list Order.t) : NoDup (order_dates os).
Proof.
  unfold order_dates.
  eapply Permutation_NoDup;
    [apply Permutation_sym, sort_dates_perm | apply NoDup_nodup].
Qed.

Lemma order_products_NoDup (plan : scan_order) (os : list Order.t) :
  NoDup (order_products plan os).
Proof.
  unfold order_products.
  eapply Permutation_NoDup;
    [apply Permutation_sym, emit_perm | apply NoDup_nodup].
Qed.

Lemma order_products_In (plan : scan_order) (os : list Order.t) (p : string) :
  In p (order_products plan os) <-> exists o, In o os /\ Order.product o = p.
Proof.
  unfold order_products. split.
  - intros H. apply (Permutation_in _ (emit_perm plan _)) in H.
    apply nodup_In, in_map_iff in H. destruct H as [o [Ho Hin]]. eauto.
  - intros [o [Hin Ho]].
    apply (Permutation_in _ (Permutation_sym (emit_perm plan _))).
    apply nodup_In, in_map_iff. eauto.
Qed.

(** ** Pages *)

Lemma paginate_from_concat {A} (page_size : nat) (seq : list A) :
  forall room page,
    List.concat (paginate_from page_size room page seq) = rev page ++ seq.
Proof.
  induction seq as [|x seq IH]; intros room page; simpl.
  - destruct page; simpl; [reflexivity|].
    now rewrite !app_nil_r.
  - destruct room as [|[|room]]; simpl; rewrite IH; simpl;
      now rewrite <- ?app_assoc.
Qed.

Lemma paginate_concat {A} (page_size : nat) (seq : list A) :
  List.concat (paginate page_size seq) = seq.
Proof. unfold paginate. now rewrite paginate_from_concat. Qed.

Lemma paginate_from_nonempty {A} (page_size : nat) (seq : list A) :
  forall room page,
    Forall (fun p => p <> []) (paginate_from page_size room page seq).
Proof.
  induction seq as [|x seq IH]; intros room page; simpl.
  - destruct page as [|y page]; constructor; [|constructor].
    simpl. intros H. now apply app_eq_nil in H as [_ H].
  - destruct room as [|[|room]]; try apply IH;
      (constructor; [|apply IH]); simpl; intros H;
      now apply app_eq_nil in H as [_ H].
Qed.

Lemma paginate_cons {A} (page_size : nat) (x : A) (seq : list A) :
  exists page pages, paginate page_size (x :: seq) = page :: pages /\
                     exists page', page = x :: page'.
Proof.
  pose proof (paginate_concat page_size (x :: seq)) as Hc.
  pose proof (paginate_from_nonempty page_size (x :: seq) page_size []) as Hn.
  fold (paginate page_size (x :: seq)) in Hn.
  destruct (paginate page_size (x :: seq)) as [|page pages]; [discriminate|].
  inversion Hn as [|? ? Hp _]; subst.
  destruct page as [|y page']; [congruence|].
  simpl in Hc. injection Hc as -> _. eauto.
Qed.

(** ** One INSERT ... ON CONFLICT DO UPDATE command *)

Section UpsertFacts.
Context {R K : Type}.
Variable key : R -> K.
Variable eqb : K -> K -> bool.
Variable do_update : R -> R -> R.
Variable row_of_tuple : tuple -> result R.
Variable tuple_key : tuple -> K.
Hypothesis eqb_eq : forall a b, eqb a b = true <-> a = b.
Hypothesis do_update_key : forall r old, key (do_update r old) = key old.
Hypothesis row_key : forall t r, row_of_tuple t = Ok r -> key r = tuple_key t.
Hypothesis row_error : forall t, row_of_tuple t <> Raise CardinalityViolation.

Let upsert := upsert_row key eqb do_update.
Let insert := insert_rows key eqb do_update row_of_tuple.

Lemma eqb_refl_key (a : K) : eqb a a = true.
Proof. now apply eqb_eq. Qed.

Lemma eqb_neq (a b : K) : a <> b -> eqb a b = false.
Proof.
  intros H. destruct (eqb a b) eqn:E; [|reflexivity].
  now apply eqb_eq in E.
Qed.

Lemma eqb_false_sym (a b : K) : eqb a b = false -> eqb b a = false.
Proof.
  intros H. apply eqb_neq. intros ->. now rewrite eqb_refl_key in H.
Qed.

Lemma existsb_eqb_In (k : K) (l : list K) :
  existsb (eqb k) l = true <-> In k l.
Proof.
  rewrite existsb_exists. split.
  - intros [x [Hin Hx]]. apply eqb_eq in Hx. now subst.
  - intros Hin. exists k. split; [assumption | apply eqb_refl_key].
Qed.

Lemma upsert_row_fresh (r : R) (tbl : list R) :
  ~ In (key r) (map key tbl) -> upsert r tbl = tbl ++ [r].
Proof.
  unfold upsert in *. induction tbl as [|old tbl IH]; simpl; intros Hn.
  - reflexivity.
  - rewrite eqb_neq by tauto. f_equal. apply IH. tauto.
Qed.

Lemma upsert_row_keys (r : R) (tbl : list R) :
  map key (upsert r tbl) =
  if existsb (eqb (key r)) (map key tbl) then map key tbl
  else map key tbl ++ [key r].
Proof.
  unfold upsert in *. induction tbl as [|old tbl IH]; simpl.
  - reflexivity.
  - destruct (eqb (key old) (key r)) eqn:E.
    + apply eqb_eq in E. rewrite E, eqb_refl_key. simpl.
      now rewrite do_update_key, E.
    + rewrite (eqb_false_sym _ _ E). simpl. rewrite IH. now destruct (existsb _ _).
Qed.

Lemma upsert_row_NoDup (r : R) (tbl : list R) :
  NoDup (map key tbl) -> NoDup (map key (upsert r tbl)).
Proof.
  intros Hnd. rewrite upsert_row_keys.
  destruct (existsb _ _) eqn:E; [assumption|].
  apply NoDup_app; [assumption | repeat constructor; intros [] |].
  intros k Hk [<-|[]].
  apply existsb_eqb_In in Hk. congruence.
Qed.

(** Rows with another key are neither changed, removed nor added. *)
Lemma upsert_row_frame (keep : K -> bool) (r : R) (tbl : list R) :
  keep (key r) = false ->
  filter (fun x => keep (key x)) (upsert r tbl) =
  filter (fun x => keep (key x)) tbl.
Proof.
  unfold upsert in *. intros Hk. induction tbl as [|old tbl IH]; simpl.
  - now rewrite Hk.
  - destruct (eqb (key old) (key r)) eqn:E; simpl.
    + apply eqb_eq in E. now rewrite do_update_key, E, Hk.
    + now rewrite IH.
Qed.

Lemma find_row_upsert (k : K) (r : R) (tbl : list R) :
  find_row key eqb k (upsert r tbl) =
  if eqb (key r) k
  then Some (match find_row key eqb k tbl with
             | Some old => do_update r old
             | None => r
             end)
  else find_row key eqb k tbl.
Proof.
  unfold upsert in *. unfold find_row. induction tbl as [|old tbl IH]; simpl.
  - now destruct (eqb (key r) k).
  - destruct (eqb (key old) (key r)) eqn:E; simpl.
    + apply eqb_eq in E. rewrite do_update_key, E.
      now destruct (eqb (key r) k).
    + destruct (eqb (key old) k) eqn:E2.
      * apply eqb_eq in E2. subst k. now rewrite (eqb_false_sym _ _ E).
      * apply IH.
Qed.

Ltac insert_step H :=
  simpl in H;
  match type of H with
  | context [row_of_tuple ?t] =>
      let E := fresh "Erow" in
      destruct (row_of_tuple t) eqn:E; simpl in H; [|try discriminate]
  end;
  match type of H with
  | context [existsb ?f ?l] =>
      let E := fresh "Etouched" in
      destruct (existsb f l) eqn:E; [try discriminate|]
  end.

Lemma insert_rows_NoDup (page : list tuple) :
  forall touched tbl tbl',
    insert touched tbl page = Ok tbl' ->
    NoDup (map key tbl) -> NoDup (map key tbl').
Proof.
  unfold insert in *.
  induction page as [|t page IH]; intros touched tbl tbl' H Hnd.
  - simpl in H. now injection H as <-.
  - insert_step H. eapply IH; [exact H|]. now apply upsert_row_NoDup.
Qed.

Lemma insert_rows_frame (keep : K -> bool) (page : list tuple) :
  forall touched tbl tbl',
    insert touched tbl page = Ok tbl' ->
    (forall t, In t page -> keep (tuple_key t) = false) ->
    filter (fun x => keep (key x)) tbl' = filter (fun x => keep (key x)) tbl.
Proof.
  unfold insert in *.
  induction page as [|t page IH]; intros touched tbl tbl' H Hk.
  - simpl in H. now injection H as <-.
  - insert_step H.
    rewrite (IH _ _ _ H) by (intros; apply Hk; now right).
    apply upsert_row_frame.
    rewrite (row_key _ _ Erow). apply Hk. now left.
Qed.

(** A command that succeeds proposed each key once. *)
Lemma insert_rows_distinct (page : list tuple) :
  forall touched tbl tbl',
    insert touched tbl page = Ok tbl' ->
    NoDup (map tuple_key page) /\
    forall t, In t page -> ~ In (tuple_key t) touched.
Proof.
  unfold insert in *.
  induction page as [|t page IH]; intros touched tbl tbl' H.
  - split; [constructor | intros ? []].
  - insert_step H. destruct (IH _ _ _ H) as [Hnd Hdis].
    rewrite (row_key _ _ Erow) in *.
    assert (~ In (tuple_key t) touched) as Ht.
    { intros Hin. apply existsb_eqb_In in Hin. congruence. }
    split.
    + simpl. constructor; [|assumption].
      intros Hin. apply in_map_iff in Hin as [t' [Heq Hin]].
      apply (Hdis _ Hin). rewrite Heq. now left.
    + intros t' [<-|Hin]; [assumption|].
      intros Hin'. apply (Hdis _ Hin). now right.
Qed.

(** Distinct keys are never affected twice. *)
Lemma insert_rows_no_cardinality_violation (page : list tuple) :
  forall touched tbl,
    NoDup (map tuple_key page) ->
    (forall t, In t page -> ~ In (tuple_key t) touched) ->
    insert touched tbl page <> Raise CardinalityViolation.
Proof.
  unfold insert in *.
  induction page as [|t page IH]; intros touched tbl Hnd Hdis; simpl.
  - discriminate.
  - destruct (row_of_tuple t) as [r|e] eqn:Erow; simpl.
    + rewrite (row_key _ _ Erow).
      inversion Hnd as [|? ? Hnotin Hnd']; subst.
      destruct (existsb _ touched) eqn:E.
      * apply existsb_eqb_In in E. exfalso. apply (Hdis t); auto. now left.
      * apply IH; [assumption|].
        intros t' Hin [Heq|Hin'].
        -- apply Hnotin. rewrite Heq. now apply in_map.
        -- apply (Hdis t'); auto. now right.
    + intros H. apply (row_error t). congruence.
Qed.

Lemma insert_rows_succeeds (page : list tuple) :
  forall touched tbl,
    (forall t, In t page -> exists r, row_of_tuple t = Ok r) ->
    NoDup (map tuple_key page) ->
    (forall t, In t page -> ~ In (tuple_key t) touched) ->
    exists tbl', insert touched tbl page = Ok tbl'.
Proof.
  unfold insert in *.
  induction page as [|t page IH]; intros touched tbl Hrow Hnd Hdis; simpl.
  - eauto.
  - destruct (Hrow t) as [r Er]; [now left|]. rewrite Er. simpl.
    rewrite (row_key _ _ Er).
    inversion Hnd as [|? ? Hnotin Hnd']; subst.
    destruct (existsb _ touched) eqn:E.
    + apply existsb_eqb_In in E. exfalso. apply (Hdis t); auto. now left.
    + apply IH; [intros; apply Hrow; now right | assumption |].
      intros t' Hin [Heq|Hin'].
      * apply Hnotin. rewrite Heq. now apply in_map.
      * apply (Hdis t'); auto. now right.
Qed.

(** After a successful command a key that was not proposed holds what it
    held, a key that was proposed holds the proposed row: as it is when the
    key is new, merged into the old row by DO UPDATE otherwise. *)
Lemma insert_rows_find_other (page : list tuple) (k : K) :
  forall touched tbl tbl',
    insert touched tbl page = Ok tbl' ->
    ~ In k (map tuple_key page) ->
    find_row key eqb k tbl' = find_row key eqb k tbl.
Proof.
  unfold insert in *.
  induction page as [|t page IH]; intros touched tbl tbl' H Hk.
  - simpl in H. now injection H as <-.
  - insert_step H. rewrite (IH _ _ _ H) by (simpl in Hk; tauto).
    fold upsert. rewrite find_row_upsert, (row_key _ _ Erow).
    rewrite eqb_neq; [reflexivity|]. simpl in Hk. tauto.
Qed.

Lemma insert_rows_find_proposed (page : list tuple) (t : tuple) (r : R) :
  forall touched tbl tbl',
    insert touched tbl page = Ok tbl' ->
    In t page -> row_of_tuple t = Ok r ->
    find_row key eqb (tuple_key t) tbl' =
    Some (match find_row key eqb (tuple_key t) tbl with
          | Some old => do_update r old
          | None => r
          end).
Proof.
  induction page as [|t0 page IH]; intros touched tbl tbl' H Hin Hr.
  - destruct Hin.
  - pose proof (insert_rows_distinct _ _ _ _ H) as [Hnd _].
    unfold insert in *. insert_step H. inversion Hnd as [|? ? Hnotin Hnd']; subst.
    destruct Hin as [->|Hin].
    + rewrite (insert_rows_find_other _ _ _ _ _ H Hnotin).
      fold upsert. rewrite find_row_upsert.
      rewrite Hr in Erow. injection Erow as <-.
      now rewrite (row_key _ _ Hr), eqb_refl_key.
    + rewrite (IH _ _ _ H Hin Hr).
      fold upsert. rewrite find_row_upsert, (row_key _ _ Erow).
      rewrite eqb_neq; [reflexivity|].
      intros Heq. apply Hnotin. rewrite Heq. now apply in_map.
Qed.

(** Proposed rows whose keys are all new are added in the order of the
    command. *)
Lemma insert_rows_fresh (page : list tuple) :
  forall touched tbl tbl',
    insert touched tbl page = Ok tbl' ->
    (forall t, In t page -> ~ In (tuple_key t) (map key tbl)) ->
    exists rows,
      Forall2 (fun t r => row_of_tuple t = Ok r) page rows /\
      tbl' = tbl ++ rows.
Proof.
  induction page as [|t page IH]; intros touched tbl tbl' H Hfresh.
  - simpl in H. injection H as <-. exists []. split; [constructor|].
    now rewrite app_nil_r.
  - pose proof (insert_rows_distinct _ _ _ _ H) as [Hnd _].
    unfold insert in *. insert_step H. inversion Hnd as [|? ? Hnotin Hnd']; subst.
    fold upsert in H. rewrite upsert_row_fresh in H.
    2:{ rewrite (row_key _ _ Erow). apply Hfresh. now left. }
    destruct (IH _ _ _ H) as [rows [Hrows ->]].
    { intros t' Hin. rewrite map_app, in_app_iff. simpl.
      rewrite (row_key _ _ Erow).
      intros [Hold|[Heq|[]]].
      - apply (Hfresh t'); auto. now right.
      - apply Hnotin. rewrite Heq. now apply in_map. }
    match type of Erow with _ = Ok ?r => exists (r :: rows) end.
    split; [now constructor|].
    now rewrite <- app_assoc.
Qed.

End UpsertFacts.

(** ** The two destination relations *)

Lemma pp_do_update_key today r old :
  ProductPerformance.product (pp_do_update today r old) =
  ProductPerformance.product old.
Proof. reflexivity. Qed.

Lemma dt_do_update_key r old :
  DailyTrends.order_date (dt_do_update r old) = DailyTrends.order_date old.
Proof. reflexivity. Qed.

Ltac destruct_values :=
  repeat match goal with
    | H : context [match ?v with VText _ => _ | _ => _ end] |- _ =>
        destruct v; simpl in H; try discriminate
    | H : context [if ?b then _ else _] |- _ =>
        destruct b; simpl in H; try discriminate
    end.

Lemma pp_row_key t r :
  pp_row_of_tuple t = Ok r -> ProductPerformance.product r = pp_tuple_key t.
Proof.
  destruct t as [|v1 [|v2 [|v3 [|v4 [|v5 [|v6 t]]]]]]; try discriminate.
  unfold pp_row_of_tuple, as_varchar, as_integer, as_numeric, as_date.
  intros H. destruct_values; injection H as <-; reflexivity.
Qed.

Lemma dt_row_key t r :
  dt_row_of_tuple t = Ok r -> DailyTrends.order_date r = dt_tuple_key t.
Proof.
  destruct t as [|v1 [|v2 [|v3 [|v4 t]]]]; try discriminate.
  unfold dt_row_of_tuple, as_varchar, as_integer, as_numeric, as_date.
  intros H. destruct_values; injection H as <-; reflexivity.
Qed.

Lemma pp_row_error t : pp_row_of_tuple t <> Raise CardinalityViolation.
Proof.
  destruct t as [|v1 [|v2 [|v3 [|v4 [|v5 [|v6 t]]]]]]; try discriminate.
  unfold pp_row_of_tuple, as_varchar, as_integer, as_numeric, as_date.
  intros H. destruct_values.
Qed.

Lemma dt_row_error t : dt_row_of_tuple t <> Raise CardinalityViolation.
Proof.
  destruct t as [|v1 [|v2 [|v3 [|v4 t]]]]; try discriminate.
  unfold dt_row_of_tuple, as_varchar, as_integer, as_numeric, as_date.
  intros H. destruct_values.
Qed.

Lemma frame_refl keepP keepD d : frame keepP keepD d d.
Proof. now split. Qed.

Lemma frame_trans keepP keepD d1 d2 d3 :
  frame keepP keepD d1 d2 -> frame keepP keepD d2 d3 -> frame keepP keepD d1 d3.
Proof. intros [H1 H2] [H3 H4]. split; congruence. Qed.

Lemma rows_of_create {A} (t : option (list A)) :
  rows_of (create_if_not_exists t) = rows_of t.
Proof. now destruct t. Qed.

Section ExecFacts.
Variable today : date.
Variable plan : scan_order.

Ltac exec_cases H :=
  match type of H with
  | exec _ _ ?s ?d = _ =>
      destruct s; simpl in H;
      repeat match type of H with
        | context [match product_performance d with _ => _ end] =>
            destruct (product_performance d) eqn:?; simpl in H
        | context [match daily_trends d with _ => _ end] =>
            destruct (daily_trends d) eqn:?; simpl in H
        | context [if ?b then _ else _] =>
            destruct b eqn:?; simpl in H
        | context [rbind ?c _] =>
            destruct c eqn:?; simpl in H
        end;
      try discriminate;
      try (injection H as <- <-)
  end.

Lemma exec_order s d d' rows :
  exec today plan s d = Ok (d', rows) -> order d' = order d.
Proof. intros H. exec_cases H; reflexivity. Qed.

Lemma exec_pk_ok s d d' rows :
  exec today plan s d = Ok (d', rows) -> pk_ok d -> pk_ok d'.
Proof.
  intros H [Hp Hd]. exec_cases H; split; simpl in *;
    rewrite ?rows_of_create; try assumption.
  - eapply (insert_rows_NoDup ProductPerformance.product String.eqb
              (pp_do_update today) pp_row_of_tuple
              String.eqb_eq (pp_do_update_key today)); eassumption.
  - eapply (insert_rows_NoDup DailyTrends.order_date Z.eqb dt_do_update
              dt_row_of_tuple Z.eqb_eq dt_do_update_key); eassumption.
Qed.

Lemma exec_frame keepP keepD s d d' rows :
  exec today plan s d = Ok (d', rows) ->
  (forall p, In p (proposed_products s) -> keepP p = false) ->
  (forall x, In x (proposed_dates s) -> keepD x = false) ->
  frame keepP keepD d d'.
Proof.
  intros H HP HD. unfold frame.
  exec_cases H; simpl in *;
    rewrite ?rows_of_create;
    repeat match goal with
      | E : _ = Some _ |- _ => rewrite E
      | E : _ = None |- _ => rewrite E
      end;
    simpl; auto.
  - split; [|reflexivity].
    eapply (insert_rows_frame ProductPerformance.product String.eqb
              (pp_do_update today) pp_row_of_tuple pp_tuple_key
              String.eqb_eq (pp_do_update_key today) pp_row_key);
      [eassumption|].
    intros t Hin. apply HP. now apply in_map.
  - split; [reflexivity|].
    eapply (insert_rows_frame DailyTrends.order_date Z.eqb dt_do_update
              dt_row_of_tuple dt_tuple_key Z.eqb_eq dt_do_update_key
              dt_row_key);
      [eassumption|].
    intros t Hin. apply HD. now apply in_map.
Qed.

Ltac exec_all_step H :=
  simpl in H;
  match type of H with
  | context [exec today plan ?s ?d] =>
      let E := fresh "Eexec" in
      destruct (exec today plan s d) as [[? ?]|?] eqn:E; simpl in H;
      [|discriminate]
  end;
  match type of H with
  | context [exec_all today plan ?ss ?d] =>
      let E := fresh "Eall" in
      destruct (exec_all today plan ss d) as [[? ?]|?] eqn:E; simpl in H;
      [|discriminate]
  end;
  injection H as <- <-.

Lemma exec_all_order ss : forall d d' rowss,
  exec_all today plan ss d = Ok (d', rowss) -> order d' = order d.
Proof.
  induction ss as [|s ss IH]; intros d d' rowss H.
  - simpl in H. now injection H as <- <-.
  - exec_all_step H. erewrite IH by eassumption. eapply exec_order; eassumption.
Qed.

Lemma exec_all_pk_ok ss : forall d d' rowss,
  exec_all today plan ss d = Ok (d', rowss) -> pk_ok d -> pk_ok d'.
Proof.
  induction ss as [|s ss IH]; intros d d' rowss H Hpk.
  - simpl in H. now injection H as <- <-.
  - exec_all_step H. eapply IH; [eassumption|]. eapply exec_pk_ok; eassumption.
Qed.

Lemma exec_all_frame keepP keepD ss : forall d d' rowss,
  exec_all today plan ss d = Ok (d', rowss) ->
  (forall s p, In s ss -> In p (proposed_products s) -> keepP p = false) ->
  (forall s x, In s ss -> In x (proposed_dates s) -> keepD x = false) ->
  frame keepP keepD d d'.
Proof.
  induction ss as [|s ss IH]; intros d d' rowss H HP HD.
  - simpl in H. injection H as <- <-. apply frame_refl.
  - exec_all_step H. eapply frame_trans.
    + eapply exec_frame; [eassumption| |]; intros; [eapply HP|eapply HD];
        eauto; now left.
    + eapply IH; [eassumption| |]; intros; [eapply HP|eapply HD];
        eauto; now right.
Qed.

End ExecFacts.

(** ** Primitive operations of a session *)

Ltac conjs := repeat match goal with |- _ /\ _ => split end.

Lemma record_eq ev w :
  record ev w =
  (Ok tt, mkworld (committed w) (pending w) (faults w) (clock w) (planner w)
            (trace w ++ [ev])).
Proof. reflexivity. Qed.

Lemma cur_execute_spec s w r w' :
  cur_execute s w = (r, w') ->
  committed w' = committed w /\ clock w' = clock w /\ planner w' = planner w /\
  trace w' = trace w ++ [EvExecute s] /\
  pending w' <> None /\
  match r with
  | Ok rows =>
      exec (clock w) (planner w) s (snapshot w) = Ok (snapshot w', rows)
  | Raise e =>
      e = OperationalError \/
      exec (clock w) (planner w) s (snapshot w) = Raise e
  end /\
  (faults w = [] ->
   faults w' = [] /\
   r = strip (exec (clock w) (planner w) s (snapshot w))).
Proof.
  destruct w as [c p f k pl tr].
  unfold cur_execute, bind, record, round_trip, set_pending, snapshot; simpl.
  destruct f as [|[|] f]; simpl;
    try (destruct (exec k pl s _) as [[d rows]|e] eqn:E; simpl);
    intros H; injection H as <- <-; simpl;
    conjs; auto; try discriminate; try (intros; discriminate).
Qed.

Lemma conn_commit_spec w r w' :
  conn_commit w = (r, w') ->
  clock w' = clock w /\ planner w' = planner w /\ pending w' = None /\
  ((r = Ok tt /\ committed w' = snapshot w /\
    trace w' = trace w ++ match pending w with Some _ => [EvCommit] | None => [] end)
   \/
   (r = Raise OperationalError /\ committed w' = committed w /\
    trace w' = trace w ++ [EvCommit] /\ faults w <> [])) /\
  (faults w = [] -> faults w' = [] /\ r = Ok tt).
Proof.
  destruct w as [c p f k pl tr].
  unfold conn_commit, bind, record, round_trip, set_pending, snapshot; simpl.
  destruct p as [d|]; simpl.
  - destruct f as [|[|] f]; simpl; intros H; injection H as <- <-; simpl;
      conjs; auto; try discriminate;
      try (right; conjs; auto; discriminate).
  - intros H; injection H as <- <-; simpl. rewrite app_nil_r.
    conjs; auto.
Qed.

Lemma conn_rollback_spec w r w' :
  conn_rollback w = (r, w') ->
  r = Ok tt /\ committed w' = committed w /\ clock w' = clock w /\
  planner w' = planner w /\ pending w' = None /\ faults w' = faults w /\
  trace w' = trace w ++ match pending w with Some _ => [EvRollback] | None => [] end.
Proof.
  destruct w as [c p f k pl tr].
  unfold conn_rollback, bind, record, set_pending; simpl.
  destruct p as [d|]; simpl; intros H; injection H as <- <-; simpl;
    rewrite ?app_nil_r; conjs; auto.
Qed.

Lemma get_db_connection_spec w r w' :
  get_db_connection w = (r, w') ->
  committed w' = committed w /\ clock w' = clock w /\ planner w' = planner w /\
  pending w' = pending w /\ trace w' = trace w ++ [EvConnect] /\
  (r = Ok tt \/ (r = Raise OperationalError /\ faults w <> [])) /\
  (faults w = [] -> faults w' = [] /\ r = Ok tt).
Proof.
  destruct w as [c p f k pl tr].
  unfold get_db_connection, bind, record, round_trip; simpl.
  destruct f as [|[|] f]; simpl; intros H; injection H as <- <-; simpl;
    conjs; auto; try discriminate.
  right. split; [reflexivity | discriminate].
Qed.

(** The statements of one transaction, one after the other. *)
Lemma execute_all_spec ss : forall w r w',
  for_each ss cur_execute w = (r, w') ->
  committed w' = committed w /\ clock w' = clock w /\ planner w' = planner w /\
  (exists n, trace w' = trace w ++ map EvExecute (firstn n ss)) /\
  match r with
  | Ok rowss =>
      trace w' = trace w ++ map EvExecute ss /\
      exec_all (clock w) (planner w) ss (snapshot w) = Ok (snapshot w', rowss) /\
      (ss = [] -> pending w' = pending w) /\
      (ss <> [] -> pending w' <> None)
  | Raise e =>
      e = OperationalError \/
      exec_all (clock w) (planner w) ss (snapshot w) = Raise e
  end /\
  (faults w = [] ->
   faults w' = [] /\
   r = strip (exec_all (clock w) (planner w) ss (snapshot w))).
Proof.
  induction ss as [|s ss IH]; intros w r w' H.
  - simpl in H. unfold ret in H. injection H as <- <-.
    conjs; auto.
    + exists 0%nat. simpl. now rewrite app_nil_r.
    + simpl. now rewrite app_nil_r.
  - simpl in H. unfold bind at 1 in H.
    destruct (cur_execute s w) as [r1 w1] eqn:E1.
    apply cur_execute_spec in E1 as (Hc & Hk & Hp & Ht & Hpend & Hr & Hf).
    destruct r1 as [rows|e].
    + unfold bind at 1 in H.
      destruct (for_each ss cur_execute w1) as [r2 w2] eqn:E2.
      apply IH in E2 as (Hc2 & Hk2 & Hp2 & [n Ht2] & Hr2 & Hf2).
      rewrite Hk, Hp in *.
      assert (Htr : exists n, trace w' = trace w ++ map EvExecute (firstn n (s :: ss))
                              /\ w' = w2).
      { exists (S n). destruct r2; unfold ret in H; injection H as <- <-;
          rewrite Ht2, Ht, <- app_assoc; auto. }
      destruct Htr as [n' [Htr ->]].
      conjs; try congruence; eauto.
      * destruct r2 as [rowss|e]; unfold ret in H; injection H as <-.
        -- destruct Hr2 as (Ht3 & He & Hnil & Hcons).
           conjs.
           ++ rewrite Ht3, Ht, <- app_assoc. reflexivity.
           ++ simpl. rewrite Hr. simpl. rewrite He. reflexivity.
           ++ discriminate.
           ++ intros _. destruct ss as [|s' ss'].
              ** now rewrite Hnil.
              ** now apply Hcons.
        -- destruct Hr2 as [->|He]; [now left|right].
           simpl. rewrite Hr. simpl. now rewrite He.
      * intros Hnil. destruct (Hf Hnil) as [Hf1 Hs1].
        destruct (Hf2 Hf1) as [Hf3 Hs2]. split; [assumption|].
        simpl. rewrite Hr. simpl.
        destruct r2; unfold ret in H; injection H as <-;
          destruct (exec_all _ _ ss _) as [[? ?]|?]; simpl in *; congruence.
    + injection H as <- <-.
      conjs; try congruence.
      * exists 1%nat. simpl. assumption.
      * destruct Hr as [->|He]; [now left|right]. simpl. now rewrite He.
      * intros Hnil. destruct (Hf Hnil) as [Hf1 Hs]. split; [assumption|].
        simpl.
        destruct (exec _ _ s _) as [[? ?]|?]; simpl in *; congruence.
Qed.

(** ** Transactions *)

Lemma In_firstn {A} (x : A) n l : In x (firstn n l) -> In x l.
Proof.
  intros H. rewrite <- (firstn_skipn n l). apply in_or_app. now left.
Qed.

Lemma Forall_executed ss n :
  Forall (txn_event ss) (map EvExecute (firstn n ss)).
Proof.
  apply Forall_forall. intros ev Hin.
  apply in_map_iff in Hin as [s [<- Hin]].
  right. right. exists s. split; [|reflexivity].
  now apply In_firstn in Hin.
Qed.

Lemma snapshot_no_pending w : pending w = None -> snapshot w = committed w.
Proof. unfold snapshot. now intros ->. Qed.

Lemma transaction_spec ss w r w' :
  pending w = None ->
  transaction ss w = (r, w') ->
  txn_summary ss w r w'.
Proof.
  intros Hpend H. unfold transaction, with_connection in H.
  unfold bind at 1 in H.
  destruct (get_db_connection w) as [r0 w0] eqn:E0.
  apply get_db_connection_spec in E0 as (Hc0 & Hk0 & Hp0 & Hn0 & Ht0 & Hr0 & Hf0).
  destruct r0 as [[]|e0].
  2:{ (* the connection failed *)
    injection H as <- <-.
    destruct Hr0 as [?|[[= ->] Hfl]]; [discriminate|].
    constructor; try congruence.
    - exists []. split; [assumption | constructor].
    - intros e [= <-]. split; [assumption | now left]. }
  unfold bind at 1 in H.
  destruct (for_each ss cur_execute w0) as [r1 w1] eqn:E1.
  apply execute_all_spec in E1 as (Hc1 & Hk1 & Hp1 & [n Ht1] & Hr1 & Hf1).
  assert (Hs0 : snapshot w0 = committed w).
  { rewrite snapshot_no_pending; congruence. }
  rewrite Hk0, Hp0, Hs0 in *.
  destruct r1 as [rowss|e1].
  - (* every statement was executed *)
    destruct Hr1 as (Ht1' & He1 & Hnil1 & Hcons1).
    destruct (conn_commit w1) as [r2 w2] eqn:E2.
    apply conn_commit_spec in E2 as (Hk2 & Hp2 & Hn2 & Hr2 & Hf2).
    destruct Hr2 as [(-> & Hc2 & Ht2)|(-> & Hc2 & Ht2 & Hfl2)].
    + (* the explicit commit succeeded; the one on exit has nothing to do *)
      unfold bind at 1 in H. unfold conn_commit in H. rewrite Hn2 in H.
      unfold ret in H. injection H as <- <-.
      assert (Htr : trace w2 = trace w ++ EvConnect :: map EvExecute ss ++
                      match ss with [] => [] | _ => [EvCommit] end).
      { rewrite Ht2, Ht1', Ht0, <- !app_assoc. simpl. do 3 f_equal.
        destruct ss as [|s ss'].
        - rewrite Hnil1, Hn0, Hpend; reflexivity.
        - destruct (pending w1) eqn:Ep; [reflexivity|].
          exfalso. now apply Hcons1. }
      constructor; try congruence.
      * eexists. split; [exact Htr|].
        apply Forall_app. split.
        -- pose proof (Forall_executed ss (List.length ss)) as HF.
           now rewrite firstn_all in HF.
        -- destruct ss; repeat constructor.
      * intros _. split; [|exact Htr]. exists rowss. congruence.
      * intros Hnil. split; [|discriminate].
        apply Hf2, Hf1, Hf0, Hnil.
    + (* the explicit commit failed: the transaction is lost *)
      unfold bind at 1 in H. unfold conn_rollback in H. rewrite Hn2 in H.
      unfold raise in H. injection H as <- <-.
      constructor; try congruence.
      * exists (map EvExecute ss ++ [EvCommit]). split.
        -- rewrite Ht2, Ht1', Ht0, <- !app_assoc. reflexivity.
        -- apply Forall_app. split.
           ++ pose proof (Forall_executed ss (List.length ss)) as HF.
           now rewrite firstn_all in HF.
           ++ constructor; [now left | constructor].
      * intros e [= <-]. split; [congruence | now left].
      * intros Hnil. exfalso. apply Hfl2, Hf1, Hf0, Hnil.
  - (* a statement raised: the context manager rolls back *)
    unfold bind at 1 in H.
    destruct (conn_rollback w1) as [r2 w2] eqn:E2.
    apply conn_rollback_spec in E2 as (-> & Hc2 & Hk2 & Hp2 & Hn2 & Hfl2 & Ht2).
    unfold raise in H. injection H as <- <-.
    constructor; try congruence.
    + eexists. split.
      * rewrite Ht2, Ht1, Ht0, <- !app_assoc. reflexivity.
      * apply Forall_app. split; [apply Forall_executed|].
        destruct (pending w1); constructor; [right; now left | constructor].
    + intros e [= <-]. split; [congruence | exact Hr1].
    + intros Hnil. destruct (Hf1 (proj1 (Hf0 Hnil))) as [Hf1' Hs].
      split; [congruence|].
      intros e [= <-].
      destruct (exec_all _ _ ss _) as [[? ?]|?]; simpl in Hs; congruence.
Qed.

Lemma fetch_query_results_spec q w r w' :
  pending w = None ->
  fetch_query_results q w = (r, w') ->
  fetch_summary q w r w'.
Proof.
  intros Hpend H. unfold fetch_query_results, with_connection in H.
  unfold bind at 1 in H.
  destruct (get_db_connection w) as [r0 w0] eqn:E0.
  apply get_db_connection_spec in E0 as (Hc0 & Hk0 & Hp0 & Hn0 & Ht0 & Hr0 & Hf0).
  assert (Hq : txn_event [q] (EvExecute q)).
  { right. right. exists q. split; [now left | reflexivity]. }
  destruct r0 as [[]|e0].
  2:{ injection H as <- <-.
      destruct Hr0 as [?|[[= ->] Hfl]]; [discriminate|].
      constructor; try congruence.
      - exists []. split; [assumption | constructor].
      - intros e [= <-]. split; [assumption | now left]. }
  destruct (cur_execute q w0) as [r1 w1] eqn:E1.
  apply cur_execute_spec in E1 as (Hc1 & Hk1 & Hp1 & Ht1 & Hn1 & Hr1 & Hf1).
  assert (Hs0 : snapshot w0 = committed w).
  { rewrite snapshot_no_pending; congruence. }
  rewrite Hk0, Hp0, Hs0 in *.
  destruct r1 as [rows|e1].
  - unfold bind at 1 in H.
    destruct (conn_commit w1) as [r2 w2] eqn:E2.
    apply conn_commit_spec in E2 as (Hk2 & Hp2 & Hn2 & Hr2 & Hf2).
    destruct (pending w1) as [d1|] eqn:Ep; [clear Hn1|congruence].
    destruct Hr2 as [(-> & Hc2 & Ht2)|(-> & Hc2 & Ht2 & Hfl2)];
      unfold ret in H; injection H as <- <-.
    + assert (Htr : trace w2 = trace w ++ [EvConnect; EvExecute q; EvCommit]).
      { rewrite Ht2, Ht1, Ht0, <- !app_assoc. reflexivity. }
      constructor; try congruence.
      * eexists. split; [exact Htr|].
        constructor; [exact Hq | constructor; [now left | constructor]].
      * intros rows' [= <-]. split; [congruence | exact Htr].
      * intros Hnil. destruct (Hf1 (proj1 (Hf0 Hnil))) as [Hf1' Hs].
        split; [now apply Hf2 | exact Hs].
    + constructor; try congruence.
      * exists [EvExecute q; EvCommit]. split.
        -- rewrite Ht2, Ht1, Ht0, <- !app_assoc. reflexivity.
        -- constructor; [exact Hq | constructor; [now left | constructor]].
      * intros e [= <-]. split; [congruence | now left].
      * intros Hnil. exfalso. apply Hfl2, Hf1, Hf0, Hnil.
  - unfold bind at 1 in H.
    destruct (conn_rollback w1) as [r2 w2] eqn:E2.
    apply conn_rollback_spec in E2 as (-> & Hc2 & Hk2 & Hp2 & Hn2 & Hfl2 & Ht2).
    unfold raise in H. injection H as <- <-.
    constructor; try congruence.
    + eexists. split.
      * rewrite Ht2, Ht1, Ht0, <- !app_assoc. reflexivity.
      * constructor; [exact Hq|].
        destruct (pending w1); constructor; [right; now left | constructor].
    + intros e [= <-]. split; [congruence | exact Hr1].
    + intros Hnil. destruct (Hf1 (proj1 (Hf0 Hnil))) as [Hf1' Hs].
      split; congruence.
Qed.

(** ** The steps of the DAG *)

Lemma add_trace_nil w : add_trace [] w = w.
Proof. destruct w. unfold add_trace. simpl. now rewrite app_nil_r. Qed.

Lemma add_trace_app evs1 evs2 w :
  add_trace evs2 (add_trace evs1 w) = add_trace (evs1 ++ evs2) w.
Proof. unfold add_trace. simpl. now rewrite app_assoc. Qed.

Lemma for_each_map {A B C} (f : A -> B) (body : B -> M C) (l : list A) :
  forall w, for_each (map f l) body w = for_each l (fun x => body (f x)) w.
Proof.
  induction l as [|x l IH]; intros w; simpl; [reflexivity|].
  unfold bind. destruct (body (f x) w) as [[y|e] w1]; [|reflexivity].
  now rewrite IH.
Qed.

Lemma with_connection_ext {A} (body1 body2 : M A) :
  (forall w, body1 w = body2 w) ->
  forall w, with_connection body1 w = with_connection body2 w.
Proof.
  intros Hext w. unfold with_connection, bind.
  destruct (get_db_connection w) as [[[]|e] w0]; [|reflexivity].
  now rewrite Hext.
Qed.

(** The write of an upsert step is a transaction of one command per page. *)
Lemma upsert_write_eq (sql : list tuple -> statement) (data : list tuple) w :
  with_connection (execute_values sql data ;; conn_commit) w =
  transaction (map sql (paginate 100 data)) w.
Proof.
  unfold transaction. apply with_connection_ext. clear w. intros w.
  unfold execute_values, bind. rewrite for_each_map.
  now destruct (for_each _ _ w) as [[rowss|e] w1].
Qed.

Lemma create_tables_eq :
  create_tables = transaction [CreateProductPerformance; CreateDailyTrends].
Proof. reflexivity. Qed.

Lemma product_loop (rows : list tuple) :
  Forall (fun row => List.length row = 4%nat) rows ->
  forall w,
    for_each rows (fun row =>
      match row with
      | [product; order_count; total_sales; avg_sales] =>
          logging_info (LogProduct product order_count total_sales avg_sales) ;;
          ret [product; order_count; total_sales; avg_sales]
      | _ => raise ValueError
      end) w = (Ok rows, add_trace (product_lines rows) w).
Proof.
  induction 1 as [|row rows Hrow _ IH]; intros w; simpl.
  - unfold ret. now rewrite add_trace_nil.
  - destruct row as [|a [|b [|c [|d [|? ?]]]]]; try discriminate.
    unfold bind at 1. unfold bind at 1. unfold logging_info. rewrite record_eq.
    unfold ret at 1. unfold bind. rewrite IH. unfold ret.
    now rewrite <- add_trace_app.
Qed.

Lemma date_loop (rows : list tuple) :
  Forall (fun row => List.length row = 3%nat) rows ->
  forall w,
    for_each rows (fun row =>
      match row with
      | [order_date; daily_orders; daily_sales] =>
          logging_info (LogDate order_date daily_orders daily_sales) ;;
          ret [order_date; daily_orders; daily_sales]
      | _ => raise ValueError
      end) w = (Ok rows, add_trace (date_lines rows) w).
Proof.
  induction 1 as [|row rows Hrow _ IH]; intros w; simpl.
  - unfold ret. now rewrite add_trace_nil.
  - destruct row as [|a [|b [|c [|? ?]]]]; try discriminate.
    unfold bind at 1. unfold bind at 1. unfold logging_info. rewrite record_eq.
    unfold ret at 1. unfold bind. rewrite IH. unfold ret.
    now rewrite <- add_trace_app.
Qed.

Lemma select_product_groups_arity plan os :
  Forall (fun row => List.length row = 4%nat) (select_product_groups plan os).
Proof. apply Forall_forall. intros row Hin. apply in_map_iff in Hin as [p [<- _]]. reflexivity. Qed.

Lemma select_daily_groups_arity os :
  Forall (fun row => List.length row = 3%nat) (select_daily_groups os).
Proof. apply Forall_forall. intros row Hin. apply in_map_iff in Hin as [p [<- _]]. reflexivity. Qed.

Lemma Forall_txn_event_weaken ss ss' evs :
  (forall s, In s ss -> In s ss') ->
  Forall (txn_event ss) evs -> Forall (txn_event ss') evs.
Proof.
  intros Hincl. apply Forall_impl. intros ev [H|[H|[s [Hin H]]]].
  - now left.
  - right. now left.
  - right. right. exists s. auto.
Qed.

Lemma upsert_tail_spec q header lines sql batch w w1 r w' :
  clock w1 = clock w -> planner w1 = planner w -> pending w1 = None ->
  committed w1 = committed w ->
  trace w1 = trace w ++ [EvConnect; EvExecute q; EvCommit] ->
  (faults w = [] -> faults w1 = []) ->
  match batch with
  | [] => ret tt
  | _ :: _ => with_connection (execute_values sql batch ;; conn_commit)
  end (add_trace (lines batch)
         (mkworld (committed w1) (pending w1) (faults w1) (clock w1)
            (planner w1) (trace w1 ++ [EvLog header]))) = (r, w') ->
  upsert_summary q header lines sql batch w r w'.
Proof.
  intros Hk1 Hp1 Hn1 Hc1 Ht1 Hf1 H.
  set (w2 := add_trace _ _) in H.
  assert (Ht2 : trace w2 = trace w ++ [EvConnect; EvExecute q; EvCommit;
                                       EvLog header] ++ lines batch).
  { subst w2. simpl. rewrite Ht1, <- !app_assoc. reflexivity. }
  assert (Hlog : Forall (fun ev =>
                   ev = EvConnect \/
                   txn_event (q :: map sql (paginate 100 batch)) ev \/
                   ev = EvLog header \/ In ev (lines batch))
                   ([EvConnect; EvExecute q; EvCommit; EvLog header] ++
                    lines batch)).
  { apply Forall_app. split.
    - constructor; [now left|].
      constructor;
        [right; left; right; right; exists q; split; [now left|reflexivity]|].
      constructor; [right; left; now left|].
      constructor; [right; right; now left | constructor].
    - apply Forall_forall. intros ev Hin. now do 3 right. }
  destruct batch as [|t batch'] eqn:Eb.
  - (* nothing to write *)
    unfold ret in H. injection H as <- <-.
    constructor; try assumption.
    + exists ([EvConnect; EvExecute q; EvCommit; EvLog header] ++ lines []).
      split; assumption.
    + intros _. split.
      * exists []. simpl. now rewrite <- Hc1.
      * rewrite Ht2. now rewrite app_nil_r.
    + discriminate.
    + intros Hnil. split; [now apply Hf1 | discriminate].
  - rewrite <- Eb in *. rewrite upsert_write_eq in H.
    apply transaction_spec in H; [|assumption].
    destruct H as [Hk Hp Hn [evs [Ht Hall]] Hok Hraise Hff].
    change (clock w2) with (clock w1) in *.
    change (planner w2) with (planner w1) in *.
    change (committed w2) with (committed w1) in *.
    change (faults w2) with (faults w1) in *.
    rewrite Hk1, Hp1, Hc1 in *.
    constructor; try congruence.
    + exists (([EvConnect; EvExecute q; EvCommit; EvLog header] ++
               lines batch) ++ EvConnect :: evs).
      split.
      * rewrite Ht, Ht2, <- !app_assoc. reflexivity.
      * apply Forall_app. split.
        -- exact Hlog.
        -- constructor; [now left|].
           eapply Forall_impl;
             [|eapply Forall_txn_event_weaken; [|exact Hall]].
           ++ intros ev Hev. right. left. exact Hev.
           ++ intros s Hin. now right.
    + intros Hr. destruct (Hok Hr) as [Hex Htr]. split; [assumption|].
      rewrite Htr, Ht2, <- !app_assoc. simpl. do 5 f_equal.
      rewrite Eb at 1.
      destruct (paginate_cons 100 t batch') as (page & pages & Hpg & _).
      rewrite Eb, Hpg. reflexivity.
    + exact Hraise.
    + intros Hnil. now apply Hff, Hf1.
Qed.

Ltac upsert_step_proof Hpend H loop arity :=
  unfold bind at 1 in H;
  match type of H with
  | context [fetch_query_results ?q ?w] =>
      let r1 := fresh "r1" in
      let w1 := fresh "w1" in
      let E1 := fresh "E1" in
      destruct (fetch_query_results q w) as [r1 w1] eqn:E1;
      apply (fetch_query_results_spec _ _ _ _ Hpend) in E1;
      destruct E1 as [Hk1 Hp1 Hn1 [evs1 [Ht1 Hall1]] Hok1 Hraise1 Hff1];
      destruct r1 as [results|e1];
      [ destruct (Hok1 results eq_refl) as [Hex1 Htr1]; simpl in Hex1;
        injection Hex1 as Hc1 Hres; subst results;
        unfold bind at 1 in H; unfold logging_info in H;
        rewrite record_eq in H;
        unfold bind at 1 in H; rewrite loop in H by apply arity;
        eapply upsert_tail_spec; try eassumption;
        [ congruence | intros Hnil; now apply Hff1 ]
      | injection H as <- <-;
        destruct (Hraise1 e1 eq_refl) as [Hc1 [->|Hex1]];
        [|simpl in Hex1; discriminate];
        constructor; try congruence;
        [ exists (EvConnect :: evs1); split; [assumption|];
          constructor; [now left|];
          eapply Forall_impl; [|eapply Forall_txn_event_weaken; [|exact Hall1]];
          [ intros ev Hev; right; left; exact Hev
          | intros s [<-|[]]; now left ]
        | intros e [= <-]; split; [assumption | now left]
        | intros Hnil; destruct (Hff1 Hnil) as [_ Hs]; simpl in Hs;
          discriminate ] ]
  end.

Lemma upsert_daily_trends_spec w r w' :
  pending w = None ->
  upsert_daily_trends w = (r, w') ->
  upsert_summary SelectDailyGroups LogDailyHeader date_lines InsertDailyTrends
    (select_daily_groups (order (committed w))) w r w'.
Proof.
  intros Hpend H. unfold upsert_daily_trends in H.
  upsert_step_proof Hpend H date_loop select_daily_groups_arity.
Qed.

Lemma upsert_product_performance_spec w r w' :
  pending w = None ->
  upsert_product_performance w = (r, w') ->
  upsert_summary SelectProductGroups LogProductHeader product_lines
    InsertProductPerformance
    (select_product_groups (planner w) (order (committed w))) w r w'.
Proof.
  intros Hpend H. unfold upsert_product_performance in H.
  upsert_step_proof Hpend H product_loop select_product_groups_arity.
Qed.

(** ** What the statements of each step do to the database *)

Lemma exec_all_create today plan d :
  exec_all today plan [CreateProductPerformance; CreateDailyTrends] d =
  Ok (ensure_schema d, [[]; []]).
Proof. reflexivity. Qed.

Lemma ensure_schema_idem d : ensure_schema (ensure_schema d) = ensure_schema d.
Proof.
  unfold ensure_schema. simpl.
  now destruct (product_performance d), (daily_trends d).
Qed.

(** The upsert of [product_performance] as the DAG issues it is rejected:
    its tuples carry four values for five target columns. *)
Lemma exec_all_product_pages today plan os d :
  select_product_groups plan os <> [] ->
  exec_all today plan
    (map InsertProductPerformance (paginate 100 (select_product_groups plan os)))
    d =
  Raise (match product_performance d with
         | None => UndefinedTable
         | Some _ => SyntaxError
         end).
Proof.
  intros Hne.
  pose proof (select_product_groups_arity plan os) as Har.
  destruct (select_product_groups plan os) as [|t batch]; [congruence|].
  destruct (paginate_cons 100 t batch) as (page & pages & -> & page' & ->).
  inversion Har as [|? ? Ht _]; subst.
  simpl. destruct (product_performance d); [|reflexivity].
  unfold arity_ok. simpl. rewrite Ht. reflexivity.
Qed.

Lemma select_product_groups_nil plan os :
  select_product_groups plan os = [] <-> os = [].
Proof.
  unfold select_product_groups. split.
  - intros H. apply map_eq_nil in H.
    destruct os as [|o os]; [reflexivity|]. exfalso.
    assert (Hin : In (Order.product o) (order_products plan (o :: os))).
    { apply order_products_In. exists o. split; [now left | reflexivity]. }
    unfold order_products in Hin. rewrite H in Hin. destruct Hin.
  - intros ->. simpl.
    pose proof (emit_perm plan []) as Hp.
    apply Permutation_sym, Permutation_nil in Hp. now rewrite Hp.
Qed.

(** The keys of the two batches. *)
Lemma product_batch_keys plan os :
  map pp_tuple_key (select_product_groups plan os) = order_products plan os.
Proof.
  unfold select_product_groups, order_products. rewrite map_map. simpl.
  apply map_id.
Qed.

Lemma daily_batch_keys os :
  map dt_tuple_key (select_daily_groups os) = order_dates os.
Proof.
  unfold select_daily_groups. rewrite map_map. simpl. apply map_id.
Qed.

Lemma pages_keys {A B} (f : A -> B) (batch : list A) s (sql : list A -> statement)
  (keys : statement -> list B) :
  (forall page, keys (sql page) = map f page) ->
  In s (map sql (paginate 100 batch)) ->
  forall k, In k (keys s) -> In k (map f batch).
Proof.
  intros Hkeys Hin k Hk.
  apply in_map_iff in Hin as [page [<- Hpage]].
  rewrite Hkeys in Hk. apply in_map_iff in Hk as [t [<- Ht]].
  apply in_map. rewrite <- (paginate_concat 100 batch).
  apply in_concat. eauto.
Qed.

Lemma dt_row_arity t r : dt_row_of_tuple t = Ok r -> List.length t = 3%nat.
Proof. destruct t as [|v1 [|v2 [|v3 [|v4 t]]]]; try discriminate. reflexivity. Qed.

Lemma NoDup_app_disjoint {A} (l1 l2 : list A) (a : A) :
  NoDup (l1 ++ l2) -> In a l1 -> In a l2 -> False.
Proof.
  induction l1 as [|x l1 IH]; simpl; intros Hnd H1 H2; [destruct H1|].
  inversion Hnd as [|? ? Hx Hnd']; subst. destruct H1 as [->|H1].
  - apply Hx, in_or_app. now right.
  - now apply IH.
Qed.

Lemma NoDup_concat_page {A B} (f : A -> B) (pages : list (list A)) page :
  NoDup (map f (List.concat pages)) -> In page pages -> NoDup (map f page).
Proof.
  induction pages as [|p pages IH]; intros Hnd Hin; [destruct Hin|].
  simpl in Hnd. rewrite map_app in Hnd. destruct Hin as [->|Hin].
  - eapply NoDup_app_remove_r. exact Hnd.
  - apply IH; [|assumption]. eapply NoDup_app_remove_l. exact Hnd.
Qed.

Section DailyPages.
Variable today : date.
Variable plan : scan_order.

Ltac daily_page H :=
  simpl in H;
  match type of H with
  | context [daily_trends ?d] =>
      let E := fresh "Etbl" in
      destruct (daily_trends d) as [?tbl|] eqn:E; simpl in H; [|discriminate]
  end;
  match type of H with
  | context [arity_ok ?n ?p] =>
      let E := fresh "Ear" in
      destruct (arity_ok n p) eqn:E; simpl in H; [|discriminate]
  end;
  match type of H with
  | context [dt_insert_rows ?a ?b ?c] =>
      let E := fresh "Eins" in
      destruct (dt_insert_rows a b c) as [?tbl'|] eqn:E; simpl in H;
      [|discriminate]
  end;
  match type of H with
  | context [exec_all ?a ?b ?ss ?d] =>
      let E := fresh "Eall" in
      destruct (exec_all a b ss d) as [[? ?]|?] eqn:E; simpl in H;
      [|discriminate]
  end;
  injection H as <- <-.

(** Keys that the pages do not propose keep their rows. *)
Lemma daily_pages_find_other (pages : list (list tuple)) (k : date) :
  forall d d' rowss,
    exec_all today plan (map InsertDailyTrends pages) d = Ok (d', rowss) ->
    ~ In k (map dt_tuple_key (List.concat pages)) ->
    dt_find k (rows_of (daily_trends d')) = dt_find k (rows_of (daily_trends d)).
Proof.
  induction pages as [|page pages IH]; intros d d' rowss H Hk.
  - simpl in H. now injection H as <- <-.
  - simpl in Hk. rewrite map_app, in_app_iff in Hk.
    daily_page H. erewrite IH; [|eassumption|tauto]. simpl.
    unfold dt_find.
    eapply (insert_rows_find_other DailyTrends.order_date Z.eqb dt_do_update
              dt_row_of_tuple dt_tuple_key Z.eqb_eq dt_do_update_key dt_row_key);
      [eassumption | tauto].
Qed.

(** Keys that the pages propose hold the proposed row. *)
Lemma daily_pages_find_proposed (pages : list (list tuple)) (t : tuple)
  (r : DailyTrends.row) :
  forall d d' rowss,
    exec_all today plan (map InsertDailyTrends pages) d = Ok (d', rowss) ->
    NoDup (map dt_tuple_key (List.concat pages)) ->
    In t (List.concat pages) -> dt_row_of_tuple t = Ok r ->
    dt_find (dt_tuple_key t) (rows_of (daily_trends d')) = Some r.
Proof.
  induction pages as [|page pages IH]; intros d d' rowss H Hnd Hin Hr.
  - destruct Hin.
  - simpl in Hnd, Hin. rewrite map_app in Hnd. apply in_app_iff in Hin.
    pose proof (NoDup_app_remove_l _ _ Hnd) as Hnd'.
    daily_page H. destruct Hin as [Hin|Hin].
    + erewrite daily_pages_find_other; [|eassumption|].
      * simpl. unfold dt_find.
        erewrite (insert_rows_find_proposed DailyTrends.order_date Z.eqb
                    dt_do_update dt_row_of_tuple dt_tuple_key Z.eqb_eq
                    dt_do_update_key dt_row_key); [|eassumption..].
        f_equal.
        destruct (find_row _ _ _ _) as [old|] eqn:Ef; [|reflexivity].
        apply find_some in Ef as [_ Ek]. apply Z.eqb_eq in Ek.
        pose proof (dt_row_key _ _ Hr) as Hkey.
        destruct r, old; unfold dt_do_update; simpl in *. congruence.
      * intros Hk.
        apply (NoDup_app_disjoint _ _ (dt_tuple_key t) Hnd);
          [now apply in_map | assumption].
    + eapply IH; eassumption.
Qed.

(** Pages that propose each key once are never refused for affecting a row
    twice. *)
Lemma daily_pages_no_cardinality_violation (pages : list (list tuple)) :
  forall d,
    (forall page, In page pages -> NoDup (map dt_tuple_key page)) ->
    exec_all today plan (map InsertDailyTrends pages) d <>
    Raise CardinalityViolation.
Proof.
  induction pages as [|page pages IH]; intros d Hnd; simpl; [discriminate|].
  destruct (daily_trends d) as [tbl|]; [|discriminate].
  destruct (arity_ok _ _); [|discriminate].
  destruct (dt_insert_rows [] tbl page) as [tbl'|e] eqn:E; simpl.
  - specialize (IH (set_daily_trends (Some tbl') d)).
    destruct (exec_all _ _ _ _) as [[? ?]|e]; simpl; [discriminate|].
    intros [= ->]. apply IH; [|reflexivity]. intros; apply Hnd; now right.
  - intros [= ->]. revert E.
    apply (insert_rows_no_cardinality_violation DailyTrends.order_date Z.eqb
             dt_do_update dt_row_of_tuple dt_tuple_key Z.eqb_eq dt_row_key
             dt_row_error).
    + apply Hnd. now left.
    + intros ? _ [].
Qed.

(** Pages of well-formed tuples that propose each key once are accepted by
    an existing relation. *)
Lemma daily_pages_succeed (pages : list (list tuple)) :
  forall d,
    daily_trends d <> None ->
    (forall t, In t (List.concat pages) -> exists r, dt_row_of_tuple t = Ok r) ->
    (forall page, In page pages -> NoDup (map dt_tuple_key page)) ->
    exists d' rowss,
      exec_all today plan (map InsertDailyTrends pages) d = Ok (d', rowss).
Proof.
  induction pages as [|page pages IH]; intros d Hex Hrow Hnd; simpl.
  - eauto.
  - destruct (daily_trends d) as [tbl|]; [|congruence].
    assert (Har : arity_ok daily_trends_columns page = true).
    { apply forallb_forall. intros t Hin. apply Nat.eqb_eq.
      destruct (Hrow t) as [r Hr]; [simpl; apply in_or_app; now left|].
      eapply dt_row_arity, Hr. }
    rewrite Har.
    destruct (insert_rows_succeeds DailyTrends.order_date Z.eqb dt_do_update
                dt_row_of_tuple dt_tuple_key Z.eqb_eq dt_row_key
                page [] tbl) as [tbl' Htbl'].
    + intros t Hin. apply Hrow. simpl. apply in_or_app. now left.
    + apply Hnd. now left.
    + intros ? _ [].
    + unfold dt_insert_rows. rewrite Htbl'. simpl.
      destruct (IH (set_daily_trends (Some tbl') d)) as (d' & rowss & ->).
      * discriminate.
      * intros t Hin. apply Hrow. simpl. apply in_or_app. now right.
      * intros; apply Hnd; now right.
      * simpl. eauto.
Qed.

Lemma parsed_keys (page : list tuple) (rows : list DailyTrends.row) :
  Forall2 (fun t r => dt_row_of_tuple t = Ok r) page rows ->
  map DailyTrends.order_date rows = map dt_tuple_key page.
Proof.
  induction 1 as [|t r page rows Hr _ IH]; simpl; [reflexivity|].
  now rewrite IH, (dt_row_key _ _ Hr).
Qed.

(** Pages that propose new keys only, each once, add their rows in their
    order. *)
Lemma daily_pages_fresh (pages : list (list tuple)) :
  forall d tbl d' rowss,
    exec_all today plan (map InsertDailyTrends pages) d = Ok (d', rowss) ->
    daily_trends d = Some tbl ->
    NoDup (map dt_tuple_key (List.concat pages)) ->
    (forall t, In t (List.concat pages) ->
               ~ In (dt_tuple_key t) (map DailyTrends.order_date tbl)) ->
    exists rows,
      Forall2 (fun t r => dt_row_of_tuple t = Ok r) (List.concat pages) rows /\
      daily_trends d' = Some (tbl ++ rows).
Proof.
  induction pages as [|page pages IH]; intros d tbl d' rowss H Htbl Hnd Hfresh.
  - simpl in H. injection H as <- <-. exists []. split; [constructor|].
    now rewrite app_nil_r.
  - simpl in Hnd. rewrite map_app in Hnd.
    simpl in H. rewrite Htbl in H.
    destruct (arity_ok _ _); [|discriminate]. simpl in H.
    destruct (dt_insert_rows [] tbl page) as [tbl1|] eqn:Eins; [|discriminate].
    simpl in H.
    destruct (exec_all _ _ _ _) as [[d1 rs]|] eqn:Eall; [|discriminate].
    simpl in H. injection H as <- <-.
    destruct (insert_rows_fresh DailyTrends.order_date Z.eqb dt_do_update
                dt_row_of_tuple dt_tuple_key Z.eqb_eq
                dt_row_key _ _ _ _ Eins) as [rows1 [Hrows1 ->]].
    { intros t Hin. apply Hfresh. simpl. apply in_or_app. now left. }
    destruct (IH _ (tbl ++ rows1) _ _ Eall eq_refl) as [rows2 [Hrows2 Hd']].
    + eapply NoDup_app_remove_l, Hnd.
    + intros t Hin. rewrite map_app, in_app_iff, (parsed_keys _ _ Hrows1).
      intros [Hold|Hnew].
      * apply (Hfresh t); [simpl; apply in_or_app; now right | assumption].
      * apply (NoDup_app_disjoint _ _ (dt_tuple_key t) Hnd);
          [assumption | now apply in_map].
    + exists (rows1 ++ rows2). split.
      * simpl. now apply Forall2_app.
      * now rewrite Hd', <- app_assoc.
Qed.

End DailyPages.

(** ** The run as a linear state machine *)

Lemma etl_outcome_intro w r w' :
  extract_transform_load w = (r, w') -> etl_outcome w r w'.
Proof.
  unfold extract_transform_load. unfold bind at 1.
  unfold logging_info at 1. rewrite record_eq. fold (add_trace [EvLog LogEtlStart] w).
  fold (started w). unfold bind at 1.
  destruct (create_tables (started w)) as [[[]|e1] w1] eqn:E1.
  2:{ intros [= <- <-]. now apply FailedInSchema. }
  unfold bind at 1.
  destruct (upsert_product_performance w1) as [[[]|e2] w2] eqn:E2.
  2:{ intros [= <- <-]. eapply FailedInProducts; eassumption. }
  unfold bind at 1.
  destruct (upsert_daily_trends w2) as [[[]|e3] w3] eqn:E3.
  2:{ intros [= <- <-]. eapply FailedInDaily; eassumption. }
  unfold logging_info. rewrite record_eq. intros [= <- <-].
  eapply Completed; eassumption.
Qed.

Lemma run_outcome e d :
  etl_outcome (start_run e d) (fst (run e d)) (snd (run e d)).
Proof. apply etl_outcome_intro. unfold run. now destruct (extract_transform_load _). Qed.

Lemma create_tables_spec w r w' :
  pending w = None ->
  create_tables w = (r, w') ->
  txn_summary schema_statements w r w'.
Proof. rewrite create_tables_eq. apply transaction_spec. Qed.

(** EnsureSchema either commits the schema or fails on the connection and
    changes nothing. *)
Lemma create_tables_effect w r w' :
  pending w = None ->
  create_tables w = (r, w') ->
  (r = Ok tt /\ committed w' = ensure_schema (committed w) /\
   trace w' = trace w ++ [EvConnect; EvExecute CreateProductPerformance;
                          EvExecute CreateDailyTrends; EvCommit]) \/
  (r = Raise OperationalError /\ committed w' = committed w /\ faults w <> []).
Proof.
  intros Hpend H. apply create_tables_spec in H; [|assumption].
  destruct H as [_ _ _ _ Hok Hraise Hff]. destruct r as [[]|e].
  - left. destruct (Hok eq_refl) as [[rowss Hex] Htr].
    unfold schema_statements in Hex. rewrite exec_all_create in Hex.
    injection Hex as Hc _. auto.
  - right. destruct (Hraise e eq_refl) as [Hc [->|Hex]].
    + conjs; auto. intros Hnil. destruct (Hff Hnil) as [_ Hno].
      specialize (Hno _ eq_refl). unfold schema_statements in Hno.
      rewrite exec_all_create in Hno. discriminate.
    + unfold schema_statements in Hex. rewrite exec_all_create in Hex.
      discriminate.
Qed.

(** ComputeProductPerformance never changes the database: with no group it
    has nothing to write, with a group its upsert is rejected. *)
Lemma upsert_product_performance_effect w r w' :
  pending w = None ->
  upsert_product_performance w = (r, w') ->
  committed w' = committed w /\
  (r = Ok tt -> order (committed w) = []) /\
  (forall e, r = Raise e ->
     e = OperationalError \/
     (order (committed w) <> [] /\
      e = match product_performance (committed w) with
          | None => UndefinedTable
          | Some _ => SyntaxError
          end)) /\
  (faults w = [] -> order (committed w) <> [] ->
   r = Raise (match product_performance (committed w) with
              | None => UndefinedTable
              | Some _ => SyntaxError
              end)) /\
  (faults w = [] -> order (committed w) = [] -> r = Ok tt).
Proof.
  intros Hpend H. apply upsert_product_performance_spec in H; [|assumption].
  destruct H as [_ _ _ _ Hok Hraise Hff].
  set (batch := select_product_groups (planner w) (order (committed w))) in *.
  assert (Hcases : (batch = [] /\ order (committed w) = []) \/
                   (batch <> [] /\ order (committed w) <> [])).
  { pose proof (select_product_groups_nil (planner w) (order (committed w)))
      as Hiff.
    fold batch in Hiff. clearbody batch.
    destruct (order (committed w)) as [|o os].
    - left. split; [now apply Hiff | reflexivity].
    - right. split; [|discriminate]. intros Hb. apply Hiff in Hb.
      discriminate. }
  destruct Hcases as [[Hb Ho]|[Hb Ho]].
  - (* no group *)
    rewrite Hb in *. simpl in *.
    destruct r as [[]|e].
    + destruct (Hok eq_refl) as [[rowss [= Hc _]] _].
      refine (conj _ (conj _ (conj _ (conj _ _)))).
      * congruence.
      * intros _. assumption.
      * discriminate.
      * intros _ Hne. contradiction.
      * reflexivity.
    + destruct (Hraise e eq_refl) as [Hc [->|[=]]].
      refine (conj _ (conj _ (conj _ (conj _ _)))).
      * assumption.
      * discriminate.
      * intros e' [= <-]. now left.
      * intros _ Hne. contradiction.
      * intros Hnil _. destruct (Hff Hnil) as [_ Hno].
        discriminate (Hno _ eq_refl).
  - (* a group: the upsert is rejected *)
    pose proof (exec_all_product_pages (clock w) (planner w)
                  (order (committed w)) (committed w) Hb) as Hrej.
    fold batch in Hrej. rewrite Hrej in *.
    destruct r as [[]|e].
    + destruct (Hok eq_refl) as [[rowss [=]] _].
    + destruct (Hraise e eq_refl) as [Hc Hor].
      refine (conj _ (conj _ (conj _ (conj _ _)))).
      * assumption.
      * discriminate.
      * intros e' [= <-]. destruct Hor as [->|[= <-]]; [now left|right; auto].
      * intros Hnil _. destruct (Hff Hnil) as [_ Hno].
        specialize (Hno _ eq_refl). congruence.
      * intros _ Hnil. contradiction.
Qed.

(** ** The events of each step *)

Lemma schema_events evs :
  Forall (fun ev => ev = EvConnect \/ txn_event schema_statements ev) evs ->
  forallb schema_event evs = true.
Proof.
  intros H. apply forallb_forall. rewrite Forall_forall in H.
  intros ev Hin. destruct (H ev Hin) as [->|[->|[->|[s [Hs ->]]]]];
    try reflexivity.
  destruct Hs as [<-|[<-|[]]]; reflexivity.
Qed.

Lemma product_events batch evs :
  Forall (fun ev =>
            ev = EvConnect \/
            txn_event (SelectProductGroups ::
                       map InsertProductPerformance (paginate 100 batch)) ev \/
            ev = EvLog LogProductHeader \/ In ev (product_lines batch)) evs ->
  forallb product_event evs = true.
Proof.
  intros H. apply forallb_forall. rewrite Forall_forall in H.
  intros ev Hin.
  destruct (H ev Hin) as [->|[[->|[->|[s [Hs ->]]]]|[->|Hl]]];
    try reflexivity.
  - destruct Hs as [<-|Hs]; [reflexivity|].
    apply in_map_iff in Hs as [page [<- _]]. reflexivity.
  - unfold product_lines in Hl. apply in_flat_map in Hl as [row [_ Hl]].
    destruct row as [|a [|b [|c [|d0 [|? ?]]]]]; try destruct Hl as [<-|[]];
      try destruct Hl; reflexivity.
Qed.

Lemma daily_events batch evs :
  Forall (fun ev =>
            ev = EvConnect \/
            txn_event (SelectDailyGroups ::
                       map InsertDailyTrends (paginate 100 batch)) ev \/
            ev = EvLog LogDailyHeader \/ In ev (date_lines batch)) evs ->
  forallb daily_event evs = true.
Proof.
  intros H. apply forallb_forall. rewrite Forall_forall in H.
  intros ev Hin.
  destruct (H ev Hin) as [->|[[->|[->|[s [Hs ->]]]]|[->|Hl]]];
    try reflexivity.
  - destruct Hs as [<-|Hs]; [reflexivity|].
    apply in_map_iff in Hs as [page [<- _]]. reflexivity.
  - unfold date_lines in Hl. apply in_flat_map in Hl as [row [_ Hl]].
    destruct row as [|a [|b [|c [|? ?]]]]; try destruct Hl as [<-|[]];
      try destruct Hl; reflexivity.
Qed.

Lemma start_run_pending e d : pending (started (start_run e d)) = None.
Proof. reflexivity. Qed.

Lemma start_run_trace e d : trace (started (start_run e d)) = [EvLog LogEtlStart].
Proof. reflexivity. Qed.

Lemma create_tables_fault_free w :
  pending w = None -> faults w = [] ->
  exists w',
    create_tables w = (Ok tt, w') /\
    committed w' = ensure_schema (committed w) /\
    pending w' = None /\ faults w' = [] /\
    clock w' = clock w /\ planner w' = planner w /\
    trace w' = trace w ++ schema_committed.
Proof.
  intros Hpend Hnil. destruct (create_tables w) as [r w'] eqn:E.
  pose proof (create_tables_spec _ _ _ Hpend E) as [Hk Hp Hn _ _ _ Hff].
  destruct (create_tables_effect _ _ _ Hpend E)
    as [(-> & Hc & Ht)|(_ & _ & Hfl)]; [|contradiction].
  exists w'. conjs; auto. now apply Hff.
Qed.

(** ** What a run leaves in the database *)

(** A run leaves the database as it found it when EnsureSchema fails, and
    with the schema ensured -- and nothing else changed -- in every other
    case: a source with orders stops the run in ComputeProductPerformance,
    a source without orders gives the two upserts nothing to write. *)
Lemma run_cases (e : run_env) (d : database) :
  pending (snd (run e d)) = None /\
  ((fst (run e d) = Raise OperationalError /\
    committed (snd (run e d)) = set_order (env_order e) d) \/
   ((exists ex, fst (run e d) = Raise ex) /\
    committed (snd (run e d)) = ensure_schema (set_order (env_order e) d)) \/
   (fst (run e d) = Ok tt /\ env_order e = [] /\
    committed (snd (run e d)) = ensure_schema (set_order (env_order e) d))).
Proof.
  destruct (run_outcome e d) as [ex w1 H1 | w1 ex w2 H1 H2 | w1 w2 ex w3 H1 H2 H3
                                | w1 w2 w3 H1 H2 H3].
  - pose proof (create_tables_spec _ _ _ (start_run_pending e d) H1)
      as [_ _ Hn1 _ _ _ _].
    apply create_tables_effect in H1 as [([=] & _)|([= ->] & Hc & _)];
      [|reflexivity].
    split; [assumption|]. left. split; [reflexivity | exact Hc].
  - pose proof (create_tables_spec _ _ _ (start_run_pending e d) H1)
      as [_ _ Hn1 _ _ _ _].
    apply create_tables_effect in H1 as [(_ & Hc1 & _)|([=] & _)];
      [|reflexivity].
    pose proof (upsert_product_performance_spec _ _ _ Hn1 H2)
      as [_ _ Hn2 _ _ _ _].
    apply upsert_product_performance_effect in H2 as (Hc2 & _); [|assumption].
    split; [assumption|]. right. left.
    split; [eauto | rewrite ?Hc3, Hc2, Hc1; reflexivity].
  - pose proof (create_tables_spec _ _ _ (start_run_pending e d) H1)
      as [_ _ Hn1 _ _ _ _].
    apply create_tables_effect in H1 as [(_ & Hc1 & _)|([=] & _)];
      [|reflexivity].
    pose proof (upsert_product_performance_spec _ _ _ Hn1 H2)
      as [_ _ Hn2 _ _ _ _].
    apply upsert_product_performance_effect in H2 as (Hc2 & _); [|assumption].
    apply upsert_daily_trends_spec in H3 as [_ _ Hn3 _ _ Hraise3 _];
      [|assumption].
    destruct (Hraise3 ex eq_refl) as [Hc3 _].
    split; [assumption|]. right. left.
    split; [eauto | rewrite ?Hc3, Hc2, Hc1; reflexivity].
  - pose proof (create_tables_spec _ _ _ (start_run_pending e d) H1)
      as [_ _ Hn1 _ _ _ _].
    apply create_tables_effect in H1 as [(_ & Hc1 & _)|([=] & _)];
      [|reflexivity].
    pose proof (upsert_product_performance_spec _ _ _ Hn1 H2)
      as [_ _ Hn2 _ _ _ _].
    apply upsert_product_performance_effect in H2 as (Hc2 & Hempty & _);
      [|assumption].
    specialize (Hempty eq_refl). rewrite Hc1 in Hempty. simpl in Hempty.
    apply upsert_daily_trends_spec in H3 as [_ _ Hn3 _ Hok3 _ _];
      [|assumption].
    destruct (Hok3 eq_refl) as [[rowss Hex] _].
    rewrite Hc2, Hc1 in Hex. simpl in Hex. rewrite Hempty in Hex.
    simpl in Hex. injection Hex as Hc3 _.
    split; [assumption|]. right. right. simpl.
    conjs; [reflexivity | assumption |]. rewrite <- Hc3. simpl.
    now rewrite Hempty.
Qed.

(** ** The events of a run *)

Lemma run_trace_shape (e : run_env) (d : database) :
  exists t1 t2 t3 t4,
    trace (snd (run e d)) = EvLog LogEtlStart :: t1 ++ t2 ++ t3 ++ t4 /\
    Forall (fun ev => ev = EvConnect \/ txn_event schema_statements ev) t1 /\
    Forall (product_step_event
              (select_product_groups (env_planner e) (env_order e))) t2 /\
    Forall (daily_step_event (select_daily_groups (env_order e))) t3 /\
    (fst (run e d) = Ok tt /\ t4 = [EvLog LogEtlDone] \/
     (exists ex, fst (run e d) = Raise ex) /\ t4 = []) /\
    (t2 ++ t3 ++ t4 <> [] -> t1 = schema_committed) /\
    (t3 ++ t4 <> [] -> t2 <> []).
Proof.
  assert (Hschema : Forall (fun ev => ev = EvConnect \/
                                      txn_event schema_statements ev)
                      schema_committed).
  { constructor; [now left|].
    constructor.
    { right. right. right. exists CreateProductPerformance.
      split; [now left | reflexivity]. }
    constructor.
    { right. right. right. exists CreateDailyTrends.
      split; [right; now left | reflexivity]. }
    constructor; [right; now left | constructor]. }
  destruct (run_outcome e d) as [ex w1 H1 | w1 ex w2 H1 H2 | w1 w2 ex w3 H1 H2 H3
                                | w1 w2 w3 H1 H2 H3].
  - (* EnsureSchema raised *)
    apply create_tables_spec in H1 as [_ _ _ [evs1 [Ht1 Hall1]] _ _ _];
      [|reflexivity].
    rewrite start_run_trace in Ht1.
    exists (EvConnect :: evs1), [], [], []. conjs.
    + rewrite Ht1. simpl. now rewrite !app_nil_r.
    + constructor; [now left|].
      eapply Forall_impl; [|exact Hall1]. intros; now right.
    + constructor.
    + constructor.
    + right. eauto.
    + intros H. now contradiction H.
    + intros H. now contradiction H.
  - (* ComputeProductPerformance raised *)
    pose proof (create_tables_spec _ _ _ (start_run_pending e d) H1)
      as [_ Hp1 Hn1 _ _ _ _].
    apply create_tables_effect in H1 as [(_ & Hc1 & Ht1)|([=] & _)];
      [|reflexivity].
    rewrite start_run_trace in Ht1.
    apply upsert_product_performance_spec in H2
      as [_ _ _ [evs2 [Ht2 Hall2]] _ _ _]; [|assumption].
    rewrite Hp1, Hc1 in Hall2. simpl in Hall2.
    exists schema_committed, evs2, [], []. conjs.
    + rewrite Ht2, Ht1. simpl. now rewrite ?app_nil_r.
    + exact Hschema.
    + exact Hall2.
    + constructor.
    + right. eauto.
    + reflexivity.
    + intros H. now contradiction H.
  - (* ComputeDailyTrends raised *)
    pose proof (create_tables_spec _ _ _ (start_run_pending e d) H1)
      as [_ Hp1 Hn1 _ _ _ _].
    apply create_tables_effect in H1 as [(_ & Hc1 & Ht1)|([=] & _)];
      [|reflexivity].
    rewrite start_run_trace in Ht1.
    pose proof (upsert_product_performance_effect _ _ _ Hn1 H2) as (Hc2 & _).
    apply upsert_product_performance_spec in H2
      as [_ Hp2 Hn2 [evs2 [Ht2 Hall2]] Hok2 _ _]; [|assumption].
    destruct (Hok2 eq_refl) as [_ Htr2].
    apply upsert_daily_trends_spec in H3
      as [_ _ _ [evs3 [Ht3 Hall3]] _ _ _]; [|assumption].
    rewrite Hp1, Hc1 in Hall2. simpl in Hall2.
    rewrite Hc2, Hc1 in Hall3. simpl in Hall3.
    exists schema_committed, evs2, evs3, []. conjs.
    + rewrite Ht3, Ht2, Ht1. simpl. now rewrite ?app_nil_r, <- ?app_assoc.
    + exact Hschema.
    + exact Hall2.
    + exact Hall3.
    + right. eauto.
    + reflexivity.
    + intros _ ->. rewrite app_nil_r in Ht2. rewrite Ht2 in Htr2.
      apply (f_equal (@List.length event)) in Htr2.
      rewrite !length_app in Htr2. simpl in Htr2. lia.
  - (* every step returned *)
    pose proof (create_tables_spec _ _ _ (start_run_pending e d) H1)
      as [_ Hp1 Hn1 _ _ _ _].
    apply create_tables_effect in H1 as [(_ & Hc1 & Ht1)|([=] & _)];
      [|reflexivity].
    rewrite start_run_trace in Ht1.
    pose proof (upsert_product_performance_effect _ _ _ Hn1 H2) as (Hc2 & _).
    apply upsert_product_performance_spec in H2
      as [_ Hp2 Hn2 [evs2 [Ht2 Hall2]] Hok2 _ _]; [|assumption].
    destruct (Hok2 eq_refl) as [_ Htr2].
    apply upsert_daily_trends_spec in H3
      as [_ _ _ [evs3 [Ht3 Hall3]] _ _ _]; [|assumption].
    rewrite Hp1, Hc1 in Hall2. simpl in Hall2.
    rewrite Hc2, Hc1 in Hall3. simpl in Hall3.
    exists schema_committed, evs2, evs3, [EvLog LogEtlDone]. conjs.
    + simpl. rewrite Ht3, Ht2, Ht1. simpl. now rewrite <- ?app_assoc.
    + exact Hschema.
    + exact Hall2.
    + exact Hall3.
    + left. split; reflexivity.
    + reflexivity.
    + intros _ ->. rewrite app_nil_r in Ht2. rewrite Ht2 in Htr2.
      apply (f_equal (@List.length event)) in Htr2.
      rewrite !length_app in Htr2. simpl in Htr2. lia.
Qed.

Lemma txn_event_execute ss s : txn_event ss (EvExecute s) -> In s ss.
Proof.
  intros [[=]|[[=]|[s' [Hin [= ->]]]]]. exact Hin.
Qed.

(** The upsert commands a run issues carry pages of the batch its query
    returned. *)
Lemma run_inserts (e : run_env) (d : database) (page : list tuple) :
  (In (EvExecute (InsertProductPerformance page)) (trace (snd (run e d))) ->
   In page (paginate 100
              (select_product_groups (env_planner e) (env_order e)))) /\
  (In (EvExecute (InsertDailyTrends page)) (trace (snd (run e d))) ->
   In page (paginate 100 (select_daily_groups (env_order e)))).
Proof.
  destruct (run_trace_shape e d)
    as (t1 & t2 & t3 & t4 & Ht & H1 & H2 & H3 & H4 & _).
  rewrite Ht. clear Ht.
  rewrite Forall_forall in H1, H2, H3.
  assert (Hlines_p : forall batch s, ~ In (EvExecute s) (product_lines batch)).
  { intros batch s Hin. apply in_flat_map in Hin as [row [_ Hin]].
    destruct row as [|a [|b [|c [|d0 [|? ?]]]]]; try destruct Hin as [[=]|[]];
      destruct Hin. }
  assert (Hlines_d : forall batch s, ~ In (EvExecute s) (date_lines batch)).
  { intros batch s Hin. apply in_flat_map in Hin as [row [_ Hin]].
    destruct row as [|a [|b [|c [|? ?]]]]; try destruct Hin as [[=]|[]];
      destruct Hin. }
  assert (Ht4 : forall s, ~ In (EvExecute s) t4).
  { intros s Hin. destruct H4 as [[_ ->]|[_ ->]]; [|destruct Hin].
    destruct Hin as [[=]|[]]. }
  split; intros Hin; (destruct Hin as [[=]|Hin]);
    repeat (apply in_app_or in Hin as [Hin|Hin]);
    try (now apply Ht4 in Hin).
  - apply H1 in Hin as [[=]|Hin]. apply txn_event_execute in Hin.
    destruct Hin as [[=]|[[=]|[]]].
  - apply H2 in Hin as [[=]|[Hin|[[=]|Hin]]]; [|now apply Hlines_p in Hin].
    apply txn_event_execute in Hin as [[=]|Hin].
    apply in_map_iff in Hin as [page' [[= ->] Hin]]. exact Hin.
  - apply H3 in Hin as [[=]|[Hin|[[=]|Hin]]]; [|now apply Hlines_d in Hin].
    apply txn_event_execute in Hin as [[=]|Hin].
    apply in_map_iff in Hin as [page' [[=] _]].
  - apply H1 in Hin as [[=]|Hin]. apply txn_event_execute in Hin.
    destruct Hin as [[=]|[[=]|[]]].
  - apply H2 in Hin as [[=]|[Hin|[[=]|Hin]]]; [|now apply Hlines_p in Hin].
    apply txn_event_execute in Hin as [[=]|Hin].
    apply in_map_iff in Hin as [page' [[=] _]].
  - apply H3 in Hin as [[=]|[Hin|[[=]|Hin]]]; [|now apply Hlines_d in Hin].
    apply txn_event_execute in Hin as [[=]|Hin].
    apply in_map_iff in Hin as [page' [[= ->] Hin]]. exact Hin.
Qed.

(** ** Keys outside the batch *)

Lemma not_among_In {K} (eqb : K -> K -> bool) (keys : list K) (k : K) :
  (forall a b, eqb a b = true <-> a = b) ->
  In k keys -> not_among eqb keys k = false.
Proof.
  intros Heq Hin. unfold not_among. apply negb_false_iff.
  apply existsb_exists. exists k. split; [assumption | now apply Heq].
Qed.

Lemma upsert_daily_trends_frame keepP w r w' :
  pending w = None ->
  upsert_daily_trends w = (r, w') ->
  frame keepP (not_among Z.eqb (source_dates (order (committed w))))
    (committed w) (committed w').
Proof.
  intros Hpend H. apply upsert_daily_trends_spec in H; [|assumption].
  destruct H as [_ _ _ _ Hok Hraise _]. destruct r as [[]|ex].
  - destruct (Hok eq_refl) as [[rowss Hex] _].
    eapply exec_all_frame; [exact Hex| |].
    + intros s p Hin Hp. apply in_map_iff in Hin as [page [<- _]].
      destruct Hp.
    + intros s x Hin Hx. apply not_among_In; [apply Z.eqb_eq|].
      eapply (pages_keys dt_tuple_key _ s InsertDailyTrends proposed_dates)
        in Hx; [|reflexivity|exact Hin].
      rewrite daily_batch_keys in Hx. apply order_dates_In in Hx
        as [o [Hin' <-]].
      unfold source_dates.
      now apply (in_map (fun o => DATE (Order.created_at o))).
  - destruct (Hraise ex eq_refl) as [-> _]. apply frame_refl.
Qed.

Lemma upsert_product_performance_frame keepP keepD w r w' :
  pending w = None ->
  upsert_product_performance w = (r, w') ->
  frame keepP keepD (committed w) (committed w').
Proof.
  intros Hpend H.
  apply upsert_product_performance_effect in H as [-> _]; [|assumption].
  apply frame_refl.
Qed.

(** ** Primary keys and cardinality *)

Lemma pk_ok_ensure_schema d : pk_ok d -> pk_ok (ensure_schema d).
Proof. unfold pk_ok. simpl. now rewrite !rows_of_create. Qed.

Lemma pk_ok_run (e : run_env) (d : database) :
  pk_ok d -> pk_ok (run_database e d).
Proof.
  intros Hpk. unfold run_database.
  destruct (run_cases e d) as [_ [[_ ->]|[[_ ->]|(_ & _ & ->)]]];
    try apply pk_ok_ensure_schema; exact Hpk.
Qed.

Lemma pk_ok_run_sequence (es : list run_env) :
  forall d, pk_ok d -> pk_ok (run_sequence es d).
Proof.
  induction es as [|e es IH]; intros d Hpk; simpl; [assumption|].
  apply IH. now apply pk_ok_run.
Qed.

Lemma upsert_daily_trends_pk_ok w r w' :
  pending w = None ->
  upsert_daily_trends w = (r, w') ->
  pk_ok (committed w) -> pk_ok (committed w').
Proof.
  intros Hpend H Hpk. apply upsert_daily_trends_spec in H; [|assumption].
  destruct H as [_ _ _ _ Hok Hraise _]. destruct r as [[]|ex].
  - destruct (Hok eq_refl) as [[rowss Hex] _].
    eapply exec_all_pk_ok; eassumption.
  - destruct (Hraise ex eq_refl) as [-> _]. assumption.
Qed.

Lemma daily_pages_distinct os page :
  In page (paginate 100 (select_daily_groups os)) ->
  NoDup (map dt_tuple_key page).
Proof.
  intros Hin. eapply NoDup_concat_page; [|exact Hin].
  rewrite paginate_concat, daily_batch_keys. apply order_dates_NoDup.
Qed.

Lemma product_pages_distinct plan os page :
  In page (paginate 100 (select_product_groups plan os)) ->
  NoDup (map pp_tuple_key page).
Proof.
  intros Hin. eapply NoDup_concat_page; [|exact Hin].
  rewrite paginate_concat, product_batch_keys. apply order_products_NoDup.
Qed.

Lemma upsert_daily_trends_cardinality w r w' :
  pending w = None ->
  upsert_daily_trends w = (r, w') ->
  r <> Raise CardinalityViolation.
Proof.
  intros Hpend H Hr. apply upsert_daily_trends_spec in H; [|assumption].
  destruct H as [_ _ _ _ _ Hraise _].
  destruct (Hraise _ Hr) as [_ [[=]|Hex]]. revert Hex.
  apply daily_pages_no_cardinality_violation.
  intros page. apply daily_pages_distinct.
Qed.

Lemma upsert_product_performance_cardinality w r w' :
  pending w = None ->
  upsert_product_performance w = (r, w') ->
  r <> Raise CardinalityViolation.
Proof.
  intros Hpend H Hr.
  apply upsert_product_performance_effect in H as (_ & _ & Hraise & _);
    [|assumption].
  destruct (Hraise _ Hr) as [[=]|[_ He]].
  destruct (product_performance (committed w)); discriminate.
Qed.

Lemma run_cardinality (e : run_env) (d : database) :
  fst (run e d) <> Raise CardinalityViolation.
Proof.
  destruct (run_outcome e d) as [ex w1 H1 | w1 ex w2 H1 H2 | w1 w2 ex w3 H1 H2 H3
                                | w1 w2 w3 H1 H2 H3]; [| | |discriminate].
  - apply create_tables_effect in H1 as [([=] & _)|([= ->] & _)];
      [discriminate | reflexivity].
  - pose proof (create_tables_spec _ _ _ (start_run_pending e d) H1)
      as [_ _ Hn1 _ _ _ _].
    eapply upsert_product_performance_cardinality; eassumption.
  - pose proof (create_tables_spec _ _ _ (start_run_pending e d) H1)
      as [_ _ Hn1 _ _ _ _].
    pose proof (upsert_product_performance_spec _ _ _ Hn1 H2)
      as [_ _ Hn2 _ _ _ _].
    eapply upsert_daily_trends_cardinality; eassumption.
Qed.

(** ** Every order is counted once *)

Section Partition.
Context {A K : Type}.
Variable f : A -> K.
Variable eqb : K -> K -> bool.
Hypothesis eqb_eq : forall a b, eqb a b = true <-> a = b.

Lemma Zsum_map_add (g h : K -> Z) (ks : list K) :
  Zsum (map (fun k => g k + h k) ks) = Zsum (map g ks) + Zsum (map h ks).
Proof. induction ks as [|k ks IH]; simpl; lia. Qed.

Lemma Zsum_indicator_absent (x : K) (ks : list K) :
  ~ In x ks -> Zsum (map (fun k => if eqb x k then 1 else 0) ks) = 0.
Proof.
  induction ks as [|k ks IH]; simpl; intros Hn; [reflexivity|].
  destruct (eqb x k) eqn:E.
  - apply eqb_eq in E. subst k. tauto.
  - rewrite IH; [reflexivity | tauto].
Qed.

Lemma Zsum_indicator_present (x : K) (ks : list K) :
  NoDup ks -> In x ks ->
  Zsum (map (fun k => if eqb x k then 1 else 0) ks) = 1.
Proof.
  induction 1 as [|k ks Hk Hnd IH]; simpl; intros Hin; [destruct Hin|].
  destruct (eqb x k) eqn:E.
  - apply eqb_eq in E. subst k. rewrite Zsum_indicator_absent; [lia|assumption].
  - destruct Hin as [->|Hin].
    + rewrite (proj2 (eqb_eq x x) eq_refl) in E. discriminate.
    + rewrite IH; [lia|assumption].
Qed.

(** Groups whose keys are distinct and cover every row partition the rows. *)
Lemma count_partition (ks : list K) (l : list A) :
  NoDup ks -> (forall a, In a l -> In (f a) ks) ->
  Zsum (map (fun k => COUNT (filter (fun a => eqb (f a) k) l)) ks) = COUNT l.
Proof.
  intros Hnd. induction l as [|a l IH]; intros Hcover.
  - simpl. clear Hnd Hcover.
    induction ks as [|k ks IHk]; simpl; [reflexivity | exact IHk].
  - rewrite (map_ext _ (fun k => (if eqb (f a) k then 1 else 0) +
                                 COUNT (filter (fun a => eqb (f a) k) l))).
    + rewrite Zsum_map_add, IH, Zsum_indicator_present;
        [ unfold COUNT; simpl List.length; lia
        | assumption
        | apply Hcover; now left
        | intros; apply Hcover; now right ].
    + intros k. simpl. destruct (eqb (f a) k); unfold COUNT; simpl List.length; lia.
Qed.
End Partition.

Lemma daily_counts_partition (os : list Order.t) :
  Zsum (map (fun x => COUNT (orders_of_date x os)) (order_dates os)) = COUNT os.
Proof.
  apply (count_partition (fun o => DATE (Order.created_at o)) Z.eqb Z.eqb_eq).
  - apply order_dates_NoDup.
  - intros o Hin. apply order_dates_In. eauto.
Qed.

Lemma product_counts_partition (plan : scan_order) (os : list Order.t) :
  Zsum (map (fun p => COUNT (orders_of_product p os)) (order_products plan os))
  = COUNT os.
Proof.
  apply (count_partition Order.product String.eqb String.eqb_eq).
  - apply order_products_NoDup.
  - intros o Hin. apply order_products_In. eauto.
Qed.

(** ** The rows ComputeDailyTrends writes *)

Lemma COUNT_map {A B} (g : A -> B) (l : list A) : COUNT (map g l) = COUNT l.
Proof. unfold COUNT. now rewrite length_map. Qed.

Lemma COUNT_filter_le {A} (p : A -> bool) (l : list A) :
  0 <= COUNT (filter p l) <= COUNT l.
Proof.
  unfold COUNT. pose proof (filter_length_le p l). lia.
Qed.

Lemma date_group_row (os : list Order.t) (x : date) :
  COUNT os <= 2147483647 ->
  dt_row_of_tuple (date_group os x) = Ok (daily_row os x).
Proof.
  intros Hle. unfold date_group, dt_row_of_tuple, daily_row. simpl.
  rewrite COUNT_map.
  pose proof (COUNT_filter_le (fun o => Z.eqb (DATE (Order.created_at o)) x) os)
    as Hc. fold (orders_of_date x os) in Hc.
  destruct (Z.leb_spec (-2147483648) (COUNT (orders_of_date x os)));
    destruct (Z.leb_spec (COUNT (orders_of_date x os)) 2147483647);
    simpl; try lia. reflexivity.
Qed.

Lemma date_lines_batch (os : list Order.t) :
  date_lines (select_daily_groups os) = map (date_log os) (order_dates os).
Proof.
  unfold select_daily_groups, date_lines.
  induction (order_dates os) as [|x xs IH]; simpl; [reflexivity|].
  rewrite IH. unfold date_log. now rewrite COUNT_map.
Qed.
Lemma daily_batch_parses (os : list Order.t) :
  COUNT os <= 2147483647 ->
  Forall2 (fun t r => dt_row_of_tuple t = Ok r) (select_daily_groups os)
    (map (daily_row os) (order_dates os)).
Proof.
  intros Hle. unfold select_daily_groups.
  induction (order_dates os) as [|x xs IH]; simpl; constructor; auto.
  now apply date_group_row.
Qed.

Lemma Forall2_functional {A B} (R : A -> B -> Prop) (l : list A) :
  (forall a b b', R a b -> R a b' -> b = b') ->
  forall l1 l2, Forall2 R l l1 -> Forall2 R l l2 -> l1 = l2.
Proof.
  intros Hfun l1 l2 H1. revert l2.
  induction H1 as [|a b l l1 Hab _ IH]; intros l2 H2; inversion H2; subst.
  - reflexivity.
  - f_equal; [eapply Hfun; eassumption | now apply IH].
Qed.

(** With no failure of the connection, an existing relation and counts
    that fit an INTEGER, ComputeDailyTrends returns normally. *)
Lemma upsert_daily_trends_succeeds w :
  pending w = None -> faults w = [] ->
  daily_trends (committed w) <> None ->
  COUNT (order (committed w)) <= 2147483647 ->
  exists w', upsert_daily_trends w = (Ok tt, w').
Proof.
  intros Hpend Hnil Hex Hle.
  destruct (upsert_daily_trends w) as [[[]|ex] w'] eqn:E; [eauto|].
  exfalso. apply upsert_daily_trends_spec in E as [_ _ _ _ _ _ Hff];
    [|assumption].
  destruct (Hff Hnil) as [_ Hraise]. specialize (Hraise ex eq_refl).
  destruct (daily_pages_succeed (clock w) (planner w)
              (paginate 100 (select_daily_groups (order (committed w))))
              (committed w) Hex) as (d' & rowss & Hok).
  - rewrite paginate_concat. intros t Hin.
    apply in_map_iff in Hin as [x [<- _]]. eexists.
    now apply date_group_row.
  - intros page. apply daily_pages_distinct.
  - congruence.
Qed.

(** After ComputeDailyTrends has returned, every date of an order holds its
    row, every other date holds what it held. *)
Lemma upsert_daily_trends_rows w w' :
  pending w = None ->
  COUNT (order (committed w)) <= 2147483647 ->
  upsert_daily_trends w = (Ok tt, w') ->
  (forall x, In x (order_dates (order (committed w))) ->
     dt_find x (rows_of (daily_trends (committed w'))) =
     Some (daily_row (order (committed w)) x)) /\
  (forall x, ~ In x (order_dates (order (committed w))) ->
     dt_find x (rows_of (daily_trends (committed w'))) =
     dt_find x (rows_of (daily_trends (committed w)))) /\
  (daily_trends (committed w) = Some [] ->
   daily_trends (committed w') =
   Some (map (daily_row (order (committed w)))
           (order_dates (order (committed w))))).
Proof.
  intros Hpend Hle H. apply upsert_daily_trends_spec in H; [|assumption].
  destruct H as [_ _ _ _ Hok _ _]. destruct (Hok eq_refl) as [[rowss Hex] _].
  set (os := order (committed w)) in *.
  assert (Hkeys : map dt_tuple_key
                    (List.concat (paginate 100 (select_daily_groups os))) =
                  order_dates os).
  { now rewrite paginate_concat, daily_batch_keys. }
  conjs.
  - intros x Hin.
    change x with (dt_tuple_key (date_group os x)).
    eapply daily_pages_find_proposed; [exact Hex| | |].
    + rewrite Hkeys. apply order_dates_NoDup.
    + rewrite paginate_concat. unfold select_daily_groups. now apply in_map.
    + now apply date_group_row.
  - intros x Hnot. eapply daily_pages_find_other; [exact Hex|].
    now rewrite Hkeys.
  - intros Hempty.
    destruct (daily_pages_fresh _ _ _ _ _ _ _ Hex Hempty) as [rows [Hrows ->]].
    + rewrite Hkeys. apply order_dates_NoDup.
    + intros t _ [].
    + simpl. f_equal. rewrite paginate_concat in Hrows.
      eapply Forall2_functional; [|exact Hrows|now apply daily_batch_parses].
      intros t r r' Hr Hr'. congruence.
Qed.

Lemma at_most_one_row {R K} (key : R -> K) (eqb : K -> K -> bool)
  (k : K) (tbl : list R) :
  (forall a b, eqb a b = true <-> a = b) ->
  NoDup (map key tbl) ->
  (List.length (filter (fun r => eqb (key r) k) tbl) <= 1)%nat.
Proof.
  intros Heq. induction tbl as [|r tbl IH]; simpl; intros Hnd; [lia|].
  inversion Hnd as [|? ? Hr Hnd']; subst.
  destruct (eqb (key r) k) eqn:E; [|now apply IH].
  apply Heq in E. subst k. simpl.
  assert (Hnone : filter (fun r0 => eqb (key r0) (key r)) tbl = []).
  { clear IH Hnd Hnd'. induction tbl as [|r' tbl IH]; simpl; [reflexivity|].
    simpl in Hr. destruct (eqb (key r') (key r)) eqn:E.
    - apply Heq in E. tauto.
    - apply IH. tauto. }
  rewrite Hnone. simpl. lia.
Qed.

(** With no failure of the connection, a run on a source that has an order
    is stopped by the rejected upsert of ComputeProductPerformance: it
    raises, with the schema ensured and nothing written. *)
Lemma run_stops_at_product_upsert (e : run_env) (d : database) :
  env_faults e = [] -> env_order e <> [] ->
  fst (run e d) = Raise SyntaxError /\
  run_database e d = ensure_schema (set_order (env_order e) d) /\
  forall ev, In ev (trace (snd (run e d))) -> daily_event ev = true ->
             ev = EvConnect \/ ev = EvCommit \/ ev = EvRollback.
Proof.
  intros Hnil Hne.
  destruct (create_tables_fault_free (started (start_run e d)))
    as (w1 & E1 & Hc1 & Hn1 & Hf1 & _ & _ & Ht1); [reflexivity | exact Hnil |].
  assert (Ho1 : order (committed w1) = env_order e) by now rewrite Hc1.
  assert (Hp1 : product_performance (committed w1) <> None).
  { rewrite Hc1. simpl. now destruct (product_performance d). }
  unfold run_database.
  destruct (run_outcome e d)
    as [ex w1' H1 | w1' ex w2 H1 H2 | w1' w2 ex w3 H1 H2 H3 | w1' w2 w3 H1 H2 H3];
    rewrite E1 in H1; try discriminate; injection H1 as <-.
  - pose proof (upsert_product_performance_spec _ _ _ Hn1 H2)
      as [_ _ _ [evs2 [Ht2 Hall2]] _ _ _].
    apply upsert_product_performance_effect in H2 as (Hc2 & _ & _ & Hrej & _);
      [|assumption].
    rewrite Ho1 in Hrej. specialize (Hrej Hf1 Hne).
    destruct (product_performance (committed w1)); [|congruence].
    conjs.
    + exact Hrej.
    + now rewrite Hc2, Hc1.
    + simpl. rewrite Ht2, Ht1. simpl. intros ev Hin Hev.
      destruct Hin as [<-|[<-|[<-|[<-|[<-|Hin]]]]]; try discriminate; auto.
      * apply product_events in Hall2.
        rewrite forallb_forall in Hall2. specialize (Hall2 _ Hin).
        destruct ev as [[]| |[]| |]; try discriminate; auto.
  - apply upsert_product_performance_effect in H2 as (_ & Hempty & _);
      [|assumption].
    specialize (Hempty eq_refl). congruence.
  - apply upsert_product_performance_effect in H2 as (_ & Hempty & _);
      [|assumption].
    specialize (Hempty eq_refl). congruence.
Qed.

(** An accepted upsert command leaves, for each key it proposes, the
    proposed row: as it is when the key is new, merged into the row the key
    had by DO UPDATE otherwise. *)
Lemma exec_insert_daily_trends today plan page d d' rows t r :
  exec today plan (InsertDailyTrends page) d = Ok (d', rows) ->
  In t page -> dt_row_of_tuple t = Ok r ->
  dt_find (dt_tuple_key t) (rows_of (daily_trends d')) =
  Some (match dt_find (dt_tuple_key t) (rows_of (daily_trends d)) with
        | Some old => dt_do_update r old
        | None => r
        end).
Proof.
  simpl. intros H Hin Hr.
  destruct (daily_trends d) as [tbl|]; [|discriminate].
  destruct (arity_ok _ _); [|discriminate].
  destruct (dt_insert_rows [] tbl page) as [tbl'|] eqn:E; [|discriminate].
  simpl in H. injection H as <- _. simpl.
  eapply (insert_rows_find_proposed DailyTrends.order_date Z.eqb dt_do_update
            dt_row_of_tuple dt_tuple_key Z.eqb_eq dt_do_update_key dt_row_key);
    eassumption.
Qed.

Lemma exec_insert_product_performance today plan page d d' rows t r :
  exec today plan (InsertProductPerformance page) d = Ok (d', rows) ->
  In t page -> pp_row_of_tuple t = Ok r ->
  pp_find (pp_tuple_key t) (rows_of (product_performance d')) =
  Some (match pp_find (pp_tuple_key t) (rows_of (product_performance d)) with
        | Some old => pp_do_update today r old
        | None => r
        end).
Proof.
  simpl. intros H Hin Hr.
  destruct (product_performance d) as [tbl|]; [|discriminate].
  destruct (arity_ok _ _); [|discriminate].
  destruct (pp_insert_rows today [] tbl page) as [tbl'|] eqn:E; [|discriminate].
  simpl in H. injection H as <- _. simpl.
  eapply (insert_rows_find_proposed ProductPerformance.product String.eqb
            (pp_do_update today) pp_row_of_tuple pp_tuple_key String.eqb_eq
            (pp_do_update_key today) pp_row_key);
    eassumption.
Qed.

(** ** The upsert texts on sample commands *)

(** A command that proposes a key twice is refused. *)
Example repeated_key_refused :
  exec 20100 heap_order
    (InsertDailyTrends [[VDate 1; VInt 1; VNum 1]; [VDate 1; VInt 2; VNum 2]])
    (ready_database []) = Raise CardinalityViolation.
Proof. reflexivity. Qed.

(** The upsert text of [product_performance], given tuples of five values,
    inserts the row of a new key with the date of the tuple and overwrites
    the row of a present key with CURRENT_DATE. *)
Example five_values_accepted :
  exec 20100 heap_order
    (InsertProductPerformance
       [[VText "A"; VInt 2; VNum 30; VNum 15; VDate 20000];
        [VText "B"; VInt 1; VNum 5; VNum 5; VDate 20000]])
    (mkdb [] (Some [ProductPerformance.mk "A" 1 10 10 19000]) (Some [])) =
  Ok (mkdb []
        (Some [ProductPerformance.mk "A" 2 30 15 20100;
               ProductPerformance.mk "B" 1 5 5 20000])
        (Some []), []).
Proof. reflexivity. Qed.

(** * Properties of the specification *)

(** C1 (the code departs from it).  On a source with one order of product A,
    ComputeProductPerformance issues one upsert command whose tuple carries
    four values for the five target columns; the command is rejected, the
    step raises, and [product_performance] is left as it was: no row is
    inserted where A has none, and where A has a row neither its figures nor
    its report_date are overwritten. *)
Theorem product_upsert_rejected :
  let fresh := upsert_product_performance
                 (idle (ready_database one_order) [] 20100 heap_order []) in
  let conflict := upsert_product_performance
                    (idle (seeded_database one_order) [] 20100 heap_order []) in
  fst fresh = Raise SyntaxError /\
  product_performance (committed (snd fresh)) = Some [] /\
  trace (snd fresh) =
    [EvConnect; EvExecute SelectProductGroups; EvCommit;
     EvLog LogProductHeader;
     EvLog (LogProduct (VText "A") (VInt 1) (VNum 10) (VNum 10));
     EvConnect;
     EvExecute (InsertProductPerformance
                  [[VText "A"; VInt 1; VNum 10; VNum 10]]);
     EvRollback] /\
  fst conflict = Raise SyntaxError /\
  product_performance (committed (snd conflict)) =
    Some [ProductPerformance.mk "A" 1 5 5 20000].
Proof. vm_compute. repeat split. Qed.

(** C2 (the code departs from it).  On the orders (A,10), (A,20), (B,5)
    ComputeProductPerformance computes and logs the groups A: count 2,
    total 30, average 15 and B: count 1, total 5, average 5, but its upsert
    is rejected and [product_performance] holds no row afterwards. *)
Theorem product_rows_not_written :
  let step := upsert_product_performance
                (idle (ready_database three_orders) [] 20100 heap_order []) in
  select_product_groups heap_order three_orders =
    [[VText "A"; VInt 2; VNum 30; VNum 15];
     [VText "B"; VInt 1; VNum 5; VNum 5]] /\
  trace (snd step) =
    [EvConnect; EvExecute SelectProductGroups; EvCommit;
     EvLog LogProductHeader;
     EvLog (LogProduct (VText "A") (VInt 2) (VNum 30) (VNum 15));
     EvLog (LogProduct (VText "B") (VInt 1) (VNum 5) (VNum 5));
     EvConnect;
     EvExecute (InsertProductPerformance
                  [[VText "A"; VInt 2; VNum 30; VNum 15];
                   [VText "B"; VInt 1; VNum 5; VNum 5]]);
     EvRollback] /\
  fst step = Raise SyntaxError /\
  product_performance (committed (snd step)) = Some [].
Proof. vm_compute. repeat split. Qed.

(** C3. With no failure of the connection, an existing [daily_trends] and
    counts that fit an INTEGER, ComputeDailyTrends returns normally.  Its
    groups are the calendar dates of the orders, each once and in ascending
    order, and every order is counted in exactly one group, whatever its
    date; the log lines and the batch follow that order; afterwards each of
    these dates holds the count and the sum of the amounts of its orders,
    every other date holds what it held, and a relation that was empty holds
    exactly the rows of the groups. *)
Theorem daily_trends_computed (d : database) (today : date)
  (plan : scan_order) (tr : list event) :
  daily_trends d <> None ->
  COUNT (order d) <= 2147483647 ->
  exists w',
    upsert_daily_trends (idle d [] today plan tr) = (Ok tt, w') /\
    StronglySorted Z.lt (order_dates (order d)) /\
    (forall x, In x (order_dates (order d)) <->
               exists o, In o (order d) /\ DATE (Order.created_at o) = x) /\
    Zsum (map (fun x => COUNT (orders_of_date x (order d)))
            (order_dates (order d))) = COUNT (order d) /\
    trace w' =
      tr ++ [EvConnect; EvExecute SelectDailyGroups; EvCommit;
             EvLog LogDailyHeader] ++
      map (date_log (order d)) (order_dates (order d)) ++
      match select_daily_groups (order d) with
      | [] => []
      | _ => EvConnect ::
             map EvExecute
               (map InsertDailyTrends
                  (paginate 100 (select_daily_groups (order d)))) ++
             [EvCommit]
      end /\
    map dt_tuple_key
      (List.concat (paginate 100 (select_daily_groups (order d)))) =
      order_dates (order d) /\
    (forall x, In x (order_dates (order d)) ->
       dt_find x (rows_of (daily_trends (committed w'))) =
       Some (daily_row (order d) x)) /\
    (forall x, ~ In x (order_dates (order d)) ->
       dt_find x (rows_of (daily_trends (committed w'))) =
       dt_find x (rows_of (daily_trends d))) /\
    (daily_trends d = Some [] ->
     daily_trends (committed w') =
     Some (map (daily_row (order d)) (order_dates (order d)))).
Proof.
  intros Hex Hle.
  destruct (upsert_daily_trends_succeeds (idle d [] today plan tr))
    as [w' Hrun]; try assumption; try reflexivity.
  exists w'.
  destruct (upsert_daily_trends_rows (idle d [] today plan tr) w'
              eq_refl Hle Hrun) as (Hin & Hout & Hnew).
  pose proof (upsert_daily_trends_spec (idle d [] today plan tr) _ _
                eq_refl Hrun) as [_ _ _ _ Hok _ _].
  destruct (Hok eq_refl) as [_ Htr]. simpl in Htr.
  rewrite date_lines_batch in Htr.
  conjs; try assumption.
  - apply order_dates_sorted.
  - apply order_dates_In.
  - apply daily_counts_partition.
  - now rewrite paginate_concat, daily_batch_keys.
Qed.

Lemma daily_trends_computed_witness :
  exists w',
    upsert_daily_trends
      (idle (ready_database january_orders) [] 20100 heap_order []) =
    (Ok tt, w') /\
    daily_trends (committed w') =
    Some [DailyTrends.mk d_2025_01_01 2 15; DailyTrends.mk d_2025_01_02 1 7] /\
    trace w' =
    [EvConnect; EvExecute SelectDailyGroups; EvCommit; EvLog LogDailyHeader;
     EvLog (LogDate (VDate d_2025_01_01) (VInt 2) (VNum 15));
     EvLog (LogDate (VDate d_2025_01_02) (VInt 1) (VNum 7));
     EvConnect;
     EvExecute (InsertDailyTrends
                  [[VDate d_2025_01_01; VInt 2; VNum 15];
                   [VDate d_2025_01_02; VInt 1; VNum 7]]);
     EvCommit].
Proof.
  destruct (daily_trends_computed (ready_database january_orders) 20100
              heap_order [])
    as (w' & Hrun & _ & _ & _ & Htr & _ & _ & _ & Hnew).
  - discriminate.
  - vm_compute. discriminate.
  - exists w'. split; [exact Hrun|]. split.
    + rewrite (Hnew eq_refl). reflexivity.
    + rewrite Htr. reflexivity.
Defined.

(** C4. A run leaves every destination row whose key is not a key of the
    source as it was: the rows of [product_performance] whose product has no
    order and the rows of [daily_trends] whose date has no order are the
    same rows, in the same order, before and after, whatever fails; so does
    each of the two upsert steps run on its own.  With an empty source a run
    issues no upsert command and leaves all rows of both relations as they
    were. *)
Theorem absent_keys_untouched (e : run_env) (d : database)
  (fs : list bool) (today : date) (plan : scan_order) (tr : list event) :
  frame (not_among String.eqb (source_products (env_order e)))
        (not_among Z.eqb (source_dates (env_order e)))
        d (run_database e d) /\
  frame (not_among String.eqb (source_products (order d)))
        (not_among Z.eqb (source_dates (order d)))
        d (committed (snd (upsert_product_performance (idle d fs today plan tr)))) /\
  frame (not_among String.eqb (source_products (order d)))
        (not_among Z.eqb (source_dates (order d)))
        d (committed (snd (upsert_daily_trends (idle d fs today plan tr)))) /\
  rows_of (product_performance (run_database (mkenv [] today plan fs) d)) =
    rows_of (product_performance d) /\
  rows_of (daily_trends (run_database (mkenv [] today plan fs) d)) =
    rows_of (daily_trends d) /\
  forall page,
    ~ In (EvExecute (InsertProductPerformance page))
         (trace (snd (run (mkenv [] today plan fs) d))) /\
    ~ In (EvExecute (InsertDailyTrends page))
         (trace (snd (run (mkenv [] today plan fs) d))).
Proof.
  assert (Hrows : forall e0,
             rows_of (product_performance (run_database e0 d)) =
               rows_of (product_performance d) /\
             rows_of (daily_trends (run_database e0 d)) =
               rows_of (daily_trends d)).
  { intros e0. unfold run_database.
    destruct (run_cases e0 d) as [_ [[_ ->]|[[_ ->]|(_ & _ & ->)]]]; simpl;
      rewrite ?rows_of_create; split; reflexivity. }
  conjs.
  - destruct (Hrows e) as [Hp Hd]. unfold frame. now rewrite Hp, Hd.
  - destruct (upsert_product_performance _) as [r w'] eqn:E.
    exact (upsert_product_performance_frame _ _ (idle d fs today plan tr) _ _
             eq_refl E).
  - destruct (upsert_daily_trends _) as [r w'] eqn:E.
    exact (upsert_daily_trends_frame _ (idle d fs today plan tr) _ _
             eq_refl E).
  - apply Hrows.
  - apply Hrows.
  - intros page.
    destruct (run_inserts (mkenv [] today plan fs) d page) as [Hp Hd].
    split; intros Hin; [apply Hp in Hin | apply Hd in Hin]; simpl in Hin.
    + rewrite (proj2 (select_product_groups_nil plan []) eq_refl) in Hin.
      destruct Hin.
    + destruct Hin.
Qed.

(** C5. A run logs its start marker, then runs EnsureSchema, then
    ComputeProductPerformance, then ComputeDailyTrends, each once and in
    that order, and logs its completion marker exactly when all three
    returned; a step that raises ends the run with that exception in the
    world the step left, so that no later step leaves an event; whenever
    any event follows those of EnsureSchema, EnsureSchema's transaction is
    complete and committed, and no event of ComputeDailyTrends or completion
    marker occurs unless ComputeProductPerformance left events before. *)
Theorem run_is_linear (e : run_env) (d : database) :
  etl_outcome (start_run e d) (fst (run e d)) (snd (run e d)) /\
  exists t1 t2 t3 t4,
    trace (snd (run e d)) = EvLog LogEtlStart :: t1 ++ t2 ++ t3 ++ t4 /\
    forallb schema_event t1 = true /\
    forallb product_event t2 = true /\
    forallb daily_event t3 = true /\
    (fst (run e d) = Ok tt /\ t4 = [EvLog LogEtlDone] \/
     (exists ex, fst (run e d) = Raise ex) /\ t4 = []) /\
    (t2 ++ t3 ++ t4 <> [] -> t1 = schema_committed) /\
    (t3 ++ t4 <> [] -> t2 <> []).
Proof.
  split; [apply run_outcome|].
  destruct (run_trace_shape e d)
    as (t1 & t2 & t3 & t4 & Ht & H1 & H2 & H3 & H4 & H5 & H6).
  exists t1, t2, t3, t4. conjs; try assumption.
  - now apply schema_events.
  - eapply product_events, H2.
  - eapply daily_events, H3.
Qed.

(** C6 (the code departs from it).  A run on a source with one order of
    product A creates no row: started on empty relations it leaves
    [product_performance] without a row for A and [daily_trends] without a
    row for the date of the order, and started on a [product_performance]
    that holds a row for A it overwrites none of its fields.  Both runs
    raise in ComputeProductPerformance. *)
Theorem upsert_creates_no_row :
  let fresh := run (fault_free one_order 20100) (ready_database []) in
  let conflict := run (fault_free one_order 20100) (seeded_database []) in
  fst fresh = Raise SyntaxError /\
  pp_find "A" (rows_of (product_performance (committed (snd fresh)))) = None /\
  dt_find d_2025_01_01 (rows_of (daily_trends (committed (snd fresh)))) =
    None /\
  fst conflict = Raise SyntaxError /\
  pp_find "A" (rows_of (product_performance (committed (snd conflict)))) =
    Some (ProductPerformance.mk "A" 1 5 5 20000).
Proof. vm_compute. repeat split. Qed.

(** C7 (the code departs from it).  Two runs in succession, on 20100 and on
    20101, over the same source with one order of product A, both raise in
    ComputeProductPerformance: the row A had keeps its report_date 20000
    instead of advancing to the date of the later run, and [daily_trends]
    never receives the row of the order's date. *)
Theorem rerun_does_not_advance :
  let first := fault_free one_order 20100 in
  let second := fault_free one_order 20101 in
  let d1 := run_database first (seeded_database []) in
  fst (run first (seeded_database [])) = Raise SyntaxError /\
  fst (run second d1) = Raise SyntaxError /\
  run_sequence [first; second] (seeded_database []) =
    seeded_database one_order /\
  d1 = seeded_database one_order.
Proof. vm_compute. repeat split. Qed.

(** C8. With no failure of the connection, EnsureSchema run twice in a row
    returns normally both times, and the second run leaves the database the
    first one left: both destination relations exist, each with the rows it
    had if it existed before and with none if it did not. *)
Theorem ensure_schema_idempotent (d : database) (today : date)
  (plan : scan_order) (tr : list event) :
  exists w1 w2,
    create_tables (idle d [] today plan tr) = (Ok tt, w1) /\
    create_tables w1 = (Ok tt, w2) /\
    committed w2 = committed w1 /\
    committed w1 = ensure_schema d /\
    product_performance (committed w1) =
      Some (rows_of (product_performance d)) /\
    daily_trends (committed w1) = Some (rows_of (daily_trends d)) /\
    order (committed w1) = order d.
Proof.
  destruct (create_tables_fault_free (idle d [] today plan tr))
    as (w1 & E1 & Hc1 & Hn1 & Hf1 & _); [reflexivity..|].
  destruct (create_tables_fault_free w1 Hn1 Hf1) as (w2 & E2 & Hc2 & _).
  exists w1, w2. simpl in Hc1. rewrite Hc2, Hc1, ensure_schema_idem.
  conjs; auto.
  - simpl. now destruct (product_performance d).
  - simpl. now destruct (daily_trends d).
Qed.

(** C9. Each data-access step started at rest leaves no transaction open
    and is all or nothing.  EnsureSchema commits the schema or changes
    nothing; a read that returns has committed, the trace of its transaction
    being connect, execute, commit; ComputeProductPerformance and
    ComputeDailyTrends commit the effect of all their upsert commands or, if
    they raise, leave the database as it was.  A run is not all or nothing:
    when it raises after EnsureSchema has returned, the schema stays
    committed, as the run on three orders and no destination relation
    shows. *)
Theorem steps_commit_separately (d : database) (fs : list bool)
  (today : date) (plan : scan_order) (tr : list event) (q : statement)
  (e : run_env) :
  (pending (snd (create_tables (idle d fs today plan tr))) = None /\
   (fst (create_tables (idle d fs today plan tr)) = Ok tt /\
    committed (snd (create_tables (idle d fs today plan tr))) =
      ensure_schema d \/
    fst (create_tables (idle d fs today plan tr)) = Raise OperationalError /\
    committed (snd (create_tables (idle d fs today plan tr))) = d)) /\
  (pending (snd (fetch_query_results q (idle d fs today plan tr))) = None /\
   ((exists rows,
       fst (fetch_query_results q (idle d fs today plan tr)) = Ok rows /\
       exec today plan q d =
         Ok (committed (snd (fetch_query_results q (idle d fs today plan tr))),
             rows) /\
       trace (snd (fetch_query_results q (idle d fs today plan tr))) =
         tr ++ [EvConnect; EvExecute q; EvCommit]) \/
    (exists ex,
       fst (fetch_query_results q (idle d fs today plan tr)) = Raise ex) /\
    committed (snd (fetch_query_results q (idle d fs today plan tr))) = d)) /\
  (pending (snd (upsert_product_performance (idle d fs today plan tr))) = None /\
   committed (snd (upsert_product_performance (idle d fs today plan tr))) = d) /\
  (pending (snd (upsert_daily_trends (idle d fs today plan tr))) = None /\
   (fst (upsert_daily_trends (idle d fs today plan tr)) = Ok tt /\
    (exists rowss,
       exec_all today plan
         (map InsertDailyTrends
            (paginate 100 (select_daily_groups (order d)))) d =
       Ok (committed (snd (upsert_daily_trends (idle d fs today plan tr))),
           rowss)) \/
    (exists ex,
       fst (upsert_daily_trends (idle d fs today plan tr)) = Raise ex) /\
    committed (snd (upsert_daily_trends (idle d fs today plan tr))) = d)) /\
  (pending (snd (run e d)) = None /\
   (fst (run e d) = Raise OperationalError /\
    run_database e d = set_order (env_order e) d \/
    (exists ex, fst (run e d) = Raise ex) /\
    run_database e d = ensure_schema (set_order (env_order e) d) \/
    fst (run e d) = Ok tt /\ env_order e = [] /\
    run_database e d = ensure_schema (set_order (env_order e) d))) /\
  (fst (run (fault_free three_orders today) empty_database) = Raise SyntaxError /\
   run_database (fault_free three_orders today) empty_database =
     ready_database three_orders).
Proof.
  set (w := idle d fs today plan tr).
  assert (Hpend : pending w = None) by reflexivity.
  conjs.
  - destruct (create_tables w) as [r w'] eqn:E.
    now pose proof (create_tables_spec _ _ _ Hpend E) as [_ _ Hn _ _ _ _].
  - destruct (create_tables w) as [r w'] eqn:E.
    destruct (create_tables_effect _ _ _ Hpend E)
      as [(-> & Hc & _)|(-> & Hc & _)]; [left|right]; now split.
  - destruct (fetch_query_results q w) as [r w'] eqn:E.
    now pose proof (fetch_query_results_spec _ _ _ _ Hpend E) as [_ _ Hn _ _ _ _].
  - destruct (fetch_query_results q w) as [r w'] eqn:E.
    pose proof (fetch_query_results_spec _ _ _ _ Hpend E)
      as [_ _ _ _ Hok Hraise _].
    destruct r as [rows|ex]; [left|right].
    + exists rows. destruct (Hok rows eq_refl) as [Hex Htr].
      simpl. conjs; [reflexivity | exact Hex | exact Htr].
    + simpl. split; [eauto|]. now destruct (Hraise ex eq_refl).
  - destruct (upsert_product_performance w) as [r w'] eqn:E.
    now pose proof (upsert_product_performance_spec _ _ _ Hpend E)
      as [_ _ Hn _ _ _ _].
  - destruct (upsert_product_performance w) as [r w'] eqn:E. simpl.
    now apply upsert_product_performance_effect in E as [Hc _].
  - destruct (upsert_daily_trends w) as [r w'] eqn:E.
    now pose proof (upsert_daily_trends_spec _ _ _ Hpend E) as [_ _ Hn _ _ _ _].
  - destruct (upsert_daily_trends w) as [r w'] eqn:E.
    pose proof (upsert_daily_trends_spec _ _ _ Hpend E)
      as [_ _ _ _ Hok Hraise _].
    destruct r as [[]|ex]; [left|right].
    + split; [reflexivity|]. simpl. now destruct (Hok eq_refl).
    + simpl. split; [eauto|]. now destruct (Hraise ex eq_refl).
  - apply run_cases.
  - apply run_cases.
  - apply (run_stops_at_product_upsert (fault_free three_orders today));
      [reflexivity | discriminate].
  - apply (run_stops_at_product_upsert (fault_free three_orders today));
      [reflexivity | discriminate].
Qed.

(** C10. The batch of each upsert step holds each key once: the keys of the
    product batch are the products of the orders, the keys of the daily
    batch are their calendar dates, without repetition.  Hence every upsert
    command a run issues proposes each key once, and neither a run nor an
    upsert step run on its own is ever refused for affecting a row a second
    time. *)
Theorem batch_keys_distinct (e : run_env) (d : database) (fs : list bool)
  (today : date) (plan : scan_order) (tr : list event) (page : list tuple) :
  NoDup (map pp_tuple_key
           (select_product_groups (env_planner e) (env_order e))) /\
  NoDup (map dt_tuple_key (select_daily_groups (env_order e))) /\
  (In (EvExecute (InsertProductPerformance page)) (trace (snd (run e d))) ->
   NoDup (map pp_tuple_key page)) /\
  (In (EvExecute (InsertDailyTrends page)) (trace (snd (run e d))) ->
   NoDup (map dt_tuple_key page)) /\
  fst (run e d) <> Raise CardinalityViolation /\
  fst (upsert_product_performance (idle d fs today plan tr)) <>
    Raise CardinalityViolation /\
  fst (upsert_daily_trends (idle d fs today plan tr)) <>
    Raise CardinalityViolation.
Proof.
  destruct (run_inserts e d page) as [Hp Hd]. conjs.
  - rewrite product_batch_keys. apply order_products_NoDup.
  - rewrite daily_batch_keys. apply order_dates_NoDup.
  - intros Hin. eapply product_pages_distinct, Hp, Hin.
  - intros Hin. eapply daily_pages_distinct, Hd, Hin.
  - apply run_cardinality.
  - destruct (upsert_product_performance _) as [r w'] eqn:E.
    exact (upsert_product_performance_cardinality
             (idle d fs today plan tr) _ _ eq_refl E).
  - destruct (upsert_daily_trends _) as [r w'] eqn:E.
    exact (upsert_daily_trends_cardinality
             (idle d fs today plan tr) _ _ eq_refl E).
Qed.

(** * Further properties of the code *)

(** ** Outcomes without failure of the connection *)

Lemma upsert_daily_trends_empty w r w' :
  pending w = None -> order (committed w) = [] ->
  upsert_daily_trends w = (r, w') ->
  committed w' = committed w /\
  (r = Ok tt \/ r = Raise OperationalError) /\
  (faults w = [] -> r = Ok tt /\ faults w' = []) /\
  (r = Ok tt ->
   trace w' = trace w ++ [EvConnect; EvExecute SelectDailyGroups; EvCommit;
                          EvLog LogDailyHeader]).
Proof.
  intros Hpend Hempty H. apply upsert_daily_trends_spec in H; [|assumption].
  destruct H as [_ _ _ _ Hok Hraise Hff]. rewrite Hempty in *. simpl in *.
  destruct r as [[]|ex].
  - destruct (Hok eq_refl) as [[rowss [= Hc _]] Htr].
    refine (conj _ (conj _ (conj _ _))).
    + congruence.
    + now left.
    + intros Hnil. split; [reflexivity | now apply Hff].
    + intros _. exact Htr.
  - destruct (Hraise ex eq_refl) as [Hc [->|[=]]].
    refine (conj _ (conj _ (conj _ _))).
    + assumption.
    + now right.
    + intros Hnil. destruct (Hff Hnil) as [_ Hno].
      discriminate (Hno _ eq_refl).
    + discriminate.
Qed.

Lemma upsert_product_performance_empty w r w' :
  pending w = None -> order (committed w) = [] ->
  upsert_product_performance w = (r, w') ->
  pending w' = None /\
  (faults w = [] -> r = Ok tt /\ faults w' = []) /\
  (r = Ok tt ->
   trace w' = trace w ++ [EvConnect; EvExecute SelectProductGroups; EvCommit;
                          EvLog LogProductHeader]).
Proof.
  intros Hpend Hempty H.
  pose proof (upsert_product_performance_effect _ _ _ Hpend H)
    as (_ & _ & _ & _ & Hok).
  apply upsert_product_performance_spec in H; [|assumption].
  destruct H as [_ _ Hn _ Htr _ Hff]. rewrite Hempty in *.
  rewrite (proj2 (select_product_groups_nil (planner w) []) eq_refl) in Htr.
  refine (conj Hn (conj _ _)).
  - intros Hnil. split; [now apply Hok | now apply Hff].
  - intros Hr. destruct (Htr Hr) as [_ Ht]. simpl in Ht. exact Ht.
Qed.

(** With no failure of the connection, a run on an empty source returns
    normally, having executed the schema statements and the two queries. *)
Lemma run_empty_fault_free (e : run_env) (d : database) :
  env_faults e = [] -> env_order e = [] ->
  fst (run e d) = Ok tt /\
  trace (snd (run e d)) =
    EvLog LogEtlStart :: schema_committed ++
    [EvConnect; EvExecute SelectProductGroups; EvCommit; EvLog LogProductHeader;
     EvConnect; EvExecute SelectDailyGroups; EvCommit; EvLog LogDailyHeader;
     EvLog LogEtlDone].
Proof.
  intros Hnil Hempty.
  destruct (create_tables_fault_free (started (start_run e d)))
    as (w1 & E1 & Hc1 & Hn1 & Hf1 & _ & _ & Ht1); [reflexivity | exact Hnil |].
  assert (Ho1 : order (committed w1) = []) by now rewrite Hc1.
  destruct (upsert_product_performance w1) as [r2 w2] eqn:E2.
  pose proof (upsert_product_performance_effect _ _ _ Hn1 E2) as (Hc2 & _).
  destruct (upsert_product_performance_empty _ _ _ Hn1 Ho1 E2)
    as (Hn2 & Hok2 & Ht2).
  destruct (Hok2 Hf1) as [-> Hf2]. specialize (Ht2 eq_refl).
  assert (Ho2 : order (committed w2) = []) by now rewrite Hc2.
  destruct (upsert_daily_trends w2) as [r3 w3] eqn:E3.
  destruct (upsert_daily_trends_empty _ _ _ Hn2 Ho2 E3) as (_ & _ & Hok3 & Ht3).
  destruct (Hok3 Hf2) as [-> _]. specialize (Ht3 eq_refl).
  assert (Hrun : extract_transform_load (start_run e d) =
                 (Ok tt, add_trace [EvLog LogEtlDone] w3)).
  { unfold extract_transform_load.
    unfold bind at 1. unfold logging_info at 1. rewrite record_eq.
    fold (add_trace [EvLog LogEtlStart] (start_run e d)).
    fold (started (start_run e d)).
    unfold bind at 1. rewrite E1. unfold bind at 1. rewrite E2.
    unfold bind at 1. rewrite E3. unfold logging_info. now rewrite record_eq. }
  unfold run. rewrite Hrun. simpl.
  split; [reflexivity|].
  rewrite Ht3, Ht2, Ht1, start_run_trace. simpl. reflexivity.
Qed.

(** X1. With no failure of the connection, ComputeProductPerformance
    returns normally exactly when the source has no order; when it has one,
    the step raises SyntaxError if [product_performance] exists and
    UndefinedTable if it does not. *)
Theorem product_step_outcome (d : database) (today : date)
  (plan : scan_order) (tr : list event) :
  fst (upsert_product_performance (idle d [] today plan tr)) =
  match order d with
  | [] => Ok tt
  | _ :: _ =>
      Raise (match product_performance d with
             | None => UndefinedTable
             | Some _ => SyntaxError
             end)
  end.
Proof.
  destruct (upsert_product_performance _) as [r w'] eqn:E.
  apply upsert_product_performance_effect in E as (_ & _ & _ & Hrej & Hok);
    [|reflexivity].
  simpl in *. destruct (order d).
  - now apply Hok.
  - apply Hrej; [reflexivity | discriminate].
Qed.

(** X2. With no failure of the connection, a run returns normally exactly
    when the source has no order and raises SyntaxError otherwise; in both
    cases it leaves the schema ensured and the rows as they were, and it
    never executes an upsert of [daily_trends]; when the source has an
    order it does not even execute the query of ComputeDailyTrends. *)
Theorem run_outcome_without_failure (os : list Order.t) (today : date)
  (plan : scan_order) (d : database) :
  fst (run (mkenv os today plan []) d) =
    match os with [] => Ok tt | _ :: _ => Raise SyntaxError end /\
  run_database (mkenv os today plan []) d = ensure_schema (set_order os d) /\
  (os = [] \/
   ~ In (EvExecute SelectDailyGroups)
        (trace (snd (run (mkenv os today plan []) d)))) /\
  forall page,
    ~ In (EvExecute (InsertDailyTrends page))
         (trace (snd (run (mkenv os today plan []) d))).
Proof.
  destruct os as [|o os].
  - destruct (run_empty_fault_free (mkenv [] today plan []) d) as [Hr Ht];
      try reflexivity.
    conjs.
    + exact Hr.
    + unfold run_database.
      destruct (run_cases (mkenv [] today plan []) d)
        as [_ [[Hr' _]|[[_ Hc]|(_ & _ & Hc)]]];
        [exfalso; congruence | exact Hc | exact Hc].
    + now left.
    + intros page Hin.
      apply (proj2 (run_inserts (mkenv [] today plan []) d page)) in Hin.
      destruct Hin.
  - destruct (run_stops_at_product_upsert (mkenv (o :: os) today plan []) d)
      as (Hr & Hc & Hev); [reflexivity | discriminate |].
    conjs.
    + exact Hr.
    + exact Hc.
    + right. intros Hin. destruct (Hev _ Hin eq_refl) as [[=]|[[=]|[=]]].
    + intros page Hin. destruct (Hev _ Hin eq_refl) as [[=]|[[=]|[=]]].
Qed.

(** ** What a run can raise, what it never writes *)

Lemma run_result_cases (e : run_env) (d : database) :
  fst (run e d) = Ok tt /\ env_order e = [] \/
  fst (run e d) = Raise OperationalError \/
  fst (run e d) = Raise SyntaxError /\ env_order e <> [].
Proof.
  destruct (run_outcome e d) as [ex w1 H1 | w1 ex w2 H1 H2 | w1 w2 ex w3 H1 H2 H3
                                | w1 w2 w3 H1 H2 H3].
  - apply create_tables_effect in H1 as [([=] & _)|([= ->] & _)];
      [|reflexivity]. right. now left.
  - pose proof (create_tables_spec _ _ _ (start_run_pending e d) H1)
      as [_ _ Hn1 _ _ _ _].
    apply create_tables_effect in H1 as [(_ & Hc1 & _)|([=] & _)];
      [|reflexivity].
    apply upsert_product_performance_effect in H2 as (_ & _ & Hraise & _);
      [|assumption].
    destruct (Hraise ex eq_refl) as [->|[Hne ->]]; right; [now left|right].
    rewrite Hc1 in *. simpl in *. split; [|exact Hne].
    now destruct (product_performance d).
  - pose proof (create_tables_spec _ _ _ (start_run_pending e d) H1)
      as [_ _ Hn1 _ _ _ _].
    pose proof (upsert_product_performance_spec _ _ _ Hn1 H2)
      as [_ _ Hn2 _ _ _ _].
    apply upsert_product_performance_effect in H2 as (Hc2 & Hempty & _);
      [|assumption].
    specialize (Hempty eq_refl). rewrite <- Hc2 in Hempty.
    destruct (upsert_daily_trends_empty _ _ _ Hn2 Hempty H3)
      as (_ & [[=]|[= ->]] & _).
    right. now left.
  - left. split; [reflexivity|].
    pose proof (create_tables_spec _ _ _ (start_run_pending e d) H1)
      as [_ _ Hn1 _ _ _ _].
    apply create_tables_effect in H1 as [(_ & Hc1 & _)|([=] & _)];
      [|reflexivity].
    apply upsert_product_performance_effect in H2 as (_ & Hempty & _);
      [|assumption].
    specialize (Hempty eq_refl). now rewrite Hc1 in Hempty.
Qed.

(** X3. Whatever fails, the outcome of a run tells what the source held:
    a run that returns normally found no order, a run that raises
    SyntaxError found one.  A run never raises the exception of a failed
    tuple unpacking, of a value its column refuses, of an integer out of
    range or of a row affected twice. *)
Theorem run_outcome_tells_the_source (e : run_env) (d : database) :
  (fst (run e d) = Ok tt -> env_order e = []) /\
  (fst (run e d) = Raise SyntaxError -> env_order e <> []) /\
  fst (run e d) <> Raise ValueError /\
  fst (run e d) <> Raise DatatypeMismatch /\
  fst (run e d) <> Raise NumericValueOutOfRange /\
  fst (run e d) <> Raise CardinalityViolation.
Proof.
  destruct (run_result_cases e d) as [[H He]|[H|[H He]]]; rewrite H; conjs;
    try discriminate; try (intros _; exact He); intros; discriminate.
Qed.

(** X4. The source relation is only read: EnsureSchema, a read, each upsert
    step and a whole run leave ["order"] as they found it, whatever
    fails. *)
Theorem source_is_only_read (e : run_env) (d : database) (fs : list bool)
  (today : date) (plan : scan_order) (tr : list event) (q : statement) :
  order (run_database e d) = env_order e /\
  order (committed (snd (create_tables (idle d fs today plan tr)))) = order d /\
  order (committed (snd (fetch_query_results q (idle d fs today plan tr)))) =
    order d /\
  order (committed (snd (upsert_product_performance
                           (idle d fs today plan tr)))) = order d /\
  order (committed (snd (upsert_daily_trends (idle d fs today plan tr)))) =
    order d.
Proof.
  set (w := idle d fs today plan tr).
  assert (Hpend : pending w = None) by reflexivity.
  conjs.
  - unfold run_database.
    destruct (run_cases e d) as [_ [[_ ->]|[[_ ->]|(_ & _ & ->)]]]; reflexivity.
  - destruct (create_tables w) as [r w'] eqn:E. simpl.
    apply create_tables_effect in E as [(_ & -> & _)|(_ & -> & _)];
      [reflexivity | reflexivity | assumption].
  - destruct (fetch_query_results q w) as [r w'] eqn:E. simpl.
    apply fetch_query_results_spec in E as [_ _ _ _ Hok Hraise _];
      [|assumption].
    destruct r as [rows|ex].
    + destruct (Hok rows eq_refl) as [Hex _].
      now apply exec_order in Hex.
    + now destruct (Hraise ex eq_refl) as [-> _].
  - destruct (upsert_product_performance w) as [r w'] eqn:E. simpl.
    now apply upsert_product_performance_effect in E as [-> _].
  - destruct (upsert_daily_trends w) as [r w'] eqn:E. simpl.
    apply upsert_daily_trends_spec in E as [_ _ _ _ Hok Hraise _];
      [|assumption].
    destruct r as [[]|ex].
    + destruct (Hok eq_refl) as [[rowss Hex] _].
      now apply exec_all_order in Hex.
    + now destruct (Hraise ex eq_refl) as [-> _].
Qed.

(** X5. When the first connection of a run fails, the run raises
    OperationalError having executed no statement; when the commit of
    EnsureSchema fails, the run raises OperationalError having executed both
    CREATE statements, and the relations that did not exist still do not:
    the schema is created entirely or not at all. *)
Theorem schema_failure_leaves_nothing (os : list Order.t) (today : date)
  (plan : scan_order) (fs : list bool) (d : database) :
  run (mkenv os today plan (true :: fs)) d =
    (Raise OperationalError,
     mkworld (set_order os d) None fs today plan
       [EvLog LogEtlStart; EvConnect]) /\
  run (mkenv os today plan (false :: false :: false :: true :: fs)) d =
    (Raise OperationalError,
     mkworld (set_order os d) None fs today plan
       [EvLog LogEtlStart; EvConnect; EvExecute CreateProductPerformance;
        EvExecute CreateDailyTrends; EvCommit]).
Proof. split; reflexivity. Qed.

(** X6. A read with one of the two queries of the DAG leaves the database
    as it was and no transaction open, whether it returns or raises.  When
    it returns, the daily query has given the groups of the source by date,
    and the product query one tuple of four values for each group of the
    source by product, with the product, the count and the sum of that
    group. *)
Theorem reads_return_the_groups (d : database) (fs : list bool)
  (today : date) (plan : scan_order) (tr : list event) :
  (forall q, q = SelectProductGroups \/ q = SelectDailyGroups ->
     committed (snd (fetch_query_results q (idle d fs today plan tr))) = d /\
     pending (snd (fetch_query_results q (idle d fs today plan tr))) = None) /\
  (forall rows,
     fst (fetch_query_results SelectDailyGroups (idle d fs today plan tr)) =
       Ok rows ->
     rows = select_daily_groups (order d)) /\
  (forall rows,
     fst (fetch_query_results SelectProductGroups (idle d fs today plan tr)) =
       Ok rows ->
     Forall (fun t => List.length t = 4%nat) rows /\
     map (firstn 3) rows =
       map (fun p =>
              [VText p; VInt (COUNT (orders_of_product p (order d)));
               VNum (SUM (map Order.amount (orders_of_product p (order d))))])
         (order_products plan (order d))).
Proof.
  set (w := idle d fs today plan tr).
  assert (Hpend : pending w = None) by reflexivity.
  assert (Hread : forall q rows0 rows,
             exec today plan q d = Ok (d, rows0) ->
             fst (fetch_query_results q w) = Ok rows -> rows = rows0).
  { intros q rows0 rows Hq Hr.
    destruct (fetch_query_results q w) as [r w'] eqn:E. simpl in Hr. subst r.
    apply fetch_query_results_spec in E as [_ _ _ _ Hok _ _]; [|assumption].
    simpl in Hok. rewrite Hq in Hok.
    now destruct (Hok rows eq_refl) as [[= Hd Hrows] _]. }
  conjs.
  - intros q Hq.
    assert (Hex : exists rows0, exec today plan q d = Ok (d, rows0)).
    { destruct Hq as [->| ->]; eexists; reflexivity. }
    destruct Hex as [rows0 Hex].
    destruct (fetch_query_results q w) as [r w'] eqn:E. simpl.
    apply fetch_query_results_spec in E as [_ _ Hn _ Hok Hraise _];
      [|assumption].
    split; [|exact Hn].
    simpl in Hok, Hraise. rewrite Hex in Hok.
    destruct r as [rows|ex].
    + now destruct (Hok rows eq_refl) as [[= Hd Hrows] _].
    + now destruct (Hraise ex eq_refl) as [-> _].
  - intros rows Hr. exact (Hread SelectDailyGroups _ rows eq_refl Hr).
  - intros rows Hr.
    rewrite (Hread SelectProductGroups _ rows eq_refl Hr).
    unfold select_product_groups. fold (order_products plan (order d)).
    split.
    + apply Forall_forall. intros t Ht.
      apply in_map_iff in Ht as [p [<- _]]. reflexivity.
    + rewrite map_map. apply map_ext. intros p. simpl.
      now rewrite COUNT_map.
Qed.

(** ** More on one INSERT ... ON CONFLICT DO UPDATE command *)

Section UpsertMore.
Context {R K : Type}.
Variable key : R -> K.
Variable eqb : K -> K -> bool.
Variable do_update : R -> R -> R.
Variable row_of_tuple : tuple -> result R.
Variable tuple_key : tuple -> K.
Hypothesis eqb_eq : forall a b, eqb a b = true <-> a = b.
Hypothesis do_update_key : forall r old, key (do_update r old) = key old.
Hypothesis row_key : forall t r, row_of_tuple t = Ok r -> key r = tuple_key t.

(** A command is refused for a row affected twice or for a tuple that the
    columns refuse. *)
Lemma insert_rows_raise (page : list tuple) :
  forall touched tbl e,
    insert_rows key eqb do_update row_of_tuple touched tbl page = Raise e ->
    e = CardinalityViolation \/
    exists t, In t page /\ row_of_tuple t = Raise e.
Proof.
  induction page as [|t page IH]; intros touched tbl e H; simpl in H.
  - discriminate.
  - destruct (row_of_tuple t) as [r|e'] eqn:Er; simpl in H.
    + destruct (existsb _ touched).
      * injection H as <-. now left.
      * destruct (IH _ _ _ H) as [->|[t' [Hin Ht']]]; [now left|right].
        exists t'. split; [now right | assumption].
    + injection H as <-. right. exists t. split; [now left | assumption].
Qed.

(** Proposing the row a key already holds changes nothing. *)
Lemma upsert_row_same (r : R) (tbl : list R) :
  find_row key eqb (key r) tbl = Some r -> do_update r r = r ->
  upsert_row key eqb do_update r tbl = tbl.
Proof.
  intros Hfind Hsame. induction tbl as [|old tbl IH]; simpl in *.
  - discriminate.
  - destruct (eqb (key old) (key r)).
    + injection Hfind as ->. now rewrite Hsame.
    + f_equal. now apply IH.
Qed.

Lemma insert_rows_same (page : list tuple) :
  forall touched tbl tbl',
    insert_rows key eqb do_update row_of_tuple touched tbl page = Ok tbl' ->
    (forall t r, In t page -> row_of_tuple t = Ok r ->
                 find_row key eqb (key r) tbl = Some r /\ do_update r r = r) ->
    tbl' = tbl.
Proof.
  induction page as [|t page IH]; intros touched tbl tbl' H Hsame; simpl in H.
  - now injection H as <-.
  - destruct (row_of_tuple t) as [r|] eqn:Er; simpl in H; [|discriminate].
    destruct (existsb _ touched); [discriminate|].
    destruct (Hsame t r) as [Hfind Hupd]; [now left | assumption |].
    rewrite (upsert_row_same _ _ Hfind Hupd) in H.
    eapply IH; [exact H|]. intros t' r' Hin. apply Hsame. now right.
Qed.

(** The keys after an accepted command: the keys before, in their places,
    then the proposed keys that were new, in the order of the command. *)
Lemma insert_rows_keys (page : list tuple) :
  forall touched tbl tbl',
    insert_rows key eqb do_update row_of_tuple touched tbl page = Ok tbl' ->
    map key tbl' =
    map key tbl ++
    filter (fun k => negb (existsb (eqb k) (map key tbl)))
      (map tuple_key page).
Proof.
  induction page as [|t page IH]; intros touched tbl tbl' H.
  - simpl in H. injection H as <-. simpl. now rewrite app_nil_r.
  - pose proof (insert_rows_distinct key eqb do_update row_of_tuple tuple_key
                  eqb_eq row_key _ _ _ _ H) as [Hnd _].
    inversion Hnd as [|? ? Hnotin _]; subst.
    simpl in H. destruct (row_of_tuple t) as [r|] eqn:Er; simpl in H;
      [|discriminate].
    destruct (existsb _ touched); [discriminate|].
    rewrite (IH _ _ _ H).
    rewrite (upsert_row_keys key eqb do_update eqb_eq do_update_key).
    simpl. rewrite <- (row_key _ _ Er).
    destruct (existsb (eqb (key r)) (map key tbl)) eqn:E; simpl.
    + reflexivity.
    + rewrite <- app_assoc. simpl. do 2 f_equal.
      apply filter_ext_in. intros k Hk. f_equal.
      rewrite existsb_app. simpl. rewrite orb_false_r.
      assert (eqb k (key r) = false) as ->; [|now rewrite orb_false_r].
      destruct (eqb k (key r)) eqn:Ek; [|reflexivity].
      apply eqb_eq in Ek. subst k.
      rewrite (row_key _ _ Er) in Hk. contradiction.
Qed.

End UpsertMore.

(** ** More on the upsert commands of ComputeDailyTrends *)

Lemma set_daily_trends_same d tbl :
  daily_trends d = Some tbl -> set_daily_trends (Some tbl) d = d.
Proof. destruct d. simpl. now intros ->. Qed.

Lemma dt_do_update_same r : dt_do_update r r = r.
Proof. now destruct r. Qed.

Section DailyPagesMore.
Variable today : date.
Variable plan : scan_order.

Lemma daily_pages_raise (pages : list (list tuple)) :
  forall d e,
    exec_all today plan (map InsertDailyTrends pages) d = Raise e ->
    e = UndefinedTable /\ daily_trends d = None /\ pages <> [] \/
    e = SyntaxError /\
      (exists page, In page pages /\ arity_ok daily_trends_columns page = false) \/
    e = CardinalityViolation \/
    exists t, In t (List.concat pages) /\ dt_row_of_tuple t = Raise e.
Proof.
  induction pages as [|page pages IH]; intros d e H; simpl in H.
  - discriminate.
  - destruct (daily_trends d) as [tbl|] eqn:Etbl.
    2:{ injection H as <-. left. now conjs. }
    destruct (arity_ok daily_trends_columns page) eqn:Ear.
    2:{ injection H as <-. right. left. split; [reflexivity|].
        exists page. split; [now left | assumption]. }
    destruct (dt_insert_rows [] tbl page) as [tbl'|e'] eqn:Eins; simpl in H.
    + destruct (exec_all today plan (map InsertDailyTrends pages)
                  (set_daily_trends (Some tbl') d)) as [[d2 rs]|e2] eqn:Eall;
        simpl in H; [discriminate|]. injection H as <-.
      destruct (IH _ _ Eall) as [(_ & Hnone & _)|[(-> & page' & Hin & Har)|[->|(t & Hin & Ht)]]].
      * simpl in Hnone. discriminate.
      * right. left. split; [reflexivity|]. exists page'. split; [now right|assumption].
      * right. right. now left.
      * right. right. right. exists t. split; [|assumption].
        simpl. apply in_or_app. now right.
    + injection H as <-.
      destruct (insert_rows_raise _ _ _ _ _ _ _ _ Eins) as [->|(t & Hin & Ht)].
      * right. right. now left.
      * right. right. right. exists t. split; [|assumption].
        simpl. apply in_or_app. now left.
Qed.

(** Pages that propose for each key the row it holds change nothing. *)
Lemma daily_pages_same (pages : list (list tuple)) :
  forall d d' rowss,
    exec_all today plan (map InsertDailyTrends pages) d = Ok (d', rowss) ->
    (forall t r, In t (List.concat pages) -> dt_row_of_tuple t = Ok r ->
       dt_find (DailyTrends.order_date r) (rows_of (daily_trends d)) = Some r) ->
    d' = d.
Proof.
  induction pages as [|page pages IH]; intros d d' rowss H Hsame; simpl in H.
  - now injection H as <- _.
  - destruct (daily_trends d) as [tbl|] eqn:Etbl; [|discriminate].
    destruct (arity_ok daily_trends_columns page); [|discriminate].
    destruct (dt_insert_rows [] tbl page) as [tbl'|] eqn:Eins; simpl in H;
      [|discriminate].
    destruct (exec_all today plan (map InsertDailyTrends pages)
                (set_daily_trends (Some tbl') d)) as [[d2 rs]|] eqn:Eall;
      simpl in H; [|discriminate]. injection H as <- _.
    assert (tbl' = tbl) as ->.
    { eapply (insert_rows_same DailyTrends.order_date Z.eqb dt_do_update
                dt_row_of_tuple); [exact Eins|].
      intros t r Hin Hr. split; [|apply dt_do_update_same].
      apply (Hsame t r); [simpl; apply in_or_app; now left | assumption]. }
    rewrite (set_daily_trends_same _ _ Etbl) in Eall.
    eapply IH; [exact Eall|].
    intros t r Hin Hr. rewrite Etbl. apply (Hsame t r); [|assumption].
    simpl. apply in_or_app. now right.
Qed.

(** The keys after accepted pages that propose each key once. *)
Lemma daily_pages_keys (pages : list (list tuple)) :
  forall d d' rowss,
    exec_all today plan (map InsertDailyTrends pages) d = Ok (d', rowss) ->
    NoDup (map dt_tuple_key (List.concat pages)) ->
    map DailyTrends.order_date (rows_of (daily_trends d')) =
    map DailyTrends.order_date (rows_of (daily_trends d)) ++
    filter (not_among Z.eqb
              (map DailyTrends.order_date (rows_of (daily_trends d))))
      (map dt_tuple_key (List.concat pages)).
Proof.
  induction pages as [|page pages IH]; intros d d' rowss H Hnd; simpl in H.
  - injection H as <- _. simpl. now rewrite app_nil_r.
  - destruct (daily_trends d) as [tbl|] eqn:Etbl; [|discriminate].
    destruct (arity_ok daily_trends_columns page); [|discriminate].
    destruct (dt_insert_rows [] tbl page) as [tbl'|] eqn:Eins; simpl in H;
      [|discriminate].
    destruct (exec_all today plan (map InsertDailyTrends pages)
                (set_daily_trends (Some tbl') d)) as [[d2 rs]|] eqn:Eall;
      simpl in H; [|discriminate]. injection H as <- _.
    simpl in Hnd. rewrite map_app in Hnd.
    rewrite (IH _ _ _ Eall (NoDup_app_remove_l _ _ Hnd)). simpl.
    pose proof (insert_rows_keys DailyTrends.order_date Z.eqb dt_do_update
                  dt_row_of_tuple dt_tuple_key Z.eqb_eq dt_do_update_key
                  dt_row_key _ _ _ _ Eins) as Hkeys.
    fold (not_among Z.eqb (map DailyTrends.order_date tbl)) in Hkeys.
    rewrite Hkeys, map_app, filter_app, <- app_assoc. do 2 f_equal.
    apply filter_ext_in. intros k Hk. unfold not_among. f_equal.
    rewrite existsb_app.
    match goal with
    | |- orb ?a ?b = _ => cut (b = false); [intros ->; apply orb_false_r|]
    end.
    destruct (existsb _ (filter _ _)) eqn:E; [|reflexivity].
    apply existsb_exists in E as [k' [Hin Hk']]. apply Z.eqb_eq in Hk'.
    subst k'. apply filter_In in Hin as [Hin _].
    exfalso. exact (NoDup_app_disjoint _ _ k Hnd Hin Hk).
Qed.

End DailyPagesMore.

Lemma daily_batch_tuples os page t :
  In page (paginate 100 (select_daily_groups os)) -> In t page ->
  exists x, In x (order_dates os) /\ t = date_group os x.
Proof.
  intros Hpage Hin.
  assert (Hb : In t (select_daily_groups os)).
  { rewrite <- (paginate_concat 100). apply in_concat. eauto. }
  apply in_map_iff in Hb as [x [<- Hx]]. eauto.
Qed.

Lemma date_group_refused os x e :
  dt_row_of_tuple (date_group os x) = Raise e ->
  e = NumericValueOutOfRange /\ 2147483647 < COUNT (orders_of_date x os).
Proof.
  unfold date_group, dt_row_of_tuple. simpl. rewrite COUNT_map.
  pose proof (COUNT_filter_le (fun o => Z.eqb (DATE (Order.created_at o)) x) os)
    as Hc. fold (orders_of_date x os) in Hc.
  destruct (Z.leb_spec (-2147483648) (COUNT (orders_of_date x os)));
    destruct (Z.leb_spec (COUNT (orders_of_date x os)) 2147483647);
    simpl; try lia; try discriminate.
  intros [= <-]. split; [reflexivity | lia].
Qed.

(** The ways in which ComputeDailyTrends ends on a source that exists. *)
Lemma daily_step_result_cases (d : database) (fs : list bool)
  (today : date) (plan : scan_order) (tr : list event) :
  fst (upsert_daily_trends (idle d fs today plan tr)) = Ok tt \/
  fst (upsert_daily_trends (idle d fs today plan tr)) = Raise OperationalError \/
  fst (upsert_daily_trends (idle d fs today plan tr)) = Raise UndefinedTable /\
    daily_trends d = None /\ order d <> [] \/
  fst (upsert_daily_trends (idle d fs today plan tr)) =
    Raise NumericValueOutOfRange /\
    exists x, In x (order_dates (order d)) /\
              2147483647 < COUNT (orders_of_date x (order d)).
Proof.
  destruct (upsert_daily_trends _) as [r w'] eqn:E. simpl.
  apply upsert_daily_trends_spec in E as [_ _ _ _ _ Hraise _]; [|reflexivity].
  simpl in Hraise. destruct r as [[]|ex]; [now left|right].
  destruct (Hraise ex eq_refl) as [_ [->|Hex]]; [now left|right].
  destruct (daily_pages_raise _ _ _ _ _ Hex)
    as [(-> & Hnone & Hne)|[(-> & page & Hin & Har)|[->|(t & Hin & Ht)]]].
  - left. conjs; auto. intros Hempty. apply Hne. now rewrite Hempty.
  - exfalso. apply not_true_iff_false in Har. apply Har.
    apply forallb_forall. intros t Ht.
    destruct (daily_batch_tuples _ _ _ Hin Ht) as [x [_ ->]]. reflexivity.
  - exfalso. revert Hex. apply daily_pages_no_cardinality_violation.
    intros page. apply daily_pages_distinct.
  - right. rewrite paginate_concat in Hin.
    apply in_map_iff in Hin as [x [<- Hx]].
    apply date_group_refused in Ht as [-> Hbig]. split; [reflexivity|eauto].
Qed.

(** X7. Whatever fails, ComputeDailyTrends run on its own never raises the
    exception of a failed tuple unpacking, of a rejected command, of a value
    its column refuses or of a row affected twice: its tuples have the three
    values the upsert names columns for, and no two of them the same date.
    When it raises NumericValueOutOfRange, some date has more orders than an
    INTEGER holds. *)
Theorem daily_step_failures (d : database) (fs : list bool)
  (today : date) (plan : scan_order) (tr : list event) :
  fst (upsert_daily_trends (idle d fs today plan tr)) <> Raise ValueError /\
  fst (upsert_daily_trends (idle d fs today plan tr)) <> Raise SyntaxError /\
  fst (upsert_daily_trends (idle d fs today plan tr)) <>
    Raise DatatypeMismatch /\
  fst (upsert_daily_trends (idle d fs today plan tr)) <>
    Raise CardinalityViolation /\
  (fst (upsert_daily_trends (idle d fs today plan tr)) =
     Raise NumericValueOutOfRange ->
   exists x, In x (order_dates (order d)) /\
             2147483647 < COUNT (orders_of_date x (order d))).
Proof.
  destruct (daily_step_result_cases d fs today plan tr)
    as [H|[H|[[H _]|[H Hx]]]]; rewrite H; conjs;
    try discriminate; try (intros _; exact Hx); intros; discriminate.
Qed.

Lemma daily_pages_exists today plan (pages : list (list tuple)) :
  forall d d' rowss,
    exec_all today plan (map InsertDailyTrends pages) d = Ok (d', rowss) ->
    daily_trends d <> None -> daily_trends d' <> None.
Proof.
  induction pages as [|page pages IH]; intros d d' rowss H Hex; simpl in H.
  - now injection H as <- _.
  - destruct (daily_trends d) as [tbl|]; [|discriminate].
    destruct (arity_ok daily_trends_columns page); [|discriminate].
    destruct (dt_insert_rows [] tbl page) as [tbl'|]; simpl in H;
      [|discriminate].
    destruct (exec_all today plan (map InsertDailyTrends pages)
                (set_daily_trends (Some tbl') d)) as [[d2 rs]|] eqn:Eall;
      simpl in H; [|discriminate]. injection H as <- _.
    eapply IH; [exact Eall | discriminate].
Qed.

Lemma daily_pages_missing today plan os d :
  os <> [] -> daily_trends d = None ->
  exec_all today plan
    (map InsertDailyTrends (paginate 100 (select_daily_groups os))) d =
  Raise UndefinedTable.
Proof.
  intros Hne Hnone.
  destruct (select_daily_groups os) as [|t batch] eqn:Eb.
  - exfalso. destruct os as [|o os]; [congruence|].
    assert (Hin : In (DATE (Order.created_at o)) (order_dates (o :: os))).
    { apply order_dates_In. exists o. split; [now left | reflexivity]. }
    unfold select_daily_groups in Eb. apply map_eq_nil in Eb.
    rewrite Eb in Hin. destruct Hin.
  - destruct (paginate_cons 100 t batch) as (page & pages & -> & _).
    simpl. now rewrite Hnone.
Qed.

(** X8. With no failure of the connection and counts that fit an INTEGER,
    ComputeDailyTrends run on its own raises UndefinedTable when the source
    has an order and [daily_trends] does not exist, and returns normally in
    every other case: on an empty source it does not need the relation. *)
Theorem daily_step_outcome (d : database) (today : date)
  (plan : scan_order) (tr : list event) :
  COUNT (order d) <= 2147483647 ->
  fst (upsert_daily_trends (idle d [] today plan tr)) =
  match order d, daily_trends d with
  | _ :: _, None => Raise UndefinedTable
  | _, _ => Ok tt
  end.
Proof.
  intros Hle. set (w := idle d [] today plan tr).
  assert (Hpend : pending w = None) by reflexivity.
  destruct (order d) as [|o os] eqn:Eo.
  - destruct (upsert_daily_trends w) as [r w'] eqn:E.
    destruct (upsert_daily_trends_empty _ _ _ Hpend Eo E) as (_ & _ & Hok & _).
    now destruct (Hok eq_refl).
  - destruct (daily_trends d) as [tbl|] eqn:Etbl.
    + destruct (upsert_daily_trends_succeeds w) as [w' ->]; try reflexivity.
      * simpl. now rewrite Etbl.
      * simpl. now rewrite Eo.
    + destruct (upsert_daily_trends w) as [r w'] eqn:E. simpl.
      apply upsert_daily_trends_spec in E as [_ _ _ _ Hok _ Hff];
        [|assumption].
      simpl in Hok, Hff. rewrite Eo in Hok, Hff.
      rewrite daily_pages_missing in Hok, Hff by (assumption || discriminate).
      destruct r as [[]|ex].
      * now destruct (Hok eq_refl) as [[rowss [=]] _].
      * destruct (Hff eq_refl) as [_ Hraise].
        now injection (Hraise ex eq_refl) as <-.
Qed.

Lemma daily_step_outcome_witness :
  fst (upsert_daily_trends
         (idle (mkdb january_orders None None) [] 20100 heap_order [])) =
  Raise UndefinedTable.
Proof.
  apply (daily_step_outcome (mkdb january_orders None None) 20100
           heap_order []).
  vm_compute. discriminate.
Defined.

(** X9. ComputeDailyTrends is idempotent: with no failure of the
    connection, an existing [daily_trends] and counts that fit an INTEGER,
    a second execution on the same source, on whatever date and in whatever
    executor order, returns normally and leaves the database as the first
    one left it. *)
Theorem daily_step_idempotent (d : database) (today today' : date)
  (plan plan' : scan_order) (tr tr' : list event) :
  daily_trends d <> None ->
  COUNT (order d) <= 2147483647 ->
  exists w1 w2,
    upsert_daily_trends (idle d [] today plan tr) = (Ok tt, w1) /\
    upsert_daily_trends (idle (committed w1) [] today' plan' tr') =
      (Ok tt, w2) /\
    committed w2 = committed w1.
Proof.
  intros Hex Hle.
  destruct (upsert_daily_trends_succeeds (idle d [] today plan tr))
    as [w1 H1]; try assumption; try reflexivity.
  destruct (upsert_daily_trends_rows (idle d [] today plan tr) w1
              eq_refl Hle H1) as (Hin & _ & _). simpl in Hin.
  pose proof (upsert_daily_trends_spec (idle d [] today plan tr) _ _
                eq_refl H1) as [_ _ _ _ Hok1 _ _].
  destruct (Hok1 eq_refl) as [[rowss1 Hex1] _]. simpl in Hex1.
  pose proof (exec_all_order _ _ _ _ _ _ Hex1) as Ho1.
  pose proof (daily_pages_exists _ _ _ _ _ _ Hex1 Hex) as Hex1'.
  destruct (upsert_daily_trends_succeeds (idle (committed w1) [] today' plan' tr'))
    as [w2 H2]; try reflexivity; try assumption.
  { simpl. now rewrite Ho1. }
  exists w1, w2. conjs; try assumption.
  pose proof (upsert_daily_trends_spec (idle (committed w1) [] today' plan' tr')
                _ _ eq_refl H2) as [_ _ _ _ Hok2 _ _].
  destruct (Hok2 eq_refl) as [[rowss2 Hex2] _]. simpl in Hex2.
  rewrite Ho1 in Hex2.
  eapply daily_pages_same; [exact Hex2|].
  intros t r Ht Hr. rewrite paginate_concat in Ht.
  apply in_map_iff in Ht as [x [<- Hx]].
  rewrite (date_group_row _ _ Hle) in Hr. injection Hr as <-.
  simpl. now apply Hin.
Qed.

Lemma daily_step_idempotent_witness :
  exists w1 w2,
    upsert_daily_trends
      (idle (ready_database january_orders) [] 20100 heap_order []) =
      (Ok tt, w1) /\
    upsert_daily_trends (idle (committed w1) [] 20101 heap_order []) =
      (Ok tt, w2) /\
    committed w2 = committed w1.
Proof.
  apply (daily_step_idempotent (ready_database january_orders)).
  - discriminate.
  - vm_compute. discriminate.
Defined.

(** The dates of [daily_trends] once ComputeDailyTrends has returned, in
    the order in which the rows are kept here. *)
Lemma daily_step_keys (d : database) (fs : list bool)
  (today : date) (plan : scan_order) (tr : list event) (w' : world) :
  upsert_daily_trends (idle d fs today plan tr) = (Ok tt, w') ->
  map DailyTrends.order_date (rows_of (daily_trends (committed w'))) =
    map DailyTrends.order_date (rows_of (daily_trends d)) ++
    new_dates (rows_of (daily_trends d)) (order d).
Proof.
  intros H.
  apply upsert_daily_trends_spec in H as [_ _ _ _ Hok _ _]; [|reflexivity].
  destruct (Hok eq_refl) as [[rowss Hex] _]. simpl in Hex.
  rewrite (daily_pages_keys _ _ _ _ _ _ Hex).
  - unfold new_dates. now rewrite paginate_concat, daily_batch_keys.
  - rewrite paginate_concat, daily_batch_keys. apply order_dates_NoDup.
Qed.

Lemma new_dates_In (tbl : list DailyTrends.row) (os : list Order.t) (x : date) :
  In x (new_dates tbl os) <->
  In x (order_dates os) /\ ~ In x (map DailyTrends.order_date tbl).
Proof.
  unfold new_dates. rewrite filter_In. unfold not_among.
  rewrite negb_true_iff. split; intros [Hin Hn]; split; try assumption.
  - intros Hk. apply not_true_iff_false in Hn. apply Hn.
    apply existsb_exists. exists x. split; [assumption | apply Z.eqb_refl].
  - apply not_true_iff_false. intros He.
    apply existsb_exists in He as [y [Hy Heq]].
    apply Z.eqb_eq in Heq. now subst y.
Qed.

(** X10. When ComputeDailyTrends returns, the dates [daily_trends] holds
    are the dates it held together with the dates of the source it did not
    hold, each once: no date is removed, and the number of rows grows by the
    number of new dates. *)
Theorem daily_step_adds_new_dates (d : database) (fs : list bool)
  (today : date) (plan : scan_order) (tr : list event) (w' : world) :
  upsert_daily_trends (idle d fs today plan tr) = (Ok tt, w') ->
  Permutation
    (map DailyTrends.order_date (rows_of (daily_trends (committed w'))))
    (map DailyTrends.order_date (rows_of (daily_trends d)) ++
     new_dates (rows_of (daily_trends d)) (order d)) /\
  (forall x,
     In x (map DailyTrends.order_date
             (rows_of (daily_trends (committed w')))) <->
     In x (map DailyTrends.order_date (rows_of (daily_trends d))) \/
     In x (order_dates (order d))) /\
  List.length (rows_of (daily_trends (committed w'))) =
    (List.length (rows_of (daily_trends d)) +
     List.length (new_dates (rows_of (daily_trends d)) (order d)))%nat.
Proof.
  intros H. pose proof (daily_step_keys _ _ _ _ _ _ H) as Hkeys.
  conjs.
  - rewrite Hkeys. apply Permutation_refl.
  - intros x. rewrite Hkeys, in_app_iff, new_dates_In.
    destruct (in_dec Z.eq_dec x
                (map DailyTrends.order_date (rows_of (daily_trends d))));
      tauto.
  - rewrite <- (length_map DailyTrends.order_date), Hkeys, length_app.
    now rewrite length_map.
Qed.

Lemma daily_step_adds_new_dates_witness :
  Permutation
    (map DailyTrends.order_date
       (rows_of (daily_trends (committed (snd (upsert_daily_trends
          (idle (mkdb january_orders None
                   (Some [DailyTrends.mk d_2025_01_02 9 9;
                          DailyTrends.mk 100 1 1]))
             [] 20100 heap_order [])))))))
    [100; d_2025_01_01; d_2025_01_02].
Proof.
  set (d := mkdb january_orders None
              (Some [DailyTrends.mk d_2025_01_02 9 9; DailyTrends.mk 100 1 1])).
  destruct (daily_step_adds_new_dates d [] 20100 heap_order []
              (snd (upsert_daily_trends (idle d [] 20100 heap_order []))))
    as (Hperm & _ & _).
  - vm_compute. reflexivity.
  - eapply Permutation_trans; [exact Hperm|].
    apply (Permutation_cons_append [100; d_2025_01_01] d_2025_01_02).
Defined.

(** ** The pages of execute_values *)

Section Pages.
Context {A : Type}.
Variable page_size : nat.
Hypothesis page_size_pos : (1 <= page_size)%nat.

Lemma paginate_nil : paginate page_size (@nil A) = [].
Proof. reflexivity. Qed.

Lemma paginate_from_chunk (seq : list A) :
  forall room page,
    (1 <= room)%nat -> (List.length page + room = page_size)%nat ->
    page <> [] \/ seq <> [] ->
    paginate_from page_size room page seq =
    (rev page ++ firstn room seq) :: paginate page_size (skipn room seq).
Proof.
  induction seq as [|x seq IH]; intros room page Hroom Hinv Hne.
  - destruct Hne as [Hne|Hne]; [|congruence].
    simpl. rewrite firstn_nil, skipn_nil, app_nil_r.
    destruct page; [congruence | reflexivity].
  - destruct room as [|[|room]]; [lia| |].
    + simpl. reflexivity.
    + simpl paginate_from. rewrite IH.
      * simpl. now rewrite <- app_assoc.
      * lia.
      * simpl. lia.
      * left. discriminate.
Qed.

Lemma paginate_from_count (seq : list A) :
  forall room page,
    (1 <= room)%nat -> (List.length page + room = page_size)%nat ->
    List.length (paginate_from page_size room page seq) =
    ((List.length page + List.length seq + page_size - 1) / page_size)%nat.
Proof.
  induction seq as [|x seq IH]; intros room page Hroom Hinv.
  - change (List.length (@nil A)) with 0%nat.
    remember (List.length page) as n eqn:En.
    destruct page as [|y page].
    + subst n. change (paginate_from page_size room [] []) with (@nil (list A)).
      change (List.length (@nil A)) with 0%nat.
      change (List.length (@nil (list A))) with 0%nat.
      symmetry. apply Nat.div_small. lia.
    + change (paginate_from page_size room (y :: page) [])
        with [rev (y :: page)].
      change (List.length [rev (y :: page)]) with 1%nat.
      assert (1 <= n)%nat by (subst n; simpl; lia).
      replace (n + 0 + page_size - 1)%nat
        with (1 * page_size + (n - 1))%nat by lia.
      rewrite Nat.div_add_l by lia.
      rewrite Nat.div_small by lia. reflexivity.
  - remember (List.length page) as n eqn:En.
    change (List.length (x :: seq)) with (S (List.length seq)).
    destruct room as [|[|room]]; [lia| |].
    + change (paginate_from page_size 1 page (x :: seq))
        with (rev (x :: page) :: paginate_from page_size page_size [] seq).
      change (List.length (rev (x :: page) ::
                           paginate_from page_size page_size [] seq))
        with (S (List.length (paginate_from page_size page_size [] seq))).
      rewrite IH by (simpl; lia).
      change (List.length (@nil A)) with 0%nat.
      replace (n + S (List.length seq) + page_size - 1)%nat
        with (1 * page_size + (0 + List.length seq + page_size - 1))%nat
        by lia.
      rewrite Nat.div_add_l by lia. reflexivity.
    + change (paginate_from page_size (S (S room)) page (x :: seq))
        with (paginate_from page_size (S room) (x :: page) seq).
      rewrite IH by (simpl; lia).
      change (List.length (x :: page)) with (S (List.length page)).
      f_equal. lia.
Qed.

Lemma paginate_from_bounds (seq : list A) :
  forall room page,
    (1 <= room)%nat -> (List.length page + room = page_size)%nat ->
    Forall (fun p => (1 <= List.length p <= page_size)%nat)
      (paginate_from page_size room page seq).
Proof.
  induction seq as [|x seq IH]; intros room page Hroom Hinv.
  - simpl. destruct page as [|y page]; constructor; [|constructor].
    rewrite length_rev. simpl in *. lia.
  - destruct room as [|[|room]]; [lia| |].
    + simpl. constructor; [|apply IH; simpl; lia].
      rewrite length_app, length_rev. simpl. lia.
    + simpl paginate_from. apply IH; simpl; lia.
Qed.

End Pages.

Lemma daily_pages_issued_app (tr1 tr2 : list event) :
  daily_pages_issued (tr1 ++ tr2) =
  daily_pages_issued tr1 ++ daily_pages_issued tr2.
Proof. apply flat_map_app. Qed.

Lemma daily_pages_issued_lines (batch : list tuple) :
  daily_pages_issued (date_lines batch) = [].
Proof.
  induction batch as [|t batch IH]; [reflexivity|].
  change (date_lines (t :: batch))
    with (match t with
          | [a; b; c] => [EvLog (LogDate a b c)]
          | _ => []
          end ++ date_lines batch).
  rewrite daily_pages_issued_app, IH, app_nil_r.
  destruct t as [|a [|b [|c [|? ?]]]]; reflexivity.
Qed.

Lemma daily_pages_issued_inserts (pages : list (list tuple)) :
  daily_pages_issued (map EvExecute (map InsertDailyTrends pages)) = pages.
Proof.
  unfold daily_pages_issued.
  induction pages as [|page pages IH]; simpl; [reflexivity|]. now rewrite IH.
Qed.

(** X11. When ComputeDailyTrends returns, the upsert commands it has
    executed carry its batch cut in consecutive pages: put end to end their
    tuples are the groups of the source by date, in ascending order of date,
    each command carries between 1 and 100 tuples, and for n dates there are
    (n + 99) / 100 commands. *)
Theorem daily_step_issues_pages_of_100 (d : database) (fs : list bool)
  (today : date) (plan : scan_order) (tr : list event) (w' : world) :
  upsert_daily_trends (idle d fs today plan tr) = (Ok tt, w') ->
  exists pages,
    daily_pages_issued (trace w') = daily_pages_issued tr ++ pages /\
    List.concat pages = select_daily_groups (order d) /\
    Forall (fun page => (1 <= List.length page <= 100)%nat) pages /\
    List.length pages =
      ((List.length (order_dates (order d)) + 99) / 100)%nat.
Proof.
  intros H.
  apply upsert_daily_trends_spec in H as [_ _ _ _ Hok _ _]; [|reflexivity].
  destruct (Hok eq_refl) as [_ Htr].
  change (trace (idle d fs today plan tr)) with tr in Htr.
  change (committed (idle d fs today plan tr)) with d in Htr.
  exists (paginate 100 (select_daily_groups (order d))).
  conjs.
  - rewrite Htr, !daily_pages_issued_app, daily_pages_issued_lines.
    f_equal.
    change (daily_pages_issued
              [EvConnect; EvExecute SelectDailyGroups; EvCommit;
               EvLog LogDailyHeader]) with (@nil (list tuple)).
    cbn [app].
    destruct (select_daily_groups (order d)) as [|t batch] eqn:Eb;
      [reflexivity|].
    change (EvConnect :: map EvExecute
              (map InsertDailyTrends (paginate 100 (t :: batch))) ++ [EvCommit])
      with ([EvConnect] ++ map EvExecute
              (map InsertDailyTrends (paginate 100 (t :: batch))) ++ [EvCommit]).
    rewrite !daily_pages_issued_app, daily_pages_issued_inserts.
    change (daily_pages_issued [EvConnect]) with (@nil (list tuple)).
    change (daily_pages_issued [EvCommit]) with (@nil (list tuple)).
    cbn [app]. apply app_nil_r.
  - apply paginate_concat.
  - apply paginate_from_bounds; simpl; lia.
  - unfold paginate. rewrite paginate_from_count by (simpl; lia).
    unfold select_daily_groups. rewrite length_map.
    change (List.length (@nil tuple)) with 0%nat. f_equal. lia.
Qed.

Lemma daily_step_issues_pages_of_100_witness :
  exists pages,
    daily_pages_issued
      (trace (snd (upsert_daily_trends
                     (idle (ready_database january_orders) [] 20100
                        heap_order [])))) = [] ++ pages /\
    List.concat pages = select_daily_groups january_orders /\
    Forall (fun page => (1 <= List.length page <= 100)%nat) pages /\
    List.length pages = 1%nat.
Proof.
  apply (daily_step_issues_pages_of_100 (ready_database january_orders) []
           20100 heap_order []
           (snd (upsert_daily_trends
                   (idle (ready_database january_orders) [] 20100
                      heap_order [])))).
  vm_compute. reflexivity.
Defined.

(** ** Retries of the task *)

Lemma run_rows (e : run_env) (d : database) :
  rows_of (product_performance (run_database e d)) =
    rows_of (product_performance d) /\
  rows_of (daily_trends (run_database e d)) = rows_of (daily_trends d).
Proof.
  unfold run_database.
  destruct (run_cases e d) as [_ [[_ ->]|[[_ ->]|(_ & _ & ->)]]]; simpl;
    rewrite ?rows_of_create; split; reflexivity.
Qed.

Lemma etl_task_eq (env : nat -> run_env) (d : database) :
  etl_task env d =
  match fst (run (env 1%nat) d) with
  | Ok _ => (Ok tt, run_database (env 1%nat) d)
  | Raise _ =>
      (fst (run (env 2%nat) (run_database (env 1%nat) d)),
       run_database (env 2%nat) (run_database (env 1%nat) d))
  end.
Proof.
  unfold etl_task, retries, task_tries.
  destruct (fst (run (env 1%nat) d)) as [[]|ex]; [reflexivity|].
  destruct (fst (run (env 2%nat) (run_database (env 1%nat) d))) as [[]|ex'];
    reflexivity.
Qed.

Lemma ensure_schema_again (os os' : list Order.t) (d : database) :
  ensure_schema (set_order os' (ensure_schema (set_order os d))) =
  ensure_schema (set_order os' d).
Proof.
  unfold ensure_schema, set_order. simpl.
  now destruct (product_performance d), (daily_trends d).
Qed.

(** X12. Whatever fails at either try, a task instance with its retry
    leaves the rows of both destination relations as they were, and it ends
    normally only if the try that returned found no order in the source. *)
Theorem task_instance_writes_no_row (env : nat -> run_env) (d : database) :
  rows_of (product_performance (snd (etl_task env d))) =
    rows_of (product_performance d) /\
  rows_of (daily_trends (snd (etl_task env d))) = rows_of (daily_trends d) /\
  (fst (etl_task env d) = Ok tt ->
   fst (run (env 1%nat) d) = Ok tt /\ env_order (env 1%nat) = [] \/
   fst (run (env 1%nat) d) <> Ok tt /\ env_order (env 2%nat) = []).
Proof.
  rewrite etl_task_eq.
  set (d1 := run_database (env 1%nat) d).
  destruct (run_rows (env 1%nat) d) as [Hp1 Hd1]. fold d1 in Hp1, Hd1.
  destruct (run_rows (env 2%nat) d1) as [Hp2 Hd2].
  pose proof (run_result_cases (env 1%nat) d) as H1.
  pose proof (run_result_cases (env 2%nat) d1) as H2.
  destruct (fst (run (env 1%nat) d)) as [[]|ex1] eqn:E1.
  - simpl. conjs; try assumption.
    intros _. left. split; [reflexivity|].
    destruct H1 as [[_ H1]|[H1|[H1 _]]];
      [assumption | discriminate | discriminate].
  - simpl. conjs.
    + congruence.
    + congruence.
    + intros Hok. right. split; [discriminate|].
      destruct H2 as [[_ H2]|[H2|[H2 _]]];
        [assumption | congruence | congruence].
Qed.

(** X13. A retry does not repair a run on a source that has orders: when
    the source holds an order at both tries, the task instance fails,
    whatever happens to the connections, and with no failure of the
    connection it fails twice on the rejected upsert of
    ComputeProductPerformance and leaves the schema ensured and no row
    written. *)
Theorem retry_does_not_repair (env : nat -> run_env) (d : database) :
  env_order (env 1%nat) <> [] -> env_order (env 2%nat) <> [] ->
  (fst (etl_task env d) = Raise OperationalError \/
   fst (etl_task env d) = Raise SyntaxError) /\
  (env_faults (env 1%nat) = [] -> env_faults (env 2%nat) = [] ->
   etl_task env d =
   (Raise SyntaxError, ensure_schema (set_order (env_order (env 2%nat)) d))).
Proof.
  intros Hne1 Hne2. rewrite etl_task_eq.
  set (d1 := run_database (env 1%nat) d).
  pose proof (run_result_cases (env 1%nat) d) as H1.
  pose proof (run_result_cases (env 2%nat) d1) as H2.
  split.
  - destruct (fst (run (env 1%nat) d)) as [[]|ex1] eqn:E1.
    + destruct H1 as [[_ H1]|[H1|[H1 _]]]; [tauto | discriminate | discriminate].
    + simpl. destruct H2 as [[_ H2]|[H2|[H2 _]]]; [tauto | auto | auto].
  - intros Hf1 Hf2.
    destruct (run_stops_at_product_upsert (env 1%nat) d Hf1 Hne1)
      as (Hr1 & Hc1 & _).
    destruct (run_stops_at_product_upsert (env 2%nat) d1 Hf2 Hne2)
      as (Hr2 & Hc2 & _).
    rewrite Hr1, Hr2, Hc2. unfold d1. rewrite Hc1.
    now rewrite ensure_schema_again.
Qed.

Lemma retry_does_not_repair_witness :
  etl_task (fun _ => fault_free one_order 20100) empty_database =
  (Raise SyntaxError, mkdb one_order (Some []) (Some [])).
Proof.
  destruct (retry_does_not_repair (fun _ => fault_free one_order 20100)
              empty_database) as [_ H].
  - discriminate.
  - discriminate.
  - exact (H eq_refl eq_refl).
Defined.

(** X14. A retry absorbs a failure that has passed: when the first try
    raised, and the second try meets no failure of the connection and a
    source without orders, the task instance ends normally with the schema
    ensured. *)
Theorem retry_absorbs_a_failure (env : nat -> run_env) (d : database) :
  fst (run (env 1%nat) d) <> Ok tt ->
  env_faults (env 2%nat) = [] -> env_order (env 2%nat) = [] ->
  etl_task env d = (Ok tt, ensure_schema (set_order [] d)).
Proof.
  intros Hfail Hf2 He2. rewrite etl_task_eq.
  set (d1 := run_database (env 1%nat) d).
  destruct (run_empty_fault_free (env 2%nat) d1 Hf2 He2) as [Hr2 _].
  assert (Hd2 : run_database (env 2%nat) d1 = ensure_schema (set_order [] d1)).
  { unfold run_database.
    destruct (run_cases (env 2%nat) d1)
      as [_ [[Hr _]|[[_ Hc]|(_ & _ & Hc)]]];
      [exfalso; congruence | now rewrite Hc, He2 | now rewrite Hc, He2]. }
  assert (Hd1 : ensure_schema (set_order [] d1) = ensure_schema (set_order [] d)).
  { unfold d1, run_database.
    destruct (run_cases (env 1%nat) d)
      as [_ [[_ ->]|[[_ ->]|(_ & _ & ->)]]];
      [reflexivity | apply ensure_schema_again | apply ensure_schema_again]. }
  destruct (fst (run (env 1%nat) d)) as [[]|ex1]; [congruence|].
  now rewrite Hr2, Hd2, Hd1.
Qed.

Lemma retry_absorbs_a_failure_witness :
  etl_task
    (fun n => match n with
              | 1%nat => mkenv [] 20100 heap_order [true]
              | _ => fault_free [] 20100
              end) empty_database =
  (Ok tt, mkdb [] (Some []) (Some [])).
Proof.
  apply (retry_absorbs_a_failure
           (fun n => match n with
                     | 1%nat => mkenv [] 20100 heap_order [true]
                     | _ => fault_free [] 20100
                     end) empty_database).
  - vm_compute. discriminate.
  - reflexivity.
  - reflexivity.
Defined.

(** ** The reports account for every order *)

Section SumPartition.
Context {A K : Type}.
Variable f : A -> K.
Variable eqb : K -> K -> bool.
Hypothesis eqb_eq : forall a b, eqb a b = true <-> a = b.
Variable g : A -> Q.

Lemma Qsum_map_ext (F G : K -> Q) (ks : list K) :
  (forall k, F k == G k)%Q -> (Qsum (map F ks) == Qsum (map G ks))%Q.
Proof.
  intros H. induction ks as [|k ks IH]; simpl; [reflexivity|].
  now rewrite IH, H.
Qed.

Lemma Qsum_map_plus (F G : K -> Q) (ks : list K) :
  (Qsum (map (fun k => F k + G k) ks) == Qsum (map F ks) + Qsum (map G ks))%Q.
Proof.
  induction ks as [|k ks IH]; simpl; [ring|]. rewrite IH. ring.
Qed.

Lemma Qsum_indicator_absent (x : K) (q : Q) (ks : list K) :
  ~ In x ks ->
  (Qsum (map (fun k => if eqb x k then q else 0) ks) == 0)%Q.
Proof.
  induction ks as [|k ks IH]; simpl; intros Hn; [reflexivity|].
  destruct (eqb x k) eqn:E.
  - apply eqb_eq in E. subst k. tauto.
  - rewrite IH; [ring | tauto].
Qed.

Lemma Qsum_indicator_present (x : K) (q : Q) (ks : list K) :
  NoDup ks -> In x ks ->
  (Qsum (map (fun k => if eqb x k then q else 0) ks) == q)%Q.
Proof.
  induction 1 as [|k ks Hk Hnd IH]; simpl; intros Hin; [destruct Hin|].
  destruct (eqb x k) eqn:E.
  - apply eqb_eq in E. subst k.
    rewrite Qsum_indicator_absent; [ring | assumption].
  - destruct Hin as [->|Hin].
    + rewrite (proj2 (eqb_eq x x) eq_refl) in E. discriminate.
    + rewrite IH; [ring | assumption].
Qed.

(** Groups whose keys are distinct and cover every row share out the sum
    of the rows. *)
Lemma sum_partition (ks : list K) (l : list A) :
  NoDup ks -> (forall a, In a l -> In (f a) ks) ->
  (Qsum (map (fun k => Qsum (map g (filter (fun a => eqb (f a) k) l))) ks)
   == Qsum (map g l))%Q.
Proof.
  intros Hnd. induction l as [|a l IH]; intros Hcover.
  - simpl. clear Hnd Hcover.
    induction ks as [|k ks IHk]; simpl; [reflexivity|]. rewrite IHk. ring.
  - rewrite (Qsum_map_ext _
               (fun k => (if eqb (f a) k then g a else 0) +
                         Qsum (map g (filter (fun a => eqb (f a) k) l)))%Q).
    + rewrite Qsum_map_plus, IH, Qsum_indicator_present;
        [ simpl; reflexivity
        | assumption
        | apply Hcover; now left
        | intros; apply Hcover; now right ].
    + intros k. simpl. destruct (eqb (f a) k); simpl; ring.
Qed.
End SumPartition.

Lemma Zsum_map_ext {K} (F G : K -> Z) (ks : list K) :
  (forall k, F k = G k) -> Zsum (map F ks) = Zsum (map G ks).
Proof. intros H. now rewrite (map_ext _ _ H). Qed.

(** X15. The two reports account for every order: over the tuples of the
    product query, and over those of the daily query, the counts add up to
    the number of orders of the source and the sums to the sum of all
    amounts, whatever the order in which the executor emits the groups. *)
Theorem reports_account_for_every_order (plan : scan_order)
  (os : list Order.t) :
  Zsum (map (tuple_int 1) (select_product_groups plan os)) = COUNT os /\
  (Qsum (map (tuple_num 2) (select_product_groups plan os)) ==
   Qsum (map Order.amount os))%Q /\
  Zsum (map (tuple_int 1) (select_daily_groups os)) = COUNT os /\
  (Qsum (map (tuple_num 2) (select_daily_groups os)) ==
   Qsum (map Order.amount os))%Q.
Proof.
  unfold select_product_groups, select_daily_groups.
  fold (order_products plan os). rewrite !map_map.
  conjs.
  - rewrite <- (product_counts_partition plan os).
    apply Zsum_map_ext. intros p. apply COUNT_map.
  - rewrite <- (sum_partition Order.product String.eqb String.eqb_eq
                  Order.amount (order_products plan os) os).
    + apply Qsum_map_ext. intros p. apply Qred_correct.
    + apply order_products_NoDup.
    + intros o Hin. apply order_products_In. eauto.
  - rewrite <- (daily_counts_partition os).
    apply Zsum_map_ext. intros x. apply COUNT_map.
  - rewrite <- (sum_partition (fun o => DATE (Order.created_at o)) Z.eqb
                  Z.eqb_eq Order.amount (order_dates os) os).
    + apply Qsum_map_ext. intros x. apply Qred_correct.
    + apply order_dates_NoDup.
    + intros o Hin. apply order_dates_In. eauto.
Qed.

(** ** The product report *)

Lemma product_group_count (os : list Order.t) (p : string) :
  In p (map Order.product os) -> 1 <= tuple_int 1 (product_group os p).
Proof.
  intros Hin. unfold product_group, tuple_int. simpl.
  rewrite COUNT_map.
  apply in_map_iff in Hin as [o [Hp Ho]].
  assert (Hg : In o (orders_of_product p os)).
  { apply filter_In. split; [assumption|]. now apply String.eqb_eq. }
  unfold COUNT. destruct (orders_of_product p os); [destruct Hg|].
  simpl List.length. lia.
Qed.

(** X16. The product query returns one tuple of four values for each
    product that has an order and none for any other, and the count of a
    tuple is at least 1.  The order in which the executor emits the groups
    changes the order of the tuples and nothing else. *)
Theorem product_report (plan plan' : scan_order) (os : list Order.t) :
  NoDup (map pp_tuple_key (select_product_groups plan os)) /\
  (forall p, In p (map pp_tuple_key (select_product_groups plan os)) <->
             In p (map Order.product os)) /\
  Permutation (select_product_groups plan os)
    (select_product_groups plan' os) /\
  Forall (fun t => List.length t = 4%nat /\ 1 <= tuple_int 1 t)
    (select_product_groups plan os).
Proof.
  conjs.
  - rewrite product_batch_keys. apply order_products_NoDup.
  - intros p. rewrite product_batch_keys, order_products_In, in_map_iff.
    split; intros [o [H1 H2]]; exists o; tauto.
  - unfold select_product_groups. apply Permutation_map.
    eapply Permutation_trans;
      [apply emit_perm | apply Permutation_sym, emit_perm].
  - apply Forall_forall. intros t Ht.
    unfold select_product_groups in Ht.
    apply in_map_iff in Ht as [p [<- Hp]].
    split; [reflexivity|].
    apply product_group_count.
    fold (order_products plan os) in Hp.
    apply order_products_In in Hp as [o [Ho <-]]. now apply in_map.
Qed.

(** ** The totals of the stored daily rows *)

(** X17. With no failure of the connection, counts that fit an INTEGER and
    an empty [daily_trends], ComputeDailyTrends leaves rows in ascending
    order of date whose daily_orders add up to the number of orders of the
    source and whose daily_sales add up to the sum of all amounts. *)
Theorem daily_rows_account_for_every_order (d : database) (today : date)
  (plan : scan_order) (tr : list event) :
  daily_trends d = Some [] ->
  COUNT (order d) <= 2147483647 ->
  StronglySorted Z.lt
    (map DailyTrends.order_date
       (rows_of (daily_trends
          (committed (snd (upsert_daily_trends (idle d [] today plan tr))))))) /\
  Zsum (map DailyTrends.daily_orders
          (rows_of (daily_trends
             (committed (snd (upsert_daily_trends
                                (idle d [] today plan tr))))))) =
    COUNT (order d) /\
  (Qsum (map DailyTrends.daily_sales
           (rows_of (daily_trends
              (committed (snd (upsert_daily_trends
                                 (idle d [] today plan tr))))))) ==
   Qsum (map Order.amount (order d)))%Q.
Proof.
  intros Hempty Hle.
  destruct (upsert_daily_trends_succeeds (idle d [] today plan tr))
    as [w' Hrun]; try reflexivity; try assumption.
  { simpl. rewrite Hempty. discriminate. }
  destruct (upsert_daily_trends_rows (idle d [] today plan tr) w'
              eq_refl Hle Hrun) as (_ & _ & Hnew).
  rewrite Hrun. simpl. rewrite (Hnew Hempty). simpl. rewrite !map_map. simpl.
  conjs.
  - rewrite map_id. apply order_dates_sorted.
  - apply daily_counts_partition.
  - rewrite <- (sum_partition (fun o => DATE (Order.created_at o)) Z.eqb
                  Z.eqb_eq Order.amount (order_dates (order d)) (order d)).
    + apply Qsum_map_ext. intros x. apply Qred_correct.
    + apply order_dates_NoDup.
    + intros o Hin. apply order_dates_In. eauto.
Qed.

Lemma daily_rows_account_for_every_order_witness :
  Zsum (map DailyTrends.daily_orders
          (rows_of (daily_trends
             (committed (snd (upsert_daily_trends
                (idle (ready_database january_orders) [] 20100 heap_order
                   []))))))) = 3.
Proof.
  destruct (daily_rows_account_for_every_order
              (ready_database january_orders) 20100 heap_order [])
    as (_ & H & _).
  - reflexivity.
  - vm_compute. discriminate.
  - exact H.
Defined.

(** ** One row for each date *)

Lemma exactly_one_row {R K} (key : R -> K) (eqb : K -> K -> bool)
  (k : K) (tbl : list R) :
  (forall a b, eqb a b = true <-> a = b) ->
  NoDup (map key tbl) -> In k (map key tbl) ->
  List.length (filter (fun r => eqb (key r) k) tbl) = 1%nat.
Proof.
  intros Heq Hnd Hin.
  pose proof (at_most_one_row key eqb k tbl Heq Hnd) as Hle.
  apply in_map_iff in Hin as [r [Hk Hr]].
  assert (Hf : In r (filter (fun r => eqb (key r) k) tbl)).
  { apply filter_In. split; [assumption | now apply Heq]. }
  destruct (filter (fun r => eqb (key r) k) tbl); [destruct Hf|].
  simpl in *. lia.
Qed.

(** X18. ComputeDailyTrends keeps the keys of the destination relations
    distinct, whatever fails: if no two rows had the same key before, none
    have after, so [daily_trends] holds at most one row for any date; and
    when the step returns, it holds exactly one row for each date on which
    the source has an order. *)
Theorem daily_step_keeps_one_row_per_date (d : database) (fs : list bool)
  (today : date) (plan : scan_order) (tr : list event) :
  pk_ok d ->
  pk_ok (committed (snd (upsert_daily_trends (idle d fs today plan tr)))) /\
  (forall x,
     (List.length
        (filter (fun r => Z.eqb (DailyTrends.order_date r) x)
           (rows_of (daily_trends
              (committed (snd (upsert_daily_trends
                                 (idle d fs today plan tr))))))) <= 1)%nat) /\
  (fst (upsert_daily_trends (idle d fs today plan tr)) = Ok tt ->
   forall x, In x (order_dates (order d)) ->
     List.length
       (filter (fun r => Z.eqb (DailyTrends.order_date r) x)
          (rows_of (daily_trends
             (committed (snd (upsert_daily_trends
                                (idle d fs today plan tr))))))) = 1%nat).
Proof.
  intros Hpk.
  destruct (upsert_daily_trends (idle d fs today plan tr)) as [r w'] eqn:E.
  simpl.
  pose proof (upsert_daily_trends_pk_ok (idle d fs today plan tr) _ _
                eq_refl E Hpk) as Hpk'.
  conjs.
  - exact Hpk'.
  - intros x. apply at_most_one_row; [apply Z.eqb_eq | apply Hpk'].
  - intros -> x Hx.
    apply (exactly_one_row DailyTrends.order_date Z.eqb);
      [apply Z.eqb_eq | apply Hpk' |].
    rewrite (daily_step_keys _ _ _ _ _ _ E), in_app_iff, new_dates_In.
    destruct (in_dec Z.eq_dec x
                (map DailyTrends.order_date (rows_of (daily_trends d))));
      tauto.
Qed.

Lemma daily_step_keeps_one_row_per_date_witness :
  List.length
    (filter (fun r => Z.eqb (DailyTrends.order_date r) d_2025_01_02)
       (rows_of (daily_trends
          (committed (snd (upsert_daily_trends
             (idle (mkdb january_orders None
                      (Some [DailyTrends.mk d_2025_01_02 9 9;
                             DailyTrends.mk 100 1 1]))
                [] 20100 heap_order []))))))) = 1%nat.
Proof.
  destruct (daily_step_keeps_one_row_per_date
              (mkdb january_orders None
                 (Some [DailyTrends.mk d_2025_01_02 9 9;
                        DailyTrends.mk 100 1 1]))
              [] 20100 heap_order []) as (_ & _ & H).
  - split; [constructor | vm_compute].
    constructor; [intros [H|[]]; discriminate H|].
    constructor; [intros [] | constructor].
  - apply H; [vm_compute; reflexivity | vm_compute; auto].
Defined.
